(** * ela-lib: gateway URI classifier, response and mapping rewrites,
      bulk-orchestrator builder and the typed (V6) cluster adapter.

    A shallow embedding of [service/gateway/gateway.go] (package gateway),
    of the bulk migrator that follows it (package service) and of the V6
    adapter (package es), with the properties the specification states
    about them.

    Conventions.  Go strings are byte strings, modelled by [string]; Go
    [uint] values are only copied and compared against zero here, they are
    modelled by [N]; Go maps are finite maps ([gmap]); a nil pointer or a
    nil map is [None].  Functions that can panic or end the process return
    an [outcome]. *)

From Stdlib Require Import ZArith NArith String Ascii List Bool Lia.
From stdpp Require Import base option gmap strings list fin_maps pretty.

Set Warnings "-register-all".
Open Scope string_scope.

(** ** Results of Go functions *)

(** The error values the embedded code produces.  [formatError] builds the
    second one; the others come from the HTTP client, the decoders and
    [fmt.Errorf]. *)
Inductive error : Type :=
| TransportError (msg : string)
| ClusterError (status : Z) (body : string)
| DecodeError (msg : string)
| Errorf (msg : string).

(** Ways a Go function ends without returning. *)
Inductive crash : Type :=
| NilDereference
| IndexOutOfRange (index len : nat)
| BadTypeAssertion
| ProcessExit (code : Z)
| Panic (msg : string).

Inductive outcome (A : Type) : Type :=
| Ok (a : A)
| Err (e : error)
| Crash (c : crash).

Arguments Ok {A} a.
Arguments Err {A} e.
Arguments Crash {A} c.

Definition obind {A B} (x : outcome A) (k : A -> outcome B) : outcome B :=
  match x with
  | Ok a => k a
  | Err e => Err e
  | Crash c => Crash c
  end.

Notation "'do' x <- e1 ; e2" := (obind e1 (fun x => e2))
  (at level 10, x name, e1 at level 100, e2 at level 200,
   format "'[v' 'do'  x  <-  e1 ; '/' e2 ']'").

(** [s[i]] on a slice: out of range is a run-time panic. *)
Definition index_at {A} (l : list A) (i : nat) : outcome A :=
  match nth_error l i with
  | Some a => Ok a
  | None => Crash (IndexOutOfRange i (length l))
  end.

(** ** Package strings *)

Module GoStrings.

(** [strings.HasPrefix(s, prefix)]. *)
Fixpoint HasPrefix (s prefix : string) : bool :=
  match prefix with
  | EmptyString => true
  | String c p =>
      match s with
      | EmptyString => false
      | String d s' => Ascii.eqb d c && HasPrefix s' p
      end
  end.

(** [s[n:]] for [n <= len(s)]. *)
Fixpoint drop_bytes (n : nat) (s : string) : string :=
  match n, s with
  | O, _ => s
  | S n', String _ s' => drop_bytes n' s'
  | S _, EmptyString => EmptyString
  end.

(** [strings.HasSuffix(s, suffix)]:
    [len(s) >= len(suffix) && s[len(s)-len(suffix):] == suffix]. *)
Definition HasSuffix (s suffix : string) : bool :=
  (String.length suffix <=? String.length s)%nat
  && String.eqb (drop_bytes (String.length s - String.length suffix) s) suffix.

(** [strings.Split(s, sep)] for a separator of one byte, the only way the
    embedded code calls it ([sep = "/"]).  The result is never empty:
    [Split("", "/")] is [[""]]. *)
Fixpoint Split (s : string) (sep : ascii) : list string :=
  match s with
  | EmptyString => [EmptyString]
  | String c s' =>
      if Ascii.eqb c sep then EmptyString :: Split s' sep
      else match Split s' sep with
           | [] => [String c EmptyString]
           | x :: xs => String c x :: xs
           end
  end.

(** [strings.Join(elems, sep)]. *)
Fixpoint Join (elems : list string) (sep : string) : string :=
  match elems with
  | [] => EmptyString
  | [x] => x
  | x :: xs => x ++ sep ++ Join xs sep
  end.

(** The white space of ASCII: blank, tab, line feed, vertical tab, form
    feed, carriage return. *)
Definition isSpace (c : ascii) : bool :=
  let n := nat_of_ascii c in
  (n =? 32)%nat || ((9 <=? n)%nat && (n <=? 13)%nat).

(** Whether the byte [c] is the number [n]. *)
Definition byte_is (c : ascii) (n : nat) : bool := (nat_of_ascii c =? n)%nat.

(** The number of bytes of the white-space character that [s] starts with,
    [0] when it starts with none.  [strings.Fields] splits on
    [unicode.IsSpace], read off the UTF-8 decoding of the string: besides
    the six of ASCII these are U+0085 and U+00A0 (bytes [C2 85], [C2 A0]),
    U+1680 ([E1 9A 80]), U+2000 to U+200A ([E2 80 80] to [E2 80 8A]),
    U+2028, U+2029 and U+202F ([E2 80 A8], [E2 80 A9], [E2 80 AF]), U+205F
    ([E2 81 9F]) and U+3000 ([E3 80 80]).  The first byte of each of these
    is never a continuation byte, so that the decoder meets it at the
    start of a character wherever it stands, and what follows it is
    well-formed: looking for the byte sequences finds the characters. *)
Definition space_width (s : string) : nat :=
  match s with
  | EmptyString => 0
  | String c rest =>
      if isSpace c then 1
      else
        match rest with
        | EmptyString => 0
        | String d rest' =>
            if byte_is c 194 && (byte_is d 133 || byte_is d 160) then 2
            else
              match rest' with
              | EmptyString => 0
              | String e _ =>
                  if (byte_is c 225 && byte_is d 154 && byte_is e 128)
                     || (byte_is c 226 && byte_is d 128
                         && (((128 <=? nat_of_ascii e)%nat && (nat_of_ascii e <=? 138)%nat)
                             || byte_is e 168 || byte_is e 169 || byte_is e 175))
                     || (byte_is c 226 && byte_is d 129 && byte_is e 159)
                     || (byte_is c 227 && byte_is d 128 && byte_is e 128)
                  then 3
                  else 0
              end
        end
  end.

(** [strings.Fields(s)]: the maximal runs of bytes between white-space
    characters, in order.  [cur] is the field being read, if any; [skip]
    counts the bytes still to pass over of the white-space character being
    read. *)
Fixpoint fields_from (skip : nat) (cur : option string) (s : string) : list string :=
  match s with
  | EmptyString => match cur with Some w => [w] | None => [] end
  | String c s' =>
      match skip with
      | S skip' => fields_from skip' cur s'
      | O =>
          match space_width s with
          | S width =>
              match cur with
              | Some w => w :: fields_from width None s'
              | None => fields_from width None s'
              end
          | O =>
              match cur with
              | Some w => fields_from 0 (Some (w ++ String c EmptyString)) s'
              | None => fields_from 0 (Some (String c EmptyString)) s'
              end
          end
      end
  end.

Definition Fields (s : string) : list string := fields_from 0 None s.

End GoStrings.

(** ** Decoded JSON values

    What [json.Unmarshal] and [gjson] produce in an [interface{}]: objects
    are [map[string]interface{}].  Numbers are kept as integers, which is
    all the embedded code stores or moves. *)
Inductive json : Type :=
| JNull
| JBool (b : bool)
| JNum (z : Z)
| JStr (s : string)
| JArr (l : list json)
| JObj (m : gmap string json).

(** A [map[string]interface{}] variable: [None] is the nil map. *)
Definition gomap : Type := option (gmap string json).

(** [len(m)] of a map, nil included. *)
Definition map_len (m : gomap) : nat :=
  match m with
  | Some o => size o
  | None => 0
  end.

(** A map variable stored in an [interface{}]. *)
Definition json_of_gomap (m : gomap) : json :=
  match m with
  | Some o => JObj o
  | None => JNull
  end.

(** ** Package es: declarations the three source files share *)

(** The [es.ES] interface value: the adapter object it points to
    ([es_addr], which is what [==] on two interface values compares) and
    what its methods answer. *)
Record ES : Type := mkES {
  es_addr : nat;
  GetClusterVersion : string;
  GetAddresses : list string;
  GetUser : string;
  GetPassword : string;
  GetIndexes : outcome (list string)
}.

(** Modelled from the spec: the [es.RequestAction*] constants are declared
    outside the source files at hand.  Section 6 lists the parsed REST
    actions as distinct actions; [RequestActionUnset] is the zero value of
    the field. *)
Inductive request_action : Type :=
| RequestActionUnset
| RequestActionGetInfo
| RequestActionCreateDocument
| RequestActionUpdateDocument
| RequestActionUpsertDocument
| RequestActionDeleteDocument
| RequestActionDocument
| RequestActionSearch
| RequestActionSearchLimit
| RequestActionClusterHealth
| RequestActionClusterSettings
| RequestActionGetIndexMapping
| RequestActionUpdateIndexMapping
| RequestActionGetIndexSettings
| RequestActionUpdateIndexSettings
| RequestActionBulk
| RequestActionGetIndex
| RequestActionCreateIndex
| RequestActionDeleteIndex.

(** [es.UriPathParserResult], with the fields [parseUriPath] assigns. *)
Record UriPathParserResult : Type := mkUriPathParserResult {
  HttpAction : string;
  Uri : string;
  RequestAction : request_action;
  Index : string;
  IndexType : string;
  DocumentId : string
}.

(** ** Package gateway *)

Module gateway.
Import GoStrings.

Record ESGateway : Type := mkESGateway {
  Address : string;
  User : string;
  Password : string;
  SourceES : ES;
  TargetES : ES;
  MasterES : ES;
  SlaveES : ES
}.

(** [strings.Join(append(segments[:2], segments[3:]...), "/")]: the path
    without its type segment. *)
Definition without_type (segments : list string) : string :=
  Join (take 2 segments ++ drop 3 segments) "/".

Definition set_action (a : request_action) (r : UriPathParserResult) :=
  mkUriPathParserResult (HttpAction r) (Uri r) a (Index r) (IndexType r) (DocumentId r).

Definition set_uri (u : string) (r : UriPathParserResult) :=
  mkUriPathParserResult (HttpAction r) u (RequestAction r) (Index r) (IndexType r) (DocumentId r).

Definition set_index (i : string) (r : UriPathParserResult) :=
  mkUriPathParserResult (HttpAction r) (Uri r) (RequestAction r) i (IndexType r) (DocumentId r).

Definition set_type (t : string) (r : UriPathParserResult) :=
  mkUriPathParserResult (HttpAction r) (Uri r) (RequestAction r) (Index r) t (DocumentId r).

Definition set_id (d : string) (r : UriPathParserResult) :=
  mkUriPathParserResult (HttpAction r) (Uri r) (RequestAction r) (Index r) (IndexType r) d.

(** [if httpAction == verb { result.RequestAction = a }]. *)
Definition on_verb (httpAction verb : string) (a : request_action)
    (r : UriPathParserResult) : UriPathParserResult :=
  if String.eqb httpAction verb then set_action a r else r.

(** The block shared by the document branches: with [long] segments the
    path carries a type, with [long - 1] it does not. *)
Definition document_segments (needType : bool) (long : nat)
    (segments : list string) (r : UriPathParserResult)
    : outcome UriPathParserResult :=
  if (length segments =? long)%nat then
    do t <- index_at segments 2;
    do d <- index_at segments 3;
    let r := set_id d (set_type t r) in
    Ok (if negb needType then set_uri (without_type segments) r else r)
  else if (length segments =? long - 1)%nat then
    do d <- index_at segments 2;
    Ok (set_id d r)
  else Ok r.

(** The block shared by the [_search] and [_mapping] branches. *)
Definition typed_segments (needType : bool) (segments : list string)
    (r : UriPathParserResult) : outcome UriPathParserResult :=
  if (length segments =? 4)%nat then
    do t <- index_at segments 2;
    let r := set_type t r in
    Ok (if negb needType then set_uri (without_type segments) r else r)
  else Ok r.

(** [ESGateway.parseUriPath].  The Go function returns a result and an
    error side by side; the pair is kept. *)
Definition parseUriPath (httpAction uriPath : string) (esInstance : ES)
    : outcome (UriPathParserResult * option error) :=
  let clusterVersion := GetClusterVersion esInstance in
  let needType := HasPrefix clusterVersion "5." || HasPrefix clusterVersion "6." in
  let result := mkUriPathParserResult httpAction uriPath RequestActionUnset "" "" "" in
  if String.eqb uriPath "/" && String.eqb httpAction "GET" then
    Ok (set_action RequestActionGetInfo result, None)
  else
  let segments := Split uriPath "/" in
  if HasSuffix "/_create" uriPath then
    let result := on_verb httpAction "POST" RequestActionCreateDocument result in
    do i <- index_at segments 1;
    do result <- document_segments needType 5 segments (set_index i result);
    Ok (result, None)
  else if HasSuffix "/_update" uriPath then
    let result := on_verb httpAction "POST" RequestActionUpdateDocument result in
    do i <- index_at segments 1;
    do result <- document_segments needType 5 segments (set_index i result);
    Ok (result, None)
  else if HasSuffix "/_search" uriPath then
    let result := on_verb httpAction "GET" RequestActionSearch result in
    let result := on_verb httpAction "POST" RequestActionSearchLimit result in
    do i <- index_at segments 1;
    do result <- typed_segments needType segments (set_index i result);
    Ok (result, None)
  else if String.eqb uriPath "/_cluster/health" then
    Ok (on_verb httpAction "GET" RequestActionClusterHealth result, None)
  else if String.eqb uriPath "/_cluster/settings" then
    Ok (on_verb httpAction "GET" RequestActionClusterSettings result, None)
  else if HasSuffix uriPath "/_mapping" then
    let result := on_verb httpAction "GET" RequestActionGetIndexMapping result in
    let result := on_verb httpAction "PUT" RequestActionUpdateIndexMapping result in
    do i <- index_at segments 1;
    do result <- typed_segments needType segments (set_index i result);
    Ok (result, None)
  else if HasSuffix uriPath "/_settings" then
    let result := on_verb httpAction "GET" RequestActionGetIndexSettings result in
    let result := on_verb httpAction "PUT" RequestActionUpdateIndexSettings result in
    do i <- index_at segments 1;
    Ok (set_index i result, None)
  else if HasSuffix uriPath "/_bulk" then
    Ok (set_action RequestActionBulk result, None)
  else if (length segments =? 2)%nat then
    let result := on_verb httpAction "GET" RequestActionGetIndex result in
    let result := on_verb httpAction "PUT" RequestActionCreateIndex result in
    let result := on_verb httpAction "DELETE" RequestActionDeleteIndex result in
    do i <- index_at segments 1;
    Ok (set_index i result, None)
  else if (3 <=? length segments)%nat then
    let result := on_verb httpAction "GET" RequestActionDocument result in
    let result := on_verb httpAction "PUT" RequestActionUpsertDocument result in
    let result := on_verb httpAction "DELETE" RequestActionDeleteDocument result in
    do i <- index_at segments 1;
    do result <- document_segments needType 4 segments (set_index i result);
    Ok (result, None)
  else Ok (result, Some (Errorf ("invalid uri " ++ uriPath))).

(** [err.Error()]. *)
Definition error_message (e : error) : string :=
  match e with
  | TransportError msg => msg
  | ClusterError _ body => body
  | DecodeError msg => msg
  | Errorf msg => msg
  end.

(** Modelled from the spec: [utils.GetValueFromMapByPath] and
    [utils.SetValueFromMapByPath] are declared outside the source files at
    hand.  Section 6 and scenario 6 name the total by dotted paths
    ([hits.total], [hit.total]): each key of the path names a field of the
    object one level down; the setter makes the objects on the way that
    are not there. *)
Fixpoint get_keys (keys : list string) (v : json) : option json :=
  match keys with
  | [] => Some v
  | key :: rest =>
      match v with
      | JObj m =>
          match m !! key with
          | Some child => get_keys rest child
          | None => None
          end
      | _ => None
      end
  end.

Fixpoint set_keys (keys : list string) (value : json) (m : gmap string json)
    : gmap string json :=
  match keys with
  | [] => m
  | key :: rest =>
      match rest with
      | [] => <[key := value]> m
      | _ :: _ =>
          let child := match m !! key with
                       | Some (JObj c) => c
                       | _ => ∅
                       end in
          <[key := JObj (set_keys rest value child)]> m
      end
  end.

Definition get_by_path (m : gmap string json) (path : string) : json * bool :=
  match get_keys (Split path ".") (JObj m) with
  | Some v => (v, true)
  | None => (JNull, false)
  end.

Definition set_by_path (m : gmap string json) (path : string) (value : json)
    : gmap string json :=
  set_keys (Split path ".") value m.

(** The order of [map_to_list]: one of the orders in which a [range] loop
    may visit a map. *)
Definition keys_in_order (m : gmap string json) : list string :=
  (map_to_list m).*1.

(** Modelled from the spec: [es.ClusterVersionGte7] is declared outside
    the source files at hand.  Section 3 reads a version string by its
    major prefix: 5 and 6 are the typed family, 7 and above the typeless
    one. *)
Definition version_gte7 (es : ES) : bool :=
  negb (HasPrefix (GetClusterVersion es) "5." || HasPrefix (GetClusterVersion es) "6.").

Section Handlers.

(** Declared outside the source files at hand, taken as parameters:
    [es.ClusterVersionGte7], the two path helpers of package utils (the
    setter updates the map in place, here it returns the updated map),
    [json.Unmarshal] into a map, and the order in which
    [for key := range m] visits the keys of [m]. *)
Variable ClusterVersionGte7 : ES -> bool.
Variable GetValueFromMapByPath : gmap string json -> string -> json * bool.
Variable SetValueFromMapByPath : gmap string json -> string -> json -> gmap string json.
Variable Unmarshal : string -> error + gmap string json.
Variable range_keys : gmap string json -> list string.

(** Lines 306-319 of [onHandler]: the rewrite of the decoded body. *)
Definition rewrite_total (gateway : ESGateway) (statusCode : Z)
    (bodyMap : gmap string json) : gmap string json :=
  if negb (es_addr (MasterES gateway) =? es_addr (SourceES gateway))%nat
     && (statusCode =? 200)%Z
  then
    let bodyMap :=
      if ClusterVersionGte7 (MasterES gateway)
         && negb (ClusterVersionGte7 (SourceES gateway))
      then
        let totalValue := fst (GetValueFromMapByPath bodyMap "hits.total.value") in
        SetValueFromMapByPath bodyMap "hit.total" totalValue
      else bodyMap in
    if negb (ClusterVersionGte7 (MasterES gateway))
       && ClusterVersionGte7 (SourceES gateway)
    then
      let totalValue := fst (GetValueFromMapByPath bodyMap "hits.total") in
      SetValueFromMapByPath bodyMap "hit.total"
        (JObj (<["value" := totalValue]> {["relation" := JStr "eq"]}))
    else bodyMap
  else bodyMap.

(** The first key other than ["properties"] that the loop of
    [modifyMappings] meets; [""] when there is none. *)
Definition first_type_name (keys : list string) : string :=
  match List.find (fun key => negb (String.eqb key "properties")) keys with
  | Some key => key
  | None => ""
  end.

(** [ESGateway.modifyMappings].  [Ok None]: the request body is left as it
    is; [Ok (Some data)]: it is replaced by [json.Marshal(data)]. *)
Definition modifyMappings (gateway : ESGateway) (body : string)
    : outcome (option (gmap string json)) :=
  if Bool.eqb (ClusterVersionGte7 (MasterES gateway))
              (ClusterVersionGte7 (SlaveES gateway))
  then Ok None
  else
    match Unmarshal body with
    | inl err => Err err
    | inr data =>
        match data !! "mappings" with
        | Some (JObj mappings) =>
            let typeName := first_type_name (range_keys mappings) in
            if negb (String.eqb typeName "") then
              match mappings !! typeName with
              | Some (JObj typed) =>
                  match typed !! "properties" with
                  | Some properties =>
                      let mappings :=
                        delete typeName (<["properties" := properties]> mappings) in
                      Ok (Some (<["mappings" := JObj mappings]> data))
                  | None => Err (Errorf "invalid properties format")
                  end
              | _ => Crash BadTypeAssertion
              end
            else
              match mappings !! "properties" with
              | Some properties =>
                  let mappings :=
                    delete "properties"
                      (<["doc" := JObj {["properties" := properties]}]> mappings) in
                  Ok (Some (<["mappings" := JObj mappings]> data))
              | None => Err (Errorf "invalid properties format")
              end
        | _ => Err (Errorf "invalid mappings format")
        end
    end.

End Handlers.

End gateway.

(** ** Package es: the typed (V6) adapter *)

Module V6.
Import GoStrings.

(** Modelled from the spec: the [Operation*] constants of package es are
    declared outside the source files at hand.  Section 3 gives a document
    an [op] among create, update and delete; [OperationOther] stands for
    any other value of the field's type. *)
Inductive Operation : Type :=
| OperationCreate
| OperationUpdate
| OperationDelete
| OperationOther (raw : string).

(** [es.Doc], with the fields the adapter reads. *)
Record Doc : Type := mkDoc {
  ID : string;
  Type_ : string;
  Source : gomap;
  Op : Operation
}.

(** [es.ScrollOption]; the slice fields are pointers. *)
Record ScrollOption : Type := mkScrollOption {
  ScrollSize : N;
  ScrollTime : N;
  SliceId : option N;
  SliceSize : option N;
  Query : gmap string json;
  SortFields : list string
}.

Record ScrollResult : Type := mkScrollResult {
  Total : N;
  Docs : list Doc;
  ScrollId : string
}.

(** [esapi.Response], as far as the adapter looks at it. *)
Record Response : Type := mkResponse {
  StatusCode : Z;
  Body : string
}.

(** Request bodies are kept as the values [json.Marshal] and
    [json.Encoder] are given: a JSON value for one document, a list of
    values for a buffer of newline-delimited JSON, one value a line. *)
Definition ndjson : Type := list json.

(** The search request the functional options of [NewScroll] build. *)
Record SearchRequest : Type := mkSearchRequest {
  search_index : string;
  search_size : N;
  search_scroll_minutes : N;
  search_body : option json;
  search_sort : list string
}.

(** The calls of the embedded [elasticsearch6.Client] the adapter makes:
    each answers a response or a transport error. *)
Record Client : Type := mkClient {
  Search : SearchRequest -> error + Response;
  ClientBulk : ndjson -> error + Response;
  IndicesCreate : string -> json -> error + Response;
  IndicesExists : list string -> error + Response;
  CatIndices : error + Response
}.

(** [es.IESSettings]: what the getters of a settings bundle answer. *)
Record IESSettings : Type := mkIESSettings {
  GetSettings : gmap string json;
  GetMappings : gmap string json;
  GetAliases : gmap string json;
  GetIndex : string
}.

(** Modelled from the spec: [formatError] is declared outside the source
    files at hand.  Section 4.1: a failed status yields the one error kind
    CLUSTER_ERROR, which carries the status and the server message. *)
Definition formatError (res : Response) : error :=
  ClusterError (StatusCode res) (Body res).

(** [http.StatusOK]. *)
Definition StatusOK : Z := 200.

(** [lo.Assign(m1, m2, m3)]: later maps win. *)
Definition Assign3 (m1 m2 m3 : gmap string json) : gmap string json :=
  m3 ∪ (m2 ∪ m1).

(** The query [NewScroll] sends: a copy of [option.Query], with the slice
    clause when [option.SliceId] is set. *)
Definition scroll_query (option : ScrollOption) : outcome (gmap string json) :=
  let query := Query option in
  match SliceId option with
  | Some id =>
      match SliceSize option with
      | Some max =>
          Ok (<["slice" :=
                 JObj (<["field" := JStr "_id"]>
                       (<["id" := JNum (Z.of_N id)]>
                        {["max" := JNum (Z.of_N max)]}))]> query)
      | None => Crash NilDereference
      end
  | None => Ok query
  end.

(** The action and metadata line of [BulkBody]. *)
Definition bulk_meta (action index : string) (doc : Doc) : json :=
  JObj {[action :=
           JObj (<["_index" := JStr index]>
                 (<["_id" := JStr (ID doc)]>
                  {["_type" := JStr (Type_ doc)]}))]}.

(** [V6.BulkBody]: the buffer after the call. *)
Definition BulkBody (index : string) (buf : ndjson) (doc : Doc) : outcome ndjson :=
  do ab <-
    match Op doc with
    | OperationCreate => Ok ("index", Source doc)
    | OperationUpdate =>
        Ok ("update", Some {[Type_ doc := json_of_gomap (Source doc)]})
    | OperationDelete => Ok ("delete", None)
    | OperationOther raw => Err (Errorf ("unknow action " ++ raw))
    end;
  let action := fst ab in
  let body : gomap := snd ab in
  let buf := (buf ++ [bulk_meta action index doc])%list in
  if (0 <? map_len body)%nat then Ok (buf ++ [json_of_gomap body])%list
  else Ok buf.

Section Adapter.

(** The decoder of a scroll response ([json.Decoder], then
    [mapstructure.Decode] on each hit) and the lines a [bufio.Scanner]
    yields on a body, with the error that ended the scan if any: library
    code, taken as parameters. *)
Variable decodeScroll : string -> error + ScrollResult.
Variable scan_lines : string -> list string * option error.

Variable client : Client.

(** [V6.NewScroll]. *)
Definition NewScroll (index : string) (option : ScrollOption) : outcome ScrollResult :=
  do query <- scroll_query option;
  let body := if (0 <? size query)%nat then Some (JObj query) else None in
  let request :=
    mkSearchRequest index (ScrollSize option) (ScrollTime option) body
      (SortFields option) in
  match Search client request with
  | inl err => Err err
  | inr res =>
      if negb (StatusCode res =? StatusOK)%Z then Err (formatError res)
      else match decodeScroll (Body res) with
           | inl err => Err err
           | inr scrollResult => Ok scrollResult
           end
  end.

(** [V6.Bulk]. *)
Definition Bulk (buf : ndjson) : outcome unit :=
  match ClientBulk client buf with
  | inl err => Err err
  | inr res =>
      if negb (StatusCode res =? StatusOK)%Z then Err (formatError res)
      else Ok tt
  end.

(** [V6.CreateIndex]. *)
Definition CreateIndex (esSetting : IESSettings) : outcome unit :=
  let indexBodyMap :=
    Assign3 (GetSettings esSetting) (GetMappings esSetting) (GetAliases esSetting) in
  match IndicesCreate client (GetIndex esSetting) (JObj indexBodyMap) with
  | inl err => Err err
  | inr res =>
      if negb (StatusCode res =? StatusOK)%Z then Err (formatError res)
      else Ok tt
  end.

(** [V6.IndexExisted]. *)
Definition IndexExisted (indexName : string) : outcome bool :=
  match IndicesExists client [indexName] with
  | inl err => Err err
  | inr res =>
      if (StatusCode res =? 404)%Z then Ok false
      else if negb (StatusCode res =? StatusOK)%Z then Err (formatError res)
      else Ok (StatusCode res =? 200)%Z
  end.

(** The loop of [GetIndexes]: [indices = append(indices, segments[2])] for
    each scanned line. *)
Fixpoint third_fields (lines : list string) (indices : list string)
    : outcome (list string) :=
  match lines with
  | [] => Ok indices
  | value :: rest =>
      let segments := Fields value in
      do name <- index_at segments 2;
      third_fields rest (indices ++ [name])
  end.

(** [V6.GetIndexes]; [log.Fatalf] ends the process. *)
Definition GetIndexes : outcome (list string) :=
  match CatIndices client with
  | inl err => Crash (ProcessExit 1)
  | inr res =>
      if negb (StatusCode res =? StatusOK)%Z then Err (formatError res)
      else
        let scanned := scan_lines (Body res) in
        do indices <- third_fields (fst scanned) [];
        match snd scanned with
        | Some err => Err err
        | None => Ok indices
        end
  end.

End Adapter.

End V6.

(** ** Package service: the bulk migrator *)

Module service.
Import GoStrings.

(** [config.IndexPair]. *)
Record IndexPair : Type := mkIndexPair {
  SourceIndex : string;
  TargetIndex : string
}.

(** The values the migrator keeps in its [context.Context]. *)
Record Context : Type := mkContext {
  CtxKeySourceESVersion : option string;
  CtxKeyTargetESVersion : option string;
  CtxKeyIgnoreSystemIndex : bool
}.

Record BulkMigrator : Type := mkBulkMigrator {
  ctx : Context;
  SourceES : ES;
  TargetES : ES;
  Parallelism : N;
  IndexPairMap : gmap string IndexPair;
  Error : option error;
  ScrollSize : N;
  ScrollTime : N;
  SliceSize : N;
  BufferCount : N;
  WriteParallel : N;
  WriteSize : N;
  Ids : list string;
  CompareParallel : N
}.

(** Modelled from the spec: the [default*] constants are declared outside
    the source files at hand; section 6 gives their values. *)
Definition defaultParallelism : N := 8.
Definition defaultScrollSize : N := 1000.
Definition defaultScrollTime : N := 5.
Definition defaultSliceSize : N := 1.
Definition defaultBufferCount : N := 4.
Definition defaultWriteParallel : N := 4.
Definition defaultWriteSize : N := 1000.
Definition defaultCompareParallel : N := 4.

(** [err == nil]. *)
Definition is_nil {A} (x : option A) : bool :=
  match x with
  | None => true
  | Some _ => false
  end.

(** [utils.SetCtxKeySourceESVersion], [utils.SetCtxKeyTargetESVersion]. *)
Definition SetCtxKeySourceESVersion (c : Context) (v : string) : Context :=
  mkContext (Some v) (CtxKeyTargetESVersion c) (CtxKeyIgnoreSystemIndex c).

Definition SetCtxKeyTargetESVersion (c : Context) (v : string) : Context :=
  mkContext (CtxKeySourceESVersion c) (Some v) (CtxKeyIgnoreSystemIndex c).

(** [NewBulkMigratorWithES]. *)
Definition NewBulkMigratorWithES (c : Context) (sourceES targetES : ES) : BulkMigrator :=
  let c := SetCtxKeySourceESVersion c (GetClusterVersion sourceES) in
  let c := SetCtxKeyTargetESVersion c (GetClusterVersion targetES) in
  {|
    ctx := c;
    SourceES := sourceES;
    TargetES := targetES;
    Parallelism := defaultParallelism;
    IndexPairMap := ∅;
    Error := None;
    ScrollSize := defaultScrollSize;
    ScrollTime := defaultScrollTime;
    SliceSize := defaultSliceSize;
    BufferCount := defaultBufferCount;
    WriteParallel := defaultWriteParallel;
    WriteSize := defaultWriteSize;
    Ids := [];
    CompareParallel := defaultCompareParallel
  |}.

(** [BulkMigrator.getIndexPairKey]: [fmt.Sprintf("%s:%s", ...)]. *)
Definition getIndexPairKey (indexPair : IndexPair) : string :=
  SourceIndex indexPair ++ ":" ++ TargetIndex indexPair.

(** Whether the byte [c] occurs in [s]. *)
Fixpoint contains_byte (c : ascii) (s : string) : bool :=
  match s with
  | EmptyString => false
  | String d s' => Ascii.eqb d c || contains_byte c s'
  end.

(** Every entry of a pair map is stored under the identity of its pair. *)
Definition keyed_by_identity (pairs : gmap string IndexPair) : Prop :=
  forall k p, pairs !! k = Some p -> getIndexPairKey p = k.

(** [lo.Assign(m1, m2)]: a new map, the entries of [m2] win. *)
Definition Assign (m1 m2 : gmap string IndexPair) : gmap string IndexPair :=
  m2 ∪ m1.

(** The loop of [WithIndexPairs] over its arguments. *)
Definition collect_pairs (indexPairs : list IndexPair) : gmap string IndexPair :=
  fold_left
    (fun newIndexPairsMap indexPair =>
       let indexPairKey := getIndexPairKey indexPair in
       if is_nil (newIndexPairsMap !! indexPairKey)
       then <[indexPairKey := indexPair]> newIndexPairsMap
       else newIndexPairsMap)
    indexPairs ∅.

(** [BulkMigrator.WithIndexPairs], on the pairs its arguments point to:
    none of the pointers is nil here. *)
Definition WithIndexPairs (m : BulkMigrator) (indexPairs : list IndexPair) : BulkMigrator :=
  if negb (is_nil (Error m)) then m else
  let newIndexPairsMap := collect_pairs indexPairs in
  let pairs :=
    if (0 <? size newIndexPairsMap)%nat
    then Assign (IndexPairMap m) newIndexPairsMap
    else IndexPairMap m in
  {|
    ctx := ctx m;
    SourceES := SourceES m;
    TargetES := TargetES m;
    Parallelism := Parallelism m;
    IndexPairMap := pairs;
    Error := Error m;
    ScrollSize := ScrollSize m;
    ScrollTime := ScrollTime m;
    SliceSize := SliceSize m;
    BufferCount := BufferCount m;
    WriteParallel := WriteParallel m;
    WriteSize := WriteSize m;
    Ids := Ids m;
    CompareParallel := CompareParallel m
  |}.

(** [BulkMigrator.WithScrollSize]. *)
Definition WithScrollSize (m : BulkMigrator) (scrollSize : N) : BulkMigrator :=
  if negb (is_nil (Error m)) then m else
  let scrollSize := if (scrollSize =? 0)%N then defaultScrollSize else scrollSize in
  {|
    ctx := ctx m;
    SourceES := SourceES m;
    TargetES := TargetES m;
    Parallelism := Parallelism m;
    IndexPairMap := IndexPairMap m;
    Error := Error m;
    ScrollSize := scrollSize;
    ScrollTime := ScrollTime m;
    SliceSize := SliceSize m;
    BufferCount := BufferCount m;
    WriteParallel := WriteParallel m;
    WriteSize := WriteSize m;
    Ids := Ids m;
    CompareParallel := CompareParallel m
  |}.

(** [BulkMigrator.WithScrollTime]. *)
Definition WithScrollTime (m : BulkMigrator) (scrollTime : N) : BulkMigrator :=
  if negb (is_nil (Error m)) then m else
  let scrollTime := if (scrollTime =? 0)%N then defaultScrollTime else scrollTime in
  {|
    ctx := ctx m;
    SourceES := SourceES m;
    TargetES := TargetES m;
    Parallelism := Parallelism m;
    IndexPairMap := IndexPairMap m;
    Error := Error m;
    ScrollSize := ScrollSize m;
    ScrollTime := scrollTime;
    SliceSize := SliceSize m;
    BufferCount := BufferCount m;
    WriteParallel := WriteParallel m;
    WriteSize := WriteSize m;
    Ids := Ids m;
    CompareParallel := CompareParallel m
  |}.

(** [BulkMigrator.WithSliceSize]. *)
Definition WithSliceSize (m : BulkMigrator) (sliceSize : N) : BulkMigrator :=
  if negb (is_nil (Error m)) then m else
  let sliceSize := if (sliceSize =? 0)%N then defaultSliceSize else sliceSize in
  {|
    ctx := ctx m;
    SourceES := SourceES m;
    TargetES := TargetES m;
    Parallelism := Parallelism m;
    IndexPairMap := IndexPairMap m;
    Error := Error m;
    ScrollSize := ScrollSize m;
    ScrollTime := ScrollTime m;
    SliceSize := sliceSize;
    BufferCount := BufferCount m;
    WriteParallel := WriteParallel m;
    WriteSize := WriteSize m;
    Ids := Ids m;
    CompareParallel := CompareParallel m
  |}.

(** [BulkMigrator.WithBufferCount]. *)
Definition WithBufferCount (m : BulkMigrator) (bufferCount : N) : BulkMigrator :=
  if negb (is_nil (Error m)) then m else
  let bufferCount := if (bufferCount =? 0)%N then defaultBufferCount else bufferCount in
  {|
    ctx := ctx m;
    SourceES := SourceES m;
    TargetES := TargetES m;
    Parallelism := Parallelism m;
    IndexPairMap := IndexPairMap m;
    Error := Error m;
    ScrollSize := ScrollSize m;
    ScrollTime := ScrollTime m;
    SliceSize := SliceSize m;
    BufferCount := bufferCount;
    WriteParallel := WriteParallel m;
    WriteSize := WriteSize m;
    Ids := Ids m;
    CompareParallel := CompareParallel m
  |}.

(** [BulkMigrator.WithWriteParallel]. *)
Definition WithWriteParallel (m : BulkMigrator) (writeParallel : N) : BulkMigrator :=
  if negb (is_nil (Error m)) then m else
  let writeParallel := if (writeParallel =? 0)%N then defaultWriteParallel else writeParallel in
  {|
    ctx := ctx m;
    SourceES := SourceES m;
    TargetES := TargetES m;
    Parallelism := Parallelism m;
    IndexPairMap := IndexPairMap m;
    Error := Error m;
    ScrollSize := ScrollSize m;
    ScrollTime := ScrollTime m;
    SliceSize := SliceSize m;
    BufferCount := BufferCount m;
    WriteParallel := writeParallel;
    WriteSize := WriteSize m;
    Ids := Ids m;
    CompareParallel := CompareParallel m
  |}.

(** [BulkMigrator.WithWriteSize]. *)
Definition WithWriteSize (m : BulkMigrator) (writeSize : N) : BulkMigrator :=
  if negb (is_nil (Error m)) then m else
  let writeSize := if (writeSize =? 0)%N then defaultWriteSize else writeSize in
  {|
    ctx := ctx m;
    SourceES := SourceES m;
    TargetES := TargetES m;
    Parallelism := Parallelism m;
    IndexPairMap := IndexPairMap m;
    Error := Error m;
    ScrollSize := ScrollSize m;
    ScrollTime := ScrollTime m;
    SliceSize := SliceSize m;
    BufferCount := BufferCount m;
    WriteParallel := WriteParallel m;
    WriteSize := writeSize;
    Ids := Ids m;
    CompareParallel := CompareParallel m
  |}.

(** [BulkMigrator.WithParallelism]; the literal names neither [WriteSize]
    nor [CompareParallel], which get their zero value. *)
Definition WithParallelism (m : BulkMigrator) (parallelism : N) : BulkMigrator :=
  if negb (is_nil (Error m)) then m else
  let parallelism := if (parallelism =? 0)%N then defaultParallelism else parallelism in
  {|
    ctx := ctx m;
    SourceES := SourceES m;
    TargetES := TargetES m;
    Parallelism := parallelism;
    IndexPairMap := IndexPairMap m;
    Error := Error m;
    ScrollSize := ScrollSize m;
    ScrollTime := ScrollTime m;
    SliceSize := SliceSize m;
    BufferCount := BufferCount m;
    WriteParallel := WriteParallel m;
    WriteSize := 0%N;
    Ids := Ids m;
    CompareParallel := 0%N
  |}.

(** [BulkMigrator.WithIds]; the literal does not name [CompareParallel]. *)
Definition WithIds (m : BulkMigrator) (ids : list string) : BulkMigrator :=
  if negb (is_nil (Error m)) then m else
  {|
    ctx := ctx m;
    SourceES := SourceES m;
    TargetES := TargetES m;
    Parallelism := Parallelism m;
    IndexPairMap := IndexPairMap m;
    Error := Error m;
    ScrollSize := ScrollSize m;
    ScrollTime := ScrollTime m;
    SliceSize := SliceSize m;
    BufferCount := BufferCount m;
    WriteParallel := WriteParallel m;
    WriteSize := WriteSize m;
    Ids := ids;
    CompareParallel := 0%N
  |}.

Section Builder.

(** [regexp.Match(pattern, []byte(index))], library code, and the
    package-level [compareParallel] that [WithCompareParallelism] stores,
    declared outside the source files at hand: parameters. *)
Variable regexp_Match : string -> string -> error + bool.
Variable compareParallel : N.

(** [BulkMigrator.WithCompareParallelism]; the argument is normalised and
    then not used, and the literal does not name [WriteSize]. *)
Definition WithCompareParallelism (m : BulkMigrator) (compareParallelism : N)
    : BulkMigrator :=
  if negb (is_nil (Error m)) then m else
  let compareParallelism :=
    if (compareParallelism =? 0)%N then defaultCompareParallel
    else compareParallelism in
  {|
    ctx := ctx m;
    SourceES := SourceES m;
    TargetES := TargetES m;
    Parallelism := Parallelism m;
    IndexPairMap := IndexPairMap m;
    Error := Error m;
    ScrollSize := ScrollSize m;
    ScrollTime := ScrollTime m;
    SliceSize := SliceSize m;
    BufferCount := BufferCount m;
    WriteParallel := WriteParallel m;
    WriteSize := 0%N;
    Ids := Ids m;
    CompareParallel := compareParallel
  |}.

(** The loop of [filterIndexes]. *)
Fixpoint filter_loop (ignoreSystemIndex : bool) (pattern : string)
    (indexes filteredIndexes : list string) : outcome (list string) :=
  match indexes with
  | [] => Ok filteredIndexes
  | index :: rest =>
      if ignoreSystemIndex && HasPrefix index "." then
        filter_loop ignoreSystemIndex pattern rest filteredIndexes
      else
        match regexp_Match pattern index with
        | inl err => Err err
        | inr ok =>
            filter_loop ignoreSystemIndex pattern rest
              (if ok then filteredIndexes ++ [index] else filteredIndexes)
        end
  end.

(** [BulkMigrator.filterIndexes]. *)
Definition filterIndexes (m : BulkMigrator) (pattern : string) : outcome (list string) :=
  let ignoreSystemIndex := CtxKeyIgnoreSystemIndex (ctx m) in
  do indexes <- GetIndexes (SourceES m);
  filter_loop ignoreSystemIndex pattern indexes [].

(** The loop of [WithPatternIndexes] over the filtered indexes; [existing]
    is the map of the new migrator, which the test reads. *)
Definition collect_pattern (existing : gmap string IndexPair)
    (filterIndexes : list string) : gmap string IndexPair :=
  fold_left
    (fun newIndexPairsMap index =>
       let indexPair := mkIndexPair index index in
       let newIndexPairKey := getIndexPairKey indexPair in
       if is_nil (existing !! newIndexPairKey)
       then <[newIndexPairKey := indexPair]> newIndexPairsMap
       else newIndexPairsMap)
    filterIndexes ∅.

(** [BulkMigrator.WithPatternIndexes]; the literal names neither
    [WriteSize] nor [CompareParallel].  A panic of the source adapter's
    [GetIndexes] goes through. *)
Definition WithPatternIndexes (m : BulkMigrator) (pattern : string)
    : outcome BulkMigrator :=
  if negb (is_nil (Error m)) then Ok m else
  match filterIndexes m pattern with
  | Crash c => Crash c
  | Err e =>
      Ok {|
        ctx := ctx m;
        SourceES := SourceES m;
        TargetES := TargetES m;
        Parallelism := Parallelism m;
        IndexPairMap := IndexPairMap m;
        Error := Some e;
        ScrollSize := ScrollSize m;
        ScrollTime := ScrollTime m;
        SliceSize := SliceSize m;
        BufferCount := BufferCount m;
        WriteParallel := WriteParallel m;
        WriteSize := 0%N;
        Ids := Ids m;
        CompareParallel := 0%N
      |}
  | Ok filterIndexes =>
      let newIndexPairsMap := collect_pattern (IndexPairMap m) filterIndexes in
      let pairs :=
        if (0 <? size newIndexPairsMap)%nat
        then Assign (IndexPairMap m) newIndexPairsMap
        else IndexPairMap m in
      Ok {|
        ctx := ctx m;
        SourceES := SourceES m;
        TargetES := TargetES m;
        Parallelism := Parallelism m;
        IndexPairMap := pairs;
        Error := None;
        ScrollSize := ScrollSize m;
        ScrollTime := ScrollTime m;
        SliceSize := SliceSize m;
        BufferCount := BufferCount m;
        WriteParallel := WriteParallel m;
        WriteSize := 0%N;
        Ids := Ids m;
        CompareParallel := 0%N
      |}
  end.

(** A chain of the two builder steps that add index pairs, from the
    first call to the last. *)
Inductive pair_step : Type :=
| StepIndexPairs (indexPairs : list IndexPair)
| StepPatternIndexes (pattern : string).

Definition run_step (m : BulkMigrator) (step : pair_step) : outcome BulkMigrator :=
  match step with
  | StepIndexPairs indexPairs => Ok (WithIndexPairs m indexPairs)
  | StepPatternIndexes pattern => WithPatternIndexes m pattern
  end.

Fixpoint run_steps (m : BulkMigrator) (steps : list pair_step) : outcome BulkMigrator :=
  match steps with
  | [] => Ok m
  | step :: rest => do m' <- run_step m step; run_steps m' rest
  end.

End Builder.

End service.

(** ** Sample values

    A typed and a typeless cluster, a gateway whose master is the typeless
    target while the source is typed, and the search answer of scenario 6. *)

Definition sample_v6 : ES :=
  mkES 1 "6.8.0" ["http://es6:9200"] "elastic" "changeme" (Ok ["books"; ".kibana"]).

Definition sample_v7 : ES :=
  mkES 2 "7.10.2" ["http://es7:9200"] "elastic" "changeme" (Ok ["books"]).

Definition sample_gateway : gateway.ESGateway :=
  gateway.mkESGateway ":8080" "gateway" "changeme"
    sample_v6 sample_v7 sample_v7 sample_v6.

Definition sample_search_body : gmap string json :=
  <["took" := JNum 3]>
    {["hits" :=
        JObj (<["total" := JObj (<["value" := JNum 42]> {["relation" := JStr "eq"]})]>
                {["hits" := JArr []]})]}.

(** A create-index body with typeless mappings. *)
Definition sample_index_body : gmap string json :=
  <["settings" := JObj {["number_of_shards" := JNum 1]}]>
    {["mappings" :=
        JObj {["properties" := JObj {["title" := JObj {["type" := JStr "text"]}]}]}]}.

Definition sample_context : service.Context :=
  service.mkContext None None true.

Definition sample_client (res : V6.Response) : V6.Client :=
  V6.mkClient (fun _ => inr res) (fun _ => inr res) (fun _ _ => inr res)
    (fun _ => inr res) (inr res).

(** ** The gateway, further *)

(** What each action says about the request it was given to. *)
Definition action_request (a : request_action) (httpAction uriPath : string)
    (literal : bool) : Prop :=
  match a with
  | RequestActionUnset => True
  | RequestActionGetInfo => httpAction = "GET" /\ uriPath = "/"
  | RequestActionCreateDocument =>
      httpAction = "POST"
      /\ if literal then uriPath = "/_create" else GoStrings.HasSuffix "/_create" uriPath = true
  | RequestActionUpdateDocument =>
      httpAction = "POST"
      /\ if literal then uriPath = "/_update" else GoStrings.HasSuffix "/_update" uriPath = true
  | RequestActionSearch =>
      httpAction = "GET"
      /\ if literal then uriPath = "/_search" else GoStrings.HasSuffix "/_search" uriPath = true
  | RequestActionSearchLimit =>
      httpAction = "POST"
      /\ if literal then uriPath = "/_search" else GoStrings.HasSuffix "/_search" uriPath = true
  | RequestActionClusterHealth => httpAction = "GET" /\ uriPath = "/_cluster/health"
  | RequestActionClusterSettings => httpAction = "GET" /\ uriPath = "/_cluster/settings"
  | RequestActionGetIndexMapping =>
      httpAction = "GET" /\ GoStrings.HasSuffix uriPath "/_mapping" = true
  | RequestActionUpdateIndexMapping =>
      httpAction = "PUT" /\ GoStrings.HasSuffix uriPath "/_mapping" = true
  | RequestActionGetIndexSettings =>
      httpAction = "GET" /\ GoStrings.HasSuffix uriPath "/_settings" = true
  | RequestActionUpdateIndexSettings =>
      httpAction = "PUT" /\ GoStrings.HasSuffix uriPath "/_settings" = true
  | RequestActionBulk => GoStrings.HasSuffix uriPath "/_bulk" = true
  | RequestActionGetIndex =>
      httpAction = "GET" /\ length (GoStrings.Split uriPath "/") = 2
  | RequestActionCreateIndex =>
      httpAction = "PUT" /\ length (GoStrings.Split uriPath "/") = 2
  | RequestActionDeleteIndex =>
      httpAction = "DELETE" /\ length (GoStrings.Split uriPath "/") = 2
  | RequestActionDocument =>
      httpAction = "GET" /\ 3 <= length (GoStrings.Split uriPath "/")
  | RequestActionUpsertDocument =>
      httpAction = "PUT" /\ 3 <= length (GoStrings.Split uriPath "/")
  | RequestActionDeleteDocument =>
      httpAction = "DELETE" /\ 3 <= length (GoStrings.Split uriPath "/")
  end.

Definition request_action_eqb (a b : request_action) : bool :=
  match a, b with
  | RequestActionUnset, RequestActionUnset
  | RequestActionGetInfo, RequestActionGetInfo
  | RequestActionCreateDocument, RequestActionCreateDocument
  | RequestActionUpdateDocument, RequestActionUpdateDocument
  | RequestActionUpsertDocument, RequestActionUpsertDocument
  | RequestActionDeleteDocument, RequestActionDeleteDocument
  | RequestActionDocument, RequestActionDocument
  | RequestActionSearch, RequestActionSearch
  | RequestActionSearchLimit, RequestActionSearchLimit
  | RequestActionClusterHealth, RequestActionClusterHealth
  | RequestActionClusterSettings, RequestActionClusterSettings
  | RequestActionGetIndexMapping, RequestActionGetIndexMapping
  | RequestActionUpdateIndexMapping, RequestActionUpdateIndexMapping
  | RequestActionGetIndexSettings, RequestActionGetIndexSettings
  | RequestActionUpdateIndexSettings, RequestActionUpdateIndexSettings
  | RequestActionBulk, RequestActionBulk
  | RequestActionGetIndex, RequestActionGetIndex
  | RequestActionCreateIndex, RequestActionCreateIndex
  | RequestActionDeleteIndex, RequestActionDeleteIndex => true
  | _, _ => false
  end.

(** The actions [onHandler] sends to the slave cluster as well, in the
    order of the slice it gives to [lo.Contains]. *)
Definition mirrored_actions : list request_action :=
  [RequestActionUpsertDocument; RequestActionCreateDocument;
   RequestActionUpdateDocument; RequestActionDeleteDocument;
   RequestActionBulk; RequestActionCreateIndex; RequestActionDeleteIndex;
   RequestActionUpdateIndexMapping; RequestActionUpdateIndexSettings].

(** [lo.Contains]. *)
Definition Contains (collection : list request_action) (element : request_action)
    : bool :=
  existsb (fun item => request_action_eqb item element) collection.

Section SlaveRequest.

Variable ClusterVersionGte7 : ES -> bool.
Variable Unmarshal : string -> error + gmap string json.
Variable range_keys : gmap string json -> list string.

(** The function [onHandler] hands to [utils.GoRecovery], up to its call of
    [proxy]: [Ok (Some (r, update))] when the slave cluster is sent the
    request [r], with the body as [modifyMappings] left it; [Ok None] when
    the function returns before. *)
Definition slave_request (gateway : gateway.ESGateway) (method path body : string)
    : outcome (option (UriPathParserResult * option (gmap string json))) :=
  do parsed <- gateway.parseUriPath method path (gateway.SlaveES gateway);
  if negb (Contains mirrored_actions (RequestAction (fst parsed))) then Ok None
  else
    match snd parsed with
    | Some _ => Ok None
    | None =>
        match gateway.modifyMappings ClusterVersionGte7 Unmarshal range_keys
                gateway body with
        | Ok update => Ok (Some (fst parsed, update))
        | Err _ => Ok None
        | Crash c => Crash c
        end
    end.

End SlaveRequest.

(** The configuration [NewESGateway] reads ([config.Config], its
    [GatewayCfg] and the [ESConfigs] it names clusters in). *)
Record ESConfig : Type := mkESConfig {
  cfg_Addresses : list string;
  cfg_ESUser : string;
  cfg_ESPassword : string
}.

Record GatewayCfg : Type := mkGatewayCfg {
  cfg_Address : string;
  cfg_User : string;
  cfg_Password : string;
  cfg_SourceES : string;
  cfg_TargetES : string;
  cfg_Master : string
}.

Record Config : Type := mkConfig {
  cfg_GatewayCfg : GatewayCfg;
  cfg_ESConfigs : gmap string ESConfig
}.

(** What the values of one header key come to when each is set in turn:
    the last of them. *)
Definition last_value (values : list string) : option (list string) :=
  match last values with
  | Some value => Some [value]
  | None => None
  end.

Section Gateway.

(** [es.NewESV0(esConfig).GetES()], declared outside the source files at
    hand, on the entry of [cfg.ESConfigs] ([None] when the name has no
    entry): a parameter. *)
Variable GetES : option ESConfig -> error + ES.

(** [NewESGateway]. *)
Definition NewESGateway (cfg : Config) : error + gateway.ESGateway :=
  let g := cfg_GatewayCfg cfg in
  match GetES (cfg_ESConfigs cfg !! cfg_SourceES g) with
  | inl err => inl err
  | inr sourceES =>
      match GetES (cfg_ESConfigs cfg !! cfg_TargetES g) with
      | inl err => inl err
      | inr targetES =>
          let masterES := if String.eqb (cfg_Master g) (cfg_TargetES g)
                          then targetES else sourceES in
          let slaveES := if String.eqb (cfg_Master g) (cfg_TargetES g)
                         then sourceES else targetES in
          inr (gateway.mkESGateway (cfg_Address g) (cfg_User g) (cfg_Password g)
                 sourceES targetES masterES slaveES)
      end
  end.

(** [http.Header]'s canonical form of a key, and the order in which the
    loop of [proxy] meets the keys of the response header: parameters. *)
Variable canonical : string -> string.
Variable header_keys : gmap string (list string) -> list string.

(** The inner loop of [proxy] over the values of one key:
    [header.Del(key)] on an empty value, then [header.Set(key, value)]. *)
Definition set_values (key : string) (values : list string)
    (header : gmap string (list string)) : gmap string (list string) :=
  fold_left
    (fun header value =>
       let header := if String.eqb value "" then delete (canonical key) header
                     else header in
       <[canonical key := [value]]> header)
    values header.

(** The header [proxy] returns, from the header of the response. *)
Definition proxy_header (resp : gmap string (list string))
    : gmap string (list string) :=
  fold_left
    (fun header key =>
       match resp !! key with
       | Some values => set_values key values header
       | None => header
       end)
    (header_keys resp) ∅.

End Gateway.

(** *** The exchange with a cluster and the answer to the client *)

(** The request [proxy] builds and the response it reads.  [raw_Body] is
    what [io.ReadAll(resp.Body)] gives. *)
Record Request : Type := mkRequest {
  req_method : string;
  req_address : string;
  req_path : string;
  req_user : string;
  req_password : string;
  req_content_type : string;
  req_body : string
}.

Record RawResponse : Type := mkRawResponse {
  raw_Header : gmap string (list string);
  raw_Body : string;
  raw_StatusCode : Z
}.

(** The three values [proxy] returns beside its error. *)
Record Proxied : Type := mkProxied {
  proxied_header : gmap string (list string);
  proxied_body : string;
  proxied_status : Z
}.

(** What the client of the gateway is sent: the status, the header as the
    handler has set it when the status is written, and the bytes of the
    body that the response writer has taken. *)
Record ClientResponse : Type := mkClientResponse {
  sent_status : Z;
  sent_header : gmap string (list string);
  sent_body : string
}.

(** gin's [bodyAllowedForStatus], which is [bodyAllowedForStatus] of
    net/http as well. *)
Definition bodyAllowedForStatus (status : Z) : bool :=
  negb (((100 <=? status)%Z && (status <=? 199)%Z)
        || (status =? 204)%Z || (status =? 304)%Z).

Section Answer.

Variable ClusterVersionGte7 : ES -> bool.
Variable GetValueFromMapByPath : gmap string json -> string -> json * bool.
Variable SetValueFromMapByPath : gmap string json -> string -> json -> gmap string json.
Variable canonical : string -> string.
Variable header_keys : gmap string (list string) -> list string.

(** Library code, taken as parameters: [rand.Intn(n)] for a positive [n];
    the exchange itself ([url.Parse], [http.NewRequest], [client.Do] and
    [io.ReadAll], each of whose errors [proxy] returns as it is);
    [gjson.ParseBytes(body).Value()]; the bytes [c.JSON] renders for a map
    ([json.Marshal]); and [strconv.ParseInt(s, 10, 64)]. *)
Variable rand_Intn : nat -> nat.
Variable send : Request -> error + RawResponse.
Variable gjson_Value : string -> json.
Variable Marshal : gmap string json -> string.
Variable ParseInt : string -> option Z.

(** [ESGateway.proxy].  [requestBody] is what is left to read of
    [c.Request.Body] when [proxy] is called.  [rand.Intn(0)] panics. *)
Definition proxy (esInstance : ES) (uriParserResult : UriPathParserResult)
    (method requestBody : string) : outcome (error + Proxied) :=
  let addresses := GetAddresses esInstance in
  if (length addresses =? 0)%nat then Crash (Panic "invalid argument to Intn")
  else
    do address <- index_at addresses (rand_Intn (length addresses));
    match send (mkRequest method address (Uri uriParserResult)
                  (GetUser esInstance) (GetPassword esInstance)
                  "application/json" requestBody) with
    | inl err => Ok (inl err)
    | inr resp =>
        Ok (inr (mkProxied (proxy_header canonical header_keys (raw_Header resp))
                   (raw_Body resp) (raw_StatusCode resp)))
    end.

(** gin's [c.Header(key, value)]: [Del] on the empty value, [Set]
    otherwise. *)
Definition gin_Header (key value : string) (written : gmap string (list string))
    : gmap string (list string) :=
  if String.eqb value "" then delete (canonical key) written
  else <[canonical key := [value]]> written.

(** Lines 298-302 of [onHandler]: every value of every key of the header
    [proxy] returned is given to [c.Header]. *)
Definition copy_header (header : gmap string (list string))
    : gmap string (list string) :=
  fold_left
    (fun written key =>
       match header !! key with
       | Some values =>
           fold_left (fun written value => gin_Header key value written) values written
       | None => written
       end)
    (header_keys header) ∅.

(** The length the header declares for the body, as [WriteHeader] of
    net/http reads it: the first value of [Content-Length], when it is
    there, not empty, and a number that is not negative. *)
Definition declared_length (written : gmap string (list string)) : option Z :=
  match written !! "Content-Length" with
  | Some (value :: _) =>
      if String.eqb value "" then None
      else match ParseInt value with
           | Some n => if (0 <=? n)%Z then Some n else None
           | None => None
           end
  | _ => None
  end.

(** The bytes the response writer of net/http takes of one [Write] of
    [bytes] after the header [written], for a status that allows a body: a
    write that goes beyond the declared length is refused as a whole
    ([http.ErrContentLength]), so that no byte of the body is sent; a HEAD
    request is sent no body. *)
Definition write_body (method : string) (written : gmap string (list string))
    (bytes : string) : string :=
  if String.eqb method "HEAD" then ""
  else
    match declared_length written with
    | Some n => if (n <? Z.of_nat (String.length bytes))%Z then "" else bytes
    | None => bytes
    end.

(** gin's [c.JSON(code, obj)] on a response of which nothing is written
    yet: the content type is set unless the header has one, and the
    rendered bytes are written in one [Write], when the status allows a
    body. *)
Definition JSON (method : string) (code : Z) (obj : gmap string json)
    (written : gmap string (list string)) : ClientResponse :=
  let written :=
    match written !! "Content-Type" with
    | Some (_ :: _) => written
    | _ => <["Content-Type" := ["application/json; charset=utf-8"]]> written
    end in
  if negb (bodyAllowedForStatus code) then mkClientResponse code written ""
  else mkClientResponse code written (write_body method written (Marshal obj)).

(** [ESGateway.onHandler], from the second [parseUriPath] on: what the
    client is sent ([None] when the handler returns without writing).
    [requestBody] is what the function given to [utils.GoRecovery], which
    runs before, has left to read of [c.Request.Body]. *)
Definition onHandler (gateway : gateway.ESGateway) (method path requestBody : string)
    : outcome (option ClientResponse) :=
  do parsed <- gateway.parseUriPath method path (gateway.MasterES gateway);
  match snd parsed with
  | Some _ => Ok None
  | None =>
      do answer <- proxy (gateway.MasterES gateway) (fst parsed) method requestBody;
      match answer with
      | inl err =>
          Ok (Some (JSON method 500
                      {["message" := JStr (gateway.error_message err)]} ∅))
      | inr proxied =>
          let written := copy_header (proxied_header proxied) in
          match gjson_Value (proxied_body proxied) with
          | JObj bodyMap =>
              let statusCode := proxied_status proxied in
              Ok (Some (JSON method statusCode
                          (gateway.rewrite_total ClusterVersionGte7
                             GetValueFromMapByPath SetValueFromMapByPath
                             gateway statusCode bodyMap)
                          written))
          | _ => Crash BadTypeAssertion
          end
      end
  end.

End Answer.

(** ** The bulk migrator, further *)

(** A call of one of the builder's steps. *)
Inductive builder_step : Type :=
| CallWithIndexPairs (indexPairs : list service.IndexPair)
| CallWithScrollSize (scrollSize : N)
| CallWithScrollTime (scrollTime : N)
| CallWithSliceSize (sliceSize : N)
| CallWithBufferCount (bufferCount : N)
| CallWithWriteParallel (writeParallel : N)
| CallWithWriteSize (writeSize : N)
| CallWithPatternIndexes (pattern : string)
| CallWithParallelism (parallelism : N)
| CallWithCompareParallelism (compareParallelism : N)
| CallWithIds (ids : list string).

Definition is_pattern_step (step : builder_step) : bool :=
  match step with
  | CallWithPatternIndexes _ => true
  | _ => false
  end.

(** The arguments of [WithIndexPairs] are pointers, [None] being the nil
    one: the pairs they point to, when none is nil. *)
Fixpoint deref_pairs (indexPairs : list (option service.IndexPair))
    : option (list service.IndexPair) :=
  match indexPairs with
  | [] => Some []
  | Some indexPair :: rest =>
      match deref_pairs rest with
      | Some pairs => Some (indexPair :: pairs)
      | None => None
      end
  | None :: _ => None
  end.

(** [BulkMigrator.WithIndexPairs] on its pointer arguments.  With [Error]
    set the migrator is returned before any argument is looked at;
    otherwise the loop gives every argument to [getIndexPairKey], which
    reads its fields: a nil argument is a panic. *)
Definition WithIndexPairPointers (m : service.BulkMigrator)
    (indexPairs : list (option service.IndexPair)) : outcome service.BulkMigrator :=
  if negb (service.is_nil (service.Error m)) then Ok m
  else
    match deref_pairs indexPairs with
    | Some pairs => Ok (service.WithIndexPairs m pairs)
    | None => Crash NilDereference
    end.

(** A call of the builder: [WithIndexPairs] on pointers, or one of the
    steps above. *)
Inductive builder_call : Type :=
| CallOnPointers (indexPairs : list (option service.IndexPair))
| CallStep (step : builder_step).

Definition is_pattern_call (call : builder_call) : bool :=
  match call with
  | CallStep step => is_pattern_step step
  | CallOnPointers _ => false
  end.

Definition has_nil_pair (call : builder_call) : bool :=
  match call with
  | CallOnPointers indexPairs => service.is_nil (deref_pairs indexPairs)
  | CallStep _ => false
  end.

Section BuilderChain.

Variable regexp_Match : string -> string -> error + bool.
Variable compareParallel : N.

Definition call_step (m : service.BulkMigrator) (step : builder_step)
    : outcome service.BulkMigrator :=
  match step with
  | CallWithIndexPairs indexPairs => Ok (service.WithIndexPairs m indexPairs)
  | CallWithScrollSize n => Ok (service.WithScrollSize m n)
  | CallWithScrollTime n => Ok (service.WithScrollTime m n)
  | CallWithSliceSize n => Ok (service.WithSliceSize m n)
  | CallWithBufferCount n => Ok (service.WithBufferCount m n)
  | CallWithWriteParallel n => Ok (service.WithWriteParallel m n)
  | CallWithWriteSize n => Ok (service.WithWriteSize m n)
  | CallWithPatternIndexes pattern => service.WithPatternIndexes regexp_Match m pattern
  | CallWithParallelism n => Ok (service.WithParallelism m n)
  | CallWithCompareParallelism n =>
      Ok (service.WithCompareParallelism compareParallel m n)
  | CallWithIds ids => Ok (service.WithIds m ids)
  end.

(** A chain of builder calls, from the first to the last. *)
Fixpoint call_steps (m : service.BulkMigrator) (steps : list builder_step)
    : outcome service.BulkMigrator :=
  match steps with
  | [] => Ok m
  | step :: rest => do m' <- call_step m step; call_steps m' rest
  end.

(** The test of the loop of [filterIndexes]: the index is not passed over
    as a system index, and the pattern matches it. *)
Definition index_kept (ignoreSystemIndex : bool) (pattern index : string) : bool :=
  negb (ignoreSystemIndex && GoStrings.HasPrefix index ".")
  && match regexp_Match pattern index with
     | inr ok => ok
     | inl _ => false
     end.

Definition call_builder (m : service.BulkMigrator) (call : builder_call)
    : outcome service.BulkMigrator :=
  match call with
  | CallOnPointers indexPairs => WithIndexPairPointers m indexPairs
  | CallStep step => call_step m step
  end.

(** A chain of calls on pointers, from the first to the last. *)
Fixpoint call_builders (m : service.BulkMigrator) (calls : list builder_call)
    : outcome service.BulkMigrator :=
  match calls with
  | [] => Ok m
  | call :: rest => do m' <- call_builder m call; call_builders m' rest
  end.

End BuilderChain.

(** ** The typed adapter, further *)

(** Whether no white-space character starts anywhere in [s]. *)
Fixpoint space_free (s : string) : bool :=
  match s with
  | EmptyString => true
  | String _ s' => (GoStrings.space_width s =? 0)%nat && space_free s'
  end.

(** Whether no white-space character starts in [cur] when [rest] follows
    it. *)
Fixpoint space_free_before (cur rest : string) : bool :=
  match cur with
  | EmptyString => true
  | String _ cur' =>
      (GoStrings.space_width (cur ++ rest) =? 0)%nat && space_free_before cur' rest
  end.

(** The index calls of the embedded client that [GetIndexMappingAndSetting]
    makes after [Indices.Exists]. *)
Record IndexClient : Type := mkIndexClient {
  IndicesGetSettings : string -> error + V6.Response;
  IndicesGetMapping : string -> error + V6.Response;
  IndicesGetAlias : string -> error + V6.Response
}.

Section Bundle.

(** The decoder of a JSON object ([json.Unmarshal], [json.Decoder]) and
    [NewV6Settings], declared outside the source files at hand:
    parameters. *)
Variable decodeObject : string -> error + gmap string json.
Variable NewV6Settings :
  gmap string json -> gmap string json -> gmap string json -> string -> V6.IESSettings.

Variable client : V6.Client.
Variable indexClient : IndexClient.

(** The body shared by [GetIndexSettings], [GetIndexMapping] and
    [GetIndexAliases]: the call, the status test, the decoding. *)
Definition get_object (answer : error + V6.Response) : outcome (gmap string json) :=
  match answer with
  | inl err => Err err
  | inr res =>
      if negb (V6.StatusCode res =? V6.StatusOK)%Z then Err (V6.formatError res)
      else match decodeObject (V6.Body res) with
           | inl err => Err err
           | inr object => Ok object
           end
  end.

(** [V6.GetIndexSettings], [V6.GetIndexMapping], [V6.GetIndexAliases]. *)
Definition GetIndexSettings (index : string) : outcome (gmap string json) :=
  get_object (IndicesGetSettings indexClient index).

Definition GetIndexMapping (index : string) : outcome (gmap string json) :=
  get_object (IndicesGetMapping indexClient index).

Definition GetIndexAliases (index : string) : outcome (gmap string json) :=
  get_object (IndicesGetAlias indexClient index).

(** [V6.GetIndexMappingAndSetting]; [Ok None] is the nil bundle. *)
Definition GetIndexMappingAndSetting (index : string)
    : outcome (option V6.IESSettings) :=
  do exists_ <- V6.IndexExisted client index;
  if negb exists_ then Ok None
  else
    do setting <- GetIndexSettings index;
    do mapping <- GetIndexMapping index;
    do aliases <- GetIndexAliases index;
    Ok (Some (NewV6Settings setting mapping aliases index)).

End Bundle.

(** The calls of the embedded client behind the other operations of the
    adapter. *)
Record ClusterClient : Type := mkClusterClient {
  ClientScroll : string -> N -> error + V6.Response;
  ClientClearScroll : string -> error + V6.Response;
  IndicesDelete : list string -> error + V6.Response;
  ClientCount : string -> error + V6.Response;
  IndicesPutTemplate : string -> json -> error + V6.Response;
  ClientClusterHealth : error + V6.Response;
  ClusterGetSettings : error + V6.Response
}.

Section Operations.

(** The decoders, and [cast.ToUint64] on the value found under a key
    ([None] when the map has no such key): library code, taken as
    parameters. *)
Variable decodeScroll : string -> error + V6.ScrollResult.
Variable decodeObject : string -> error + gmap string json.
Variable ToUint64 : option json -> N.

Variable clusterClient : ClusterClient.

(** [V6.NextScroll]. *)
Definition NextScroll (scrollId : string) (scrollTime : N) : outcome V6.ScrollResult :=
  match ClientScroll clusterClient scrollId scrollTime with
  | inl err => Err err
  | inr res =>
      if negb (V6.StatusCode res =? V6.StatusOK)%Z then Err (V6.formatError res)
      else match decodeScroll (V6.Body res) with
           | inl err => Err err
           | inr scrollResult => Ok scrollResult
           end
  end.

(** [V6.ClearScroll]. *)
Definition ClearScroll (scrollId : string) : outcome unit :=
  match ClientClearScroll clusterClient scrollId with
  | inl err => Err err
  | inr res =>
      if negb (V6.StatusCode res =? V6.StatusOK)%Z then Err (V6.formatError res)
      else Ok tt
  end.

(** [V6.DeleteIndex]. *)
Definition DeleteIndex (index : string) : outcome unit :=
  match IndicesDelete clusterClient [index] with
  | inl err => Err err
  | inr res =>
      if negb (V6.StatusCode res =? V6.StatusOK)%Z then Err (V6.formatError res)
      else Ok tt
  end.

(** [V6.Count]. *)
Definition Count (index : string) : outcome N :=
  match ClientCount clusterClient index with
  | inl err => Err err
  | inr res =>
      if negb (V6.StatusCode res =? V6.StatusOK)%Z then Err (V6.formatError res)
      else match decodeObject (V6.Body res) with
           | inl err => Err err
           | inr countResult => Ok (ToUint64 (countResult !! "count"))
           end
  end.

(** [V6.CreateTemplate]. *)
Definition CreateTemplate (name : string) (body : gomap) : outcome unit :=
  match IndicesPutTemplate clusterClient name (json_of_gomap body) with
  | inl err => Err err
  | inr res =>
      if negb (V6.StatusCode res =? V6.StatusOK)%Z then Err (V6.formatError res)
      else Ok tt
  end.

(** [V6.ClusterHealth]. *)
Definition ClusterHealth : outcome (gmap string json) :=
  match ClientClusterHealth clusterClient with
  | inl err => Err err
  | inr res =>
      if negb (V6.StatusCode res =? V6.StatusOK)%Z then Err (V6.formatError res)
      else match decodeObject (V6.Body res) with
           | inl err => Err err
           | inr clusterHealthResp => Ok clusterHealthResp
           end
  end.

(** [V6.GetInfo]: the call is [Cluster.GetSettings]. *)
Definition GetInfo : outcome (gmap string json) :=
  match ClusterGetSettings clusterClient with
  | inl err => Err err
  | inr res =>
      if negb (V6.StatusCode res =? V6.StatusOK)%Z then Err (V6.formatError res)
      else match decodeObject (V6.Body res) with
           | inl err => Err err
           | inr clusterHealthResp => Ok clusterHealthResp
           end
  end.

End Operations.

(** What section 4.1 says of an operation, with 200 in the place of the 2xx
    family: a transport error is handed on, a 200 answer goes on to [ok],
    and every other status is the cluster error that carries the status
    and the body. *)
Definition only_200 {A} (answer : error + V6.Response)
    (ok : V6.Response -> outcome A) : outcome A :=
  match answer with
  | inl err => Err err
  | inr res =>
      if (V6.StatusCode res =? 200)%Z then ok res
      else Err (ClusterError (V6.StatusCode res) (V6.Body res))
  end.

(** The result of a decoder, as the operation returns it. *)
Definition decoded {A} (result : error + A) : outcome A :=
  match result with
  | inl err => Err err
  | inr a => Ok a
  end.

(** ** Further sample values *)

(** A create-index body with typed mappings: one type, with a field beside
    its properties. *)
Definition sample_typed_body : gmap string json :=
  {["mappings" :=
      JObj {["book" :=
               JObj (<["properties" := JObj {["title" := JObj {["type" := JStr "text"]}]}]>
                       {["dynamic" := JStr "strict"]})]}]}.

(** The create-index body of [sample_index_body] after the rewrite to the
    typed shape. *)
Definition sample_wrapped_body : gmap string json :=
  <["mappings" :=
      JObj {["doc" :=
               JObj {["properties" := JObj {["title" := JObj {["type" := JStr "text"]}]}]}]}]>
    sample_index_body.

(** A decoder that knows two bodies by name. *)
Definition sample_unmarshal (body : string) : error + gmap string json :=
  if String.eqb body "typeless" then inr sample_index_body
  else if String.eqb body "typed" then inr sample_wrapped_body
  else inl (DecodeError "unexpected end of JSON input").

(** A configuration of the two sample clusters, the typeless one being the
    target and the master. *)
Definition sample_config : Config :=
  mkConfig
    (mkGatewayCfg ":8080" "gateway" "changeme" "old" "new" "new")
    (<["old" := mkESConfig ["http://es6:9200"] "elastic" "changeme"]>
       {["new" := mkESConfig ["http://es7:9200"] "elastic" "changeme"]}).

Definition sample_GetES (esConfig : option ESConfig) : error + ES :=
  match esConfig with
  | Some c =>
      match cfg_Addresses c with
      | ["http://es6:9200"] => inr sample_v6
      | _ => inr sample_v7
      end
  | None => inl (Errorf "no cluster of that name")
  end.

(** A response header with a repeated key. *)
Definition sample_header : gmap string (list string) :=
  <["Set-Cookie" := ["a=1"; "b=2"]]> {["Content-Type" := ["application/json"]]}.

Definition header_keys_in_order (header : gmap string (list string)) : list string :=
  (map_to_list header).*1.

(** A pattern matcher that knows one pattern: the names that start with
    [logs-]. *)
Definition sample_regexp (pattern index : string) : error + bool :=
  if String.eqb pattern "logs-.*" then inr (GoStrings.HasPrefix index "logs-")
  else inl (Errorf "error parsing regexp").

Definition sample_logs : ES :=
  mkES 3 "6.8.0" ["http://es6:9200"] "elastic" "changeme"
    (Ok ["logs-1"; ".logs-hidden"; "books"; "logs-2"]).

(** What a scanner yields on a catalogue of two lines. *)
Definition sample_scan (_ : string) : list string * option error :=
  (["green open books Zx1 5 1 3 0 10kb 5kb";
    "yellow open logs-1 Qy2 1 1 0 0 1kb 1kb"], None).

(** Compact JSON text of a value, the fields of an object in the order of
    [map_to_list]; the strings of the sample bodies need no escaping. *)
Fixpoint json_text (j : json) : string :=
  match j with
  | JNull => "null"
  | JBool true => "true"
  | JBool false => "false"
  | JNum z => pretty z
  | JStr s => String "034" s ++ String "034" ""
  | JArr l => "[" ++ String.concat "," (List.map json_text l) ++ "]"
  | JObj m =>
      "{" ++ String.concat ","
               (List.map (fun kv => String "034" (fst kv) ++ String "034" ":" ++ snd kv)
                  (map_to_list (json_text <$> m))) ++ "}"
  end.

Definition sample_marshal (m : gmap string json) : string := json_text (JObj m).

(** The search answer of scenario 6 as the master sends it: 66 bytes, and a
    header that says so. *)
Definition sample_master_text : string := sample_marshal sample_search_body.

Definition sample_master_header : gmap string (list string) :=
  <["Content-Length" := ["66"]]>
    {["Content-Type" := ["application/json; charset=UTF-8"]]}.

Definition sample_send (_ : Request) : error + RawResponse :=
  inr (mkRawResponse sample_master_header sample_master_text 200).

(** A decoder that knows the sample answer. *)
Definition sample_gjson (body : string) : json :=
  if String.eqb body sample_master_text then JObj sample_search_body else JNull.

(** A reader of decimal numbers without a sign. *)
Fixpoint decimal_from (acc : Z) (s : string) : option Z :=
  match s with
  | EmptyString => Some acc
  | String c s' =>
      let n := nat_of_ascii c in
      if (48 <=? n)%nat && (n <=? 57)%nat
      then decimal_from (10 * acc + Z.of_nat (n - 48)) s'
      else None
  end.

Definition sample_ParseInt (s : string) : option Z :=
  match s with
  | EmptyString => None
  | String _ _ => decimal_from 0 s
  end.

(** A catalogue line in which a no-break space (U+00A0, bytes [C2 A0])
    stands before the name. *)
Definition sample_nbsp_line : string :=
  "green open" ++ String "194" (String "160" "books Zx1 5 1").

(** * Properties *)

(** ** Byte strings *)

Section GoStringFacts.
Import GoStrings.

Lemma length_app (s t : string) :
  String.length (s ++ t) = String.length s + String.length t.
Proof. induction s as [|c s IH]; simpl; [reflexivity | now rewrite IH]. Qed.

Lemma drop_bytes_app (p u : string) : drop_bytes (String.length p) (p ++ u) = u.
Proof. induction p as [|c p IH]; simpl; [now destruct u | exact IH]. Qed.

Lemma drop_bytes_split (n : nat) (s : string) : exists p, s = p ++ drop_bytes n s.
Proof.
  revert s; induction n as [|n IH]; intros s.
  - exists EmptyString. now destruct s.
  - destruct s as [|c s].
    + now exists EmptyString.
    + destruct (IH s) as [p Hp]. exists (String c p). change (String c s = String c (p ++ drop_bytes n s)). now rewrite <- Hp.
Qed.

(** [HasSuffix s u] holds exactly when [s] ends with [u]. *)
Lemma HasSuffix_spec (s u : string) :
  HasSuffix s u = true <-> exists p, s = p ++ u.
Proof.
  unfold HasSuffix. rewrite andb_true_iff, Nat.leb_le, String.eqb_eq. split.
  - intros [_ Heq]. destruct (drop_bytes_split (String.length s - String.length u) s) as [p Hp].
    exists p. now rewrite Heq in Hp.
  - intros [p ->]. rewrite length_app. split; [lia|].
    replace (String.length p + String.length u - String.length u) with (String.length p) by lia.
    apply drop_bytes_app.
Qed.

Lemma HasSuffix_longer (s u : string) :
  String.length s < String.length u -> HasSuffix s u = false.
Proof.
  intros Hlt. unfold HasSuffix.
  destruct (Nat.leb_spec (String.length u) (String.length s)); [lia | reflexivity].
Qed.

Lemma Split_nonempty (s : string) (sep : ascii) : Split s sep <> [].
Proof.
  destruct s as [|c s]; simpl; [discriminate|].
  destruct (Ascii.eqb c sep); [discriminate|].
  destruct (Split s sep); discriminate.
Qed.

(** A path that starts with the separator has at least two segments. *)
Lemma Split_leading_sep (s : string) (sep : ascii) :
  2 <= length (Split (String sep s) sep).
Proof.
  simpl. rewrite Ascii.eqb_refl. simpl.
  pose proof (Split_nonempty s sep). destruct (Split s sep); [congruence | simpl; lia].
Qed.

End GoStringFacts.

Lemma index_at_lt {A} (l : list A) (i : nat) :
  i < length l -> exists a, index_at l i = Ok a.
Proof.
  intros Hlt. unfold index_at.
  destruct (nth_error l i) eqn:E; [eauto|].
  apply nth_error_None in E. lia.
Qed.

(** ** The URI classifier *)

Section ParseUriPath.
Import GoStrings gateway.

Lemma document_segments_action (needType : bool) (long : nat)
    (segments : list string) (r : UriPathParserResult) :
  4 <= long ->
  exists r', document_segments needType long segments r = Ok r'
             /\ RequestAction r' = RequestAction r.
Proof.
  intros Hlong. unfold document_segments.
  destruct (Nat.eqb_spec (length segments) long) as [Hlen|_].
  - destruct (index_at_lt segments 2) as [t ->]; [lia|].
    destruct (index_at_lt segments 3) as [d ->]; [lia|].
    simpl. destruct needType; simpl; eauto.
  - destruct (Nat.eqb_spec (length segments) (long - 1)) as [Hlen|_]; [|eauto].
    destruct (index_at_lt segments 2) as [d ->]; [lia|]. simpl; eauto.
Qed.

Lemma typed_segments_action (needType : bool) (segments : list string)
    (r : UriPathParserResult) :
  exists r', typed_segments needType segments r = Ok r'
             /\ RequestAction r' = RequestAction r.
Proof.
  unfold typed_segments.
  destruct (Nat.eqb_spec (length segments) 4) as [Hlen|_]; [|eauto].
  destruct (index_at_lt segments 2) as [t ->]; [lia|].
  simpl. destruct needType; simpl; eauto.
Qed.

Lemma on_verb_action (httpAction verb : string) (a : request_action)
    (r : UriPathParserResult) :
  RequestAction (on_verb httpAction verb a r)
  = if String.eqb httpAction verb then a else RequestAction r.
Proof. unfold on_verb. now destruct (String.eqb httpAction verb). Qed.

(** Splits [parseUriPath] into its branches and names the action each
    branch leaves in the result. *)
Ltac parse_branches H :=
  unfold parseUriPath in H;
  repeat match type of H with
         | context [if ?b then _ else _] => destruct b eqn:?
         end;
  repeat match type of H with
         | context [index_at ?l 1] => destruct (index_at l 1); simpl in H
         | context [document_segments ?n ?k ?l ?r] =>
             let r' := fresh "r" in
             let E := fresh "E" in
             let A := fresh "A" in
             destruct (document_segments_action n k l r) as (r' & E & A);
             [lia | rewrite E in H; simpl in H]
         | context [typed_segments ?n ?l ?r] =>
             let r' := fresh "r" in
             let E := fresh "E" in
             let A := fresh "A" in
             destruct (typed_segments_action n l r) as (r' & E & A);
             rewrite E in H; simpl in H
         end;
  try discriminate H;
  try (injection H as <- <-).

Lemma parseUriPath_CreateDocument (httpAction uriPath : string) (esInstance : ES)
    (r : UriPathParserResult) (err : option error) :
  parseUriPath httpAction uriPath esInstance = Ok (r, err) ->
  RequestAction r = RequestActionCreateDocument ->
  HasSuffix "/_create" uriPath = true.
Proof.
  intros H Hact. parse_branches H; try reflexivity;
    exfalso; revert Hact;
    repeat match goal with A : RequestAction _ = _ |- _ => rewrite A; clear A end;
    simpl; rewrite ?on_verb_action; simpl;
    repeat match goal with |- context [String.eqb ?a ?b] => destruct (String.eqb a b) end;
    discriminate.
Qed.

Lemma parseUriPath_UpdateDocument (httpAction uriPath : string) (esInstance : ES)
    (r : UriPathParserResult) (err : option error) :
  parseUriPath httpAction uriPath esInstance = Ok (r, err) ->
  RequestAction r = RequestActionUpdateDocument ->
  HasSuffix "/_update" uriPath = true.
Proof.
  intros H Hact. parse_branches H; try reflexivity;
    exfalso; revert Hact;
    repeat match goal with A : RequestAction _ = _ |- _ => rewrite A; clear A end;
    simpl; rewrite ?on_verb_action; simpl;
    repeat match goal with |- context [String.eqb ?a ?b] => destruct (String.eqb a b) end;
    discriminate.
Qed.

(** On a path that starts with a slash the classifier neither panics nor
    reports an error. *)
Lemma parseUriPath_rooted (httpAction rest : string) (esInstance : ES) :
  exists r, parseUriPath httpAction (String "/" rest) esInstance = Ok (r, None).
Proof.
  pose proof (Split_leading_sep rest "/") as Hlen.
  destruct (index_at_lt (Split (String "/" rest) "/") 1) as [i Hi]; [lia|].
  unfold parseUriPath. rewrite !Hi.
  repeat match goal with
         | |- context [if ?b then _ else _] => destruct b eqn:?
         end;
    cbn [obind];
    repeat match goal with
           | |- context [document_segments ?n ?k ?l ?r] =>
               let E := fresh "E" in
               destruct (document_segments_action n k l r) as (? & E & _);
               [lia | rewrite E; cbn [obind]]
           | |- context [typed_segments ?n ?l ?r] =>
               let E := fresh "E" in
               destruct (typed_segments_action n l r) as (? & E & _);
               rewrite E; cbn [obind]
           end;
    eauto.
  exfalso.
  repeat match goal with
         | H : (_ =? _)%nat = false |- _ => apply Nat.eqb_neq in H
         | H : (_ <=? _)%nat = false |- _ => apply Nat.leb_gt in H
         end.
  lia.
Qed.

End ParseUriPath.

Section ClassifierClaims.
Import GoStrings gateway.

(** A create request as a client sends it: the path falls through to the
    document branch, which has no action for POST. *)
Example parseUriPath_create_request :
  parseUriPath "POST" "/books/book/1/_create" sample_v6
  = Ok (mkUriPathParserResult "POST" "/books/book/1/_create" RequestActionUnset
          "books" "" "", None).
Proof. reflexivity. Qed.

(** The one path that gets the create action is the literal itself. *)
Example parseUriPath_literal_create :
  parseUriPath "POST" "/_create" sample_v6
  = Ok (mkUriPathParserResult "POST" "/_create" RequestActionCreateDocument
          "_create" "" "", None).
Proof. reflexivity. Qed.

(** C1.  For every path [/{index}/{type}/{id}/_create] and
    [/{index}/{id}/_update], whatever the segments are, the reversed suffix
    tests of [parseUriPath] are false, the classifier returns a result
    without error, and the result's action is neither create-document nor
    update-document.  A result carries one of the two actions only when the
    path is itself a suffix of the literal ["/_create"], respectively
    ["/_update"]. *)
Theorem parseUriPath_reversed_suffix
    (httpAction index type id : string) (esInstance : ES) :
  let createPath := "/" ++ index ++ "/" ++ type ++ "/" ++ id ++ "/_create" in
  let updatePath := "/" ++ index ++ "/" ++ id ++ "/_update" in
  HasSuffix "/_create" createPath = false
  /\ HasSuffix "/_update" updatePath = false
  /\ (exists r, parseUriPath httpAction createPath esInstance = Ok (r, None)
                /\ RequestAction r <> RequestActionCreateDocument
                /\ RequestAction r <> RequestActionUpdateDocument)
  /\ (exists r, parseUriPath httpAction updatePath esInstance = Ok (r, None)
                /\ RequestAction r <> RequestActionCreateDocument
                /\ RequestAction r <> RequestActionUpdateDocument)
  /\ (forall verb uriPath es r err,
        parseUriPath verb uriPath es = Ok (r, err) ->
        (RequestAction r = RequestActionCreateDocument ->
         exists p, "/_create" = p ++ uriPath)
        /\ (RequestAction r = RequestActionUpdateDocument ->
            exists p, "/_update" = p ++ uriPath)).
Proof.
  intros createPath updatePath.
  assert (Hlen : forall lit path : string,
             String.length lit < String.length path -> HasSuffix lit path = false)
    by (intros; now apply HasSuffix_longer).
  assert (Hc : forall lit : string, String.length lit = 8 -> HasSuffix lit createPath = false).
  { intros lit Hl. apply Hlen. unfold createPath. rewrite !length_app, Hl. simpl. lia. }
  assert (Hu : forall lit : string, String.length lit = 8 -> HasSuffix lit updatePath = false).
  { intros lit Hl. apply Hlen. unfold updatePath. rewrite !length_app, Hl. simpl. lia. }
  split; [now apply Hc|]. split; [now apply Hu|].
  assert (Hpaths : forall path, (forall lit : string, String.length lit = 8 -> HasSuffix lit path = false) ->
            (exists rest, path = String "/" rest) ->
            exists r, parseUriPath httpAction path esInstance = Ok (r, None)
                /\ RequestAction r <> RequestActionCreateDocument
                /\ RequestAction r <> RequestActionUpdateDocument).
  { intros path Hno [rest ->].
    destruct (parseUriPath_rooted httpAction rest esInstance) as [r Hr].
    exists r. split; [exact Hr|]. split; intros Hact.
    - apply (parseUriPath_CreateDocument _ _ _ _ _ Hr) in Hact.
      rewrite Hno in Hact; [discriminate | reflexivity].
    - apply (parseUriPath_UpdateDocument _ _ _ _ _ Hr) in Hact.
      rewrite Hno in Hact; [discriminate | reflexivity]. }
  split; [apply Hpaths; [exact Hc | eexists; reflexivity]|].
  split; [apply Hpaths; [exact Hu | eexists; reflexivity]|].
  intros verb uriPath es r err Hr. split; intros Hact.
  - apply HasSuffix_spec. exact (parseUriPath_CreateDocument _ _ _ _ _ Hr Hact).
  - apply HasSuffix_spec. exact (parseUriPath_UpdateDocument _ _ _ _ _ Hr Hact).
Qed.

End ClassifierClaims.

(** ** The gateway's rewrites *)

Section PathHelpers.
Import GoStrings gateway.

Lemma get_set_keys (keys : list string) (value : json) :
  keys <> [] ->
  forall m, get_keys keys (JObj (set_keys keys value m)) = Some value.
Proof.
  induction keys as [|key rest IH]; [congruence|].
  intros _ m. destruct rest as [|key' rest].
  - simpl. now rewrite lookup_insert_eq.
  - cbn [set_keys get_keys]. rewrite lookup_insert_eq. now apply IH.
Qed.

Lemma set_keys_other (keys : list string) (value : json) (m : gmap string json)
    (k : string) :
  hd_error keys <> Some k -> set_keys keys value m !! k = m !! k.
Proof.
  destruct keys as [|key rest]; [reflexivity|].
  intros Hne. assert (key <> k) by (intros ->; now apply Hne).
  destruct rest; simpl; now rewrite lookup_insert_ne.
Qed.

Lemma get_set_by_path (m : gmap string json) (path : string) (value : json) :
  get_by_path (set_by_path m path value) path = (value, true).
Proof.
  unfold get_by_path, set_by_path.
  now rewrite get_set_keys by apply Split_nonempty.
Qed.

Lemma set_by_path_other (m : gmap string json) (path : string) (value : json)
    (k : string) :
  hd_error (Split path ".") <> Some k ->
  set_by_path m path value !! k = m !! k.
Proof. apply set_keys_other. Qed.

End PathHelpers.

Section RewriteTotal.
Import GoStrings gateway.

Variable ClusterVersionGte7 : ES -> bool.
Variable GetValueFromMapByPath : gmap string json -> string -> json * bool.
Variable SetValueFromMapByPath : gmap string json -> string -> json -> gmap string json.
(** What the two path helpers are taken to do: a value set at a path is
    the value read at that path, and setting at a path leaves the fields
    of the map alone that are not the path's first key. *)
Hypothesis Get_Set : forall m path value,
  GetValueFromMapByPath (SetValueFromMapByPath m path value) path = (value, true).
Hypothesis Set_other : forall m path value k,
  hd_error (Split path ".") <> Some k ->
  SetValueFromMapByPath m path value !! k = m !! k.

Lemma rewrite_total_cross (gateway : ESGateway) (bodyMap : gmap string json) :
  es_addr (MasterES gateway) <> es_addr (SourceES gateway) ->
  ClusterVersionGte7 (MasterES gateway) <> ClusterVersionGte7 (SourceES gateway) ->
  rewrite_total ClusterVersionGte7 GetValueFromMapByPath SetValueFromMapByPath
    gateway 200 bodyMap
  = SetValueFromMapByPath bodyMap "hit.total"
      (if ClusterVersionGte7 (MasterES gateway)
       then fst (GetValueFromMapByPath bodyMap "hits.total.value")
       else JObj (<["value" := fst (GetValueFromMapByPath bodyMap "hits.total")]>
                    {["relation" := JStr "eq"]})).
Proof.
  intros Haddr Hfam. unfold rewrite_total.
  destruct (Nat.eqb_spec (es_addr (MasterES gateway)) (es_addr (SourceES gateway)));
    [contradiction|].
  simpl.
  destruct (ClusterVersionGte7 (MasterES gateway)),
           (ClusterVersionGte7 (SourceES gateway)); simpl; congruence.
Qed.

(** Library code and the order of a [range] loop over a header, as
    [onHandler] and [proxy] are given them. *)
Variable canonical : string -> string.
Variable header_keys : gmap string (list string) -> list string.
Variable rand_Intn : nat -> nat.
Variable send : Request -> error + RawResponse.
Variable gjson_Value : string -> json.
Variable Marshal : gmap string json -> string.
Variable ParseInt : string -> option Z.

Lemma declared_length_content_type (written : gmap string (list string))
    (value : list string) :
  declared_length ParseInt (<["Content-Type" := value]> written)
  = declared_length ParseInt written.
Proof. unfold declared_length. now rewrite lookup_insert_ne. Qed.

Lemma JSON_body (method : string) (code : Z) (obj : gmap string json)
    (written : gmap string (list string)) :
  bodyAllowedForStatus code = true ->
  sent_status (JSON Marshal ParseInt method code obj written) = code
  /\ sent_body (JSON Marshal ParseInt method code obj written)
     = write_body ParseInt method written (Marshal obj).
Proof.
  intros Hcode. unfold JSON. rewrite Hcode. cbn [negb sent_status sent_body].
  split; [reflexivity|]. unfold write_body.
  destruct (written !! "Content-Type") as [[|? ?]|];
    now rewrite ?declared_length_content_type.
Qed.

(** C2, on the code.  When the master is not the source adapter, the two
    are in different version families and the master answers 200 with a
    JSON object, [onHandler] hands [c.JSON] a body in which [hit.total]
    holds the total in the other family's shape and every field other
    than [hit] is the master's.  It has copied the header of the master to
    the client before, [Content-Length] included: when the length declared
    there is less than the length of the rewritten body, the write is
    refused and the client is sent the status 200 and no byte of the body,
    the total it was to read at [hit.total] among them.  A HEAD request
    apart, the body reaches the client when the header declares no
    length, or one that the body does not exceed. *)
Theorem onHandler_drops_rewritten_body
    (gateway : ESGateway) (method path requestBody : string)
    (parsed : UriPathParserResult) (proxied : Proxied)
    (bodyMap : gmap string json) :
  es_addr (MasterES gateway) <> es_addr (SourceES gateway) ->
  ClusterVersionGte7 (MasterES gateway) <> ClusterVersionGte7 (SourceES gateway) ->
  parseUriPath method path (MasterES gateway) = Ok (parsed, None) ->
  proxy canonical header_keys rand_Intn send (MasterES gateway) parsed method requestBody
  = Ok (inr proxied) ->
  proxied_status proxied = 200%Z ->
  gjson_Value (proxied_body proxied) = JObj bodyMap ->
  GetValueFromMapByPath
    (rewrite_total ClusterVersionGte7 GetValueFromMapByPath SetValueFromMapByPath
       gateway 200 bodyMap)
    "hit.total"
  = (if ClusterVersionGte7 (MasterES gateway)
     then fst (GetValueFromMapByPath bodyMap "hits.total.value")
     else JObj (<["value" := fst (GetValueFromMapByPath bodyMap "hits.total")]>
                  {["relation" := JStr "eq"]}),
     true)
  /\ (forall k, k <> "hit" ->
        rewrite_total ClusterVersionGte7 GetValueFromMapByPath SetValueFromMapByPath
          gateway 200 bodyMap !! k
        = bodyMap !! k)
  /\ exists resp,
      onHandler ClusterVersionGte7 GetValueFromMapByPath SetValueFromMapByPath
        canonical header_keys rand_Intn send gjson_Value Marshal ParseInt
        gateway method path requestBody
      = Ok (Some resp)
      /\ sent_status resp = 200%Z
      /\ sent_body resp
         = write_body ParseInt method
             (copy_header canonical header_keys (proxied_header proxied))
             (Marshal
                (rewrite_total ClusterVersionGte7 GetValueFromMapByPath
                   SetValueFromMapByPath gateway 200 bodyMap))
      /\ (forall n,
            declared_length ParseInt
              (copy_header canonical header_keys (proxied_header proxied)) = Some n ->
            (n < Z.of_nat
                   (String.length
                      (Marshal
                         (rewrite_total ClusterVersionGte7 GetValueFromMapByPath
                            SetValueFromMapByPath gateway 200 bodyMap))))%Z ->
            sent_body resp = "")
      /\ (declared_length ParseInt
            (copy_header canonical header_keys (proxied_header proxied)) = None ->
          method <> "HEAD" ->
          sent_body resp
          = Marshal
              (rewrite_total ClusterVersionGte7 GetValueFromMapByPath
                 SetValueFromMapByPath gateway 200 bodyMap)).
Proof.
  intros Haddr Hfam Hparse Hproxy Hstatus Hbody.
  split; [rewrite (rewrite_total_cross _ _ Haddr Hfam); apply Get_Set|].
  split.
  { intros k Hk. rewrite (rewrite_total_cross _ _ Haddr Hfam).
    apply Set_other. cbn. congruence. }
  eexists. split.
  { unfold onHandler. rewrite Hparse. cbn [obind fst snd].
    rewrite Hproxy. cbn [obind]. rewrite Hbody, Hstatus. reflexivity. }
  destruct (JSON_body method 200
              (rewrite_total ClusterVersionGte7 GetValueFromMapByPath
                 SetValueFromMapByPath gateway 200 bodyMap)
              (copy_header canonical header_keys (proxied_header proxied)) eq_refl)
    as [Hs Hb].
  split; [exact Hs|].
  split; [exact Hb|].
  rewrite Hb. unfold write_body. split.
  - intros n Hn Hlt. rewrite Hn.
    destruct (String.eqb method "HEAD"); [reflexivity|].
    now apply Z.ltb_lt in Hlt as ->.
  - intros Hn Hm. rewrite Hn.
    destruct (String.eqb_spec method "HEAD"); [contradiction | reflexivity].
Qed.

End RewriteTotal.

Section ModifyMappings.
Import GoStrings gateway.

Variable ClusterVersionGte7 : ES -> bool.
Variable Unmarshal : string -> error + gmap string json.
Variable range_keys : gmap string json -> list string.

(** A [range] loop only meets keys of the map. *)
Hypothesis range_keys_sound : forall (m : gmap string json) (k : string),
  In k (range_keys m) -> is_Some (m !! k).

Lemma first_type_name_properties_only (P : json) :
  first_type_name (range_keys {["properties" := P]}) = "".
Proof.
  unfold first_type_name.
  destruct (find _ _) as [key|] eqn:E; [|reflexivity].
  apply find_some in E. destruct E as [Hin Hne].
  apply range_keys_sound in Hin. destruct Hin as [v Hv].
  apply lookup_singleton_Some in Hv. destruct Hv as [<- _].
  discriminate Hne.
Qed.

(** C3, as the code has it.  Across version families, a body whose
    mappings are [{properties: P}] gets the mappings
    [{"doc": {properties: P}}]: the type name is ["doc"]; the rest of the
    body is kept. *)
Theorem modifyMappings_typeless_to_typed
    (gateway : ESGateway) (body : string) (data : gmap string json) (P : json) :
  ClusterVersionGte7 (MasterES gateway) <> ClusterVersionGte7 (SlaveES gateway) ->
  Unmarshal body = inr data ->
  data !! "mappings" = Some (JObj {["properties" := P]}) ->
  modifyMappings ClusterVersionGte7 Unmarshal range_keys gateway body
  = Ok (Some (<["mappings" := JObj {["doc" := JObj {["properties" := P]}]}]> data)).
Proof.
  intros Hfam Hdata Hmap. unfold modifyMappings.
  destruct (Bool.eqb _ _) eqn:E; [apply Bool.eqb_prop in E; contradiction|].
  rewrite Hdata, Hmap, first_type_name_properties_only. cbn [String.eqb negb].
  rewrite lookup_singleton_eq.
  (* the two maps have the same entries, as computing both sides shows *)
  reflexivity.
Qed.

End ModifyMappings.

(** ** The typed adapter *)

Section AdapterClaims.
Import GoStrings V6.

Variable decodeScroll : string -> error + ScrollResult.
Variable scan_lines : string -> list string * option error.
Variable decodeObject : string -> error + gmap string json.
Variable ToUint64 : option json -> N.

(** C6, as the code has it.  [BulkBody] appends, for [create], the
    [index] action line and then the source as a body line when the source
    has at least one field, and no body line when the source is empty or
    nil; for [update], the [update] action line and the body
    [{type: source}] keyed by the document's type; for [delete], the
    [delete] action line alone; every action line carries [_type]; any
    other [op] is an error and the buffer is not written. *)
Theorem BulkBody_encoding
    (index : string) (buf : ndjson) (id type : string) (source : gomap)
    (raw : string) :
  BulkBody index buf (mkDoc id type source OperationCreate)
  = Ok (if (0 <? map_len source)%nat
        then (buf ++ [bulk_meta "index" index (mkDoc id type source OperationCreate)])
               ++ [json_of_gomap source]
        else buf ++ [bulk_meta "index" index (mkDoc id type source OperationCreate)])%list
  /\ BulkBody index buf (mkDoc id type source OperationUpdate)
     = Ok ((buf ++ [bulk_meta "update" index (mkDoc id type source OperationUpdate)])
             ++ [JObj {[type := json_of_gomap source]}])%list
  /\ BulkBody index buf (mkDoc id type source OperationDelete)
     = Ok (buf ++ [bulk_meta "delete" index (mkDoc id type source OperationDelete)])%list
  /\ BulkBody index buf (mkDoc id type source (OperationOther raw))
     = Err (Errorf ("unknow action " ++ raw))
  /\ (forall action op,
        exists meta,
          bulk_meta action index (mkDoc id type source op) = JObj {[action := JObj meta]}
          /\ meta !! "_type" = Some (JStr type)
          /\ meta !! "_index" = Some (JStr index)
          /\ meta !! "_id" = Some (JStr id)).
Proof.
  split.
  { unfold BulkBody. cbn [Op Source obind fst snd].
    now destruct (0 <? map_len source)%nat. }
  split.
  { unfold BulkBody. cbn [Op obind fst snd map_len].
    now rewrite map_size_singleton. }
  do 2 (split; [reflexivity|]).
  intros action op. eexists. split; [reflexivity|].
  repeat split.
Qed.

(** C7, as the code has it.  Every operation of the adapter that sends a
    request tests the status of the answer against 200 and nothing else:
    a transport error is returned as it is, a 200 answer is a success and
    goes on to the decoding where the operation has one, and every other
    status, 2xx included, is the cluster error carrying the status and the
    body.  Two operations differ beside that test: [IndexExisted] answers
    false on 404 before it, and [GetIndexes] ends the process on a
    transport error. *)
Theorem V6_status_200_only
    (client : Client) (indexClient : IndexClient) (clusterClient : ClusterClient)
    (index scrollId name : string) (option : ScrollOption) (scrollTime : N)
    (buf : ndjson) (esSetting : IESSettings) (body : gomap) :
  NewScroll decodeScroll client index option
  = (do query <- scroll_query option;
     only_200
       (Search client
          (mkSearchRequest index (ScrollSize option) (ScrollTime option)
             (if (0 <? size query)%nat then Some (JObj query) else None)
             (SortFields option)))
       (fun res => decoded (decodeScroll (Body res))))
  /\ NextScroll decodeScroll clusterClient scrollId scrollTime
     = only_200 (ClientScroll clusterClient scrollId scrollTime)
         (fun res => decoded (decodeScroll (Body res)))
  /\ GetIndexAliases decodeObject indexClient index
     = only_200 (IndicesGetAlias indexClient index)
         (fun res => decoded (decodeObject (Body res)))
  /\ ClearScroll clusterClient scrollId
     = only_200 (ClientClearScroll clusterClient scrollId) (fun _ => Ok tt)
  /\ GetIndexMapping decodeObject indexClient index
     = only_200 (IndicesGetMapping indexClient index)
         (fun res => decoded (decodeObject (Body res)))
  /\ GetIndexSettings decodeObject indexClient index
     = only_200 (IndicesGetSettings indexClient index)
         (fun res => decoded (decodeObject (Body res)))
  /\ Bulk client buf = only_200 (ClientBulk client buf) (fun _ => Ok tt)
  /\ CreateIndex client esSetting
     = only_200
         (IndicesCreate client (GetIndex esSetting)
            (JObj (Assign3 (GetSettings esSetting) (GetMappings esSetting)
                     (GetAliases esSetting))))
         (fun _ => Ok tt)
  /\ IndexExisted client index
     = match IndicesExists client [index] with
       | inl err => Err err
       | inr res =>
           if (StatusCode res =? 404)%Z then Ok false
           else if (StatusCode res =? 200)%Z then Ok true
           else Err (ClusterError (StatusCode res) (Body res))
       end
  /\ DeleteIndex clusterClient index
     = only_200 (IndicesDelete clusterClient [index]) (fun _ => Ok tt)
  /\ GetIndexes scan_lines client
     = match CatIndices client with
       | inl _ => Crash (ProcessExit 1)
       | inr res =>
           if (StatusCode res =? 200)%Z then
             do indices <- third_fields (fst (scan_lines (Body res))) [];
             match snd (scan_lines (Body res)) with
             | Some err => Err err
             | None => Ok indices
             end
           else Err (ClusterError (StatusCode res) (Body res))
       end
  /\ Count decodeObject ToUint64 clusterClient index
     = only_200 (ClientCount clusterClient index)
         (fun res =>
            do countResult <- decoded (decodeObject (Body res));
            Ok (ToUint64 (countResult !! "count")))
  /\ CreateTemplate clusterClient name body
     = only_200 (IndicesPutTemplate clusterClient name (json_of_gomap body))
         (fun _ => Ok tt)
  /\ ClusterHealth decodeObject clusterClient
     = only_200 (ClientClusterHealth clusterClient)
         (fun res => decoded (decodeObject (Body res)))
  /\ GetInfo decodeObject clusterClient
     = only_200 (ClusterGetSettings clusterClient)
         (fun res => decoded (decodeObject (Body res)))
  /\ (forall (A : Type) (ok : Response -> outcome A) (res : Response),
        StatusCode res <> 200%Z ->
        only_200 (inr res) ok = Err (ClusterError (StatusCode res) (Body res)))
  /\ (forall (A : Type) (ok : Response -> outcome A) (res : Response),
        StatusCode res = 200%Z -> only_200 (inr res) ok = ok res)
  /\ (forall (A : Type) (ok : Response -> outcome A) (err : error),
        only_200 (inl err) ok = Err err).
Proof.
  unfold NewScroll, NextScroll, GetIndexAliases, ClearScroll, GetIndexMapping,
    GetIndexSettings, get_object, Bulk, CreateIndex, IndexExisted, DeleteIndex,
    GetIndexes, Count, CreateTemplate, ClusterHealth, GetInfo, only_200, decoded,
    formatError, StatusOK.
  repeat match goal with
         | |- _ /\ _ => split
         end.
  all: try solve [
    repeat match goal with
           | |- context [match ?x with inl _ => _ | inr _ => _ end] =>
               destruct x as [?|?]; cbn [obind]
           | |- context [(StatusCode ?r =? ?n)%Z] =>
               destruct (StatusCode r =? n)%Z eqn:?; cbn [negb obind]
           | |- context [scroll_query ?o] => destruct (scroll_query o); cbn [obind]
           end;
    try reflexivity; congruence ].
  - intros A ok res Hs. now apply Z.eqb_neq in Hs as ->.
  - intros A ok res ->. reflexivity.
Qed.

(** C9.  [NewScroll] panics on a nil pointer exactly when [SliceId] is set
    and [SliceSize] is nil, and it panics in no other way; with both set,
    the query carries the slice clause
    [{field: "_id", id: *SliceId, max: *SliceSize}]. *)
Theorem NewScroll_slice_size (client : Client) (index : string)
    (option : ScrollOption) :
  (NewScroll decodeScroll client index option = Crash NilDereference
   <-> (SliceId option <> None /\ SliceSize option = None))
  /\ (forall c, NewScroll decodeScroll client index option = Crash c
                -> c = NilDereference)
  /\ (forall id max, SliceId option = Some id -> SliceSize option = Some max ->
        scroll_query option
        = Ok (<["slice" :=
                 JObj (<["field" := JStr "_id"]>
                       (<["id" := JNum (Z.of_N id)]>
                        {["max" := JNum (Z.of_N max)]}))]> (Query option))).
Proof.
  assert (Hrun : forall query,
            scroll_query option = Ok query ->
            forall c, NewScroll decodeScroll client index option <> Crash c).
  { intros query Hq c. unfold NewScroll. rewrite Hq. cbn [obind].
    destruct (Search client _) as [e|res]; [discriminate|].
    destruct (negb _); [discriminate|].
    destruct (decodeScroll _); discriminate. }
  assert (Hnil : scroll_query option = Crash NilDereference ->
                 NewScroll decodeScroll client index option = Crash NilDereference).
  { intros Hq. unfold NewScroll. now rewrite Hq. }
  unfold scroll_query in Hrun, Hnil |- *.
  destruct (SliceId option) as [id|], (SliceSize option) as [max|].
  - specialize (Hrun _ eq_refl).
    split; [split; [intros H; now apply Hrun in H | intros [_ H]; discriminate]|].
    split; [intros c H; now apply Hrun in H|].
    intros ? ? [= <-] [= <-]. reflexivity.
  - specialize (Hnil eq_refl). rewrite Hnil.
    split; [split; [intros _; split; congruence | reflexivity]|].
    split; [now intros c [= <-] | discriminate].
  - specialize (Hrun _ eq_refl).
    split; [split; [intros H; now apply Hrun in H | intros [H _]; congruence]|].
    split; [intros c H; now apply Hrun in H | discriminate].
  - specialize (Hrun _ eq_refl).
    split; [split; [intros H; now apply Hrun in H | intros [H _]; congruence]|].
    split; [intros c H; now apply Hrun in H | discriminate].
Qed.

Lemma third_fields_spec (lines indices : list string) :
  third_fields lines indices
  = match find (fun line => (length (Fields line) <? 3)%nat) lines with
    | Some bad => Crash (IndexOutOfRange 2 (length (Fields bad)))
    | None => Ok (indices ++ map (fun line => nth 2 (Fields line) "") lines)%list
    end.
Proof.
  revert indices; induction lines as [|line rest IH]; intros indices.
  - simpl. now rewrite app_nil_r.
  - cbn [third_fields find]. unfold index_at.
    destruct (Nat.ltb_spec (length (Fields line)) 3) as [Hlt|Hge].
    + destruct (nth_error (Fields line) 2) eqn:E; [|reflexivity].
      assert (2 < length (Fields line)) by (apply nth_error_Some; congruence). lia.
    + destruct (nth_error (Fields line) 2) as [name|] eqn:E.
      * cbn [obind]. rewrite IH.
        destruct (find _ rest); [reflexivity|].
        cbn [map]. rewrite (nth_error_nth _ _ "" E).
        now rewrite <- app_assoc.
      * apply nth_error_None in E. lia.
Qed.

(** C10.  On a 200 answer of [_cat/indices], [GetIndexes] takes the third
    field of every scanned line, in order: it returns these names when
    every scanned line has at least three fields (and the scan ended
    without error), and it panics with an index out of range at the first
    scanned line that has fewer, be it one field or two. *)
Theorem GetIndexes_third_field
    (search : SearchRequest -> error + Response)
    (bulk : ndjson -> error + Response)
    (create : string -> json -> error + Response)
    (exist : list string -> error + Response)
    (body : string) :
  GetIndexes scan_lines (mkClient search bulk create exist (inr (mkResponse 200 body)))
  = match find (fun line => (length (Fields line) <? 3)%nat) (fst (scan_lines body)) with
    | Some bad => Crash (IndexOutOfRange 2 (length (Fields bad)))
    | None =>
        match snd (scan_lines body) with
        | Some err => Err err
        | None => Ok (map (fun line => nth 2 (Fields line) "") (fst (scan_lines body)))
        end
    end
  /\ ((forall line, In line (fst (scan_lines body)) -> 3 <= length (Fields line)) ->
      forall c,
        GetIndexes scan_lines (mkClient search bulk create exist (inr (mkResponse 200 body)))
        <> Crash c)
  /\ (forall line, In line (fst (scan_lines body)) -> length (Fields line) < 3 ->
      exists n, n < 3
        /\ GetIndexes scan_lines
             (mkClient search bulk create exist (inr (mkResponse 200 body)))
           = Crash (IndexOutOfRange 2 n)).
Proof.
  assert (Heq : GetIndexes scan_lines
                  (mkClient search bulk create exist (inr (mkResponse 200 body)))
                = match find (fun line => (length (Fields line) <? 3)%nat)
                          (fst (scan_lines body)) with
                  | Some bad => Crash (IndexOutOfRange 2 (length (Fields bad)))
                  | None =>
                      match snd (scan_lines body) with
                      | Some err => Err err
                      | None => Ok (map (fun line => nth 2 (Fields line) "")
                                      (fst (scan_lines body)))
                      end
                  end).
  { unfold GetIndexes. cbn [CatIndices StatusCode Body]. unfold StatusOK.
    cbn [Z.eqb Pos.eqb negb]. rewrite third_fields_spec.
    destruct (find _ _); reflexivity. }
  split; [exact Heq|]. rewrite Heq. split.
  - intros Hall c. destruct (find _ _) as [bad|] eqn:E.
    + apply find_some in E. destruct E as [Hin Hlt].
      apply Hall in Hin. apply Nat.ltb_lt in Hlt. lia.
    + destruct (snd (scan_lines body)); discriminate.
  - intros line Hin Hlt. destruct (find _ _) as [bad|] eqn:E.
    + apply find_some in E. destruct E as [_ Hbad]. apply Nat.ltb_lt in Hbad.
      eauto.
    + apply (find_none _ _ E) in Hin. apply Nat.ltb_ge in Hin. lia.
Qed.

End AdapterClaims.

(** ** The bulk migrator's builder *)

Section BuilderFacts.
Import GoStrings service.

Variable regexp_Match : string -> string -> error + bool.
Variable compareParallel : N.

(** The six steps whose literal names every field keep the pair map, the
    latched error, the ids and the compare parallelism; the five of them
    that are not [WithWriteSize] keep the write size. *)
Lemma full_literal_steps_frame (m : BulkMigrator) (n : N) :
  Forall (fun step : BulkMigrator -> N -> BulkMigrator =>
            CompareParallel (step m n) = CompareParallel m
            /\ Ids (step m n) = Ids m
            /\ IndexPairMap (step m n) = IndexPairMap m
            /\ Error (step m n) = Error m)
    [WithScrollSize; WithScrollTime; WithSliceSize; WithBufferCount;
     WithWriteParallel; WithWriteSize]
  /\ Forall (fun step : BulkMigrator -> N -> BulkMigrator =>
               WriteSize (step m n) = WriteSize m)
       [WithScrollSize; WithScrollTime; WithSliceSize; WithBufferCount;
        WithWriteParallel].
Proof.
  split;
    repeat match goal with
           | |- Forall _ [] => apply Forall_nil_2
           | |- Forall _ (_ :: _) => apply Forall_cons_2
           end;
    cbn beta;
    unfold WithScrollSize, WithScrollTime, WithSliceSize, WithBufferCount,
      WithWriteParallel, WithWriteSize;
    destruct (Error m) eqn:E; cbn; repeat split; assumption.
Qed.

(** C4, on the code.  From a fresh migrator with [WriteSize] set to 500
    (and [CompareParallel] at its default 4): [WithParallelism] and
    [WithPatternIndexes] return a migrator whose [WriteSize] and
    [CompareParallel] are 0, [WithIds] one whose [CompareParallel] is 0,
    [WithCompareParallelism] one whose [WriteSize] is 0. *)
Theorem builder_steps_reset_fields
    (c : Context) (sourceES targetES : ES) (n : N) (ids : list string)
    (pattern : string) :
  WriteSize (WithWriteSize (NewBulkMigratorWithES c sourceES targetES) 500) = 500%N
  /\ CompareParallel (WithWriteSize (NewBulkMigratorWithES c sourceES targetES) 500) = 4%N
  /\ WriteSize
       (WithParallelism
          (WithWriteSize (NewBulkMigratorWithES c sourceES targetES) 500) n) = 0%N
  /\ CompareParallel
       (WithParallelism
          (WithWriteSize (NewBulkMigratorWithES c sourceES targetES) 500) n) = 0%N
  /\ CompareParallel
       (WithIds (WithWriteSize (NewBulkMigratorWithES c sourceES targetES) 500) ids)
     = 0%N
  /\ WriteSize
       (WithCompareParallelism compareParallel
          (WithWriteSize (NewBulkMigratorWithES c sourceES targetES) 500) n) = 0%N
  /\ (forall m',
        WithPatternIndexes regexp_Match
          (WithWriteSize (NewBulkMigratorWithES c sourceES targetES) 500) pattern
        = Ok m' ->
        WriteSize m' = 0%N /\ CompareParallel m' = 0%N).
Proof.
  do 6 (split; [reflexivity|]).
  intros m'. unfold WithPatternIndexes. cbn [Error WithWriteSize NewBulkMigratorWithES is_nil negb].
  destruct (filterIndexes _ _ _); [|now intros [= <-] | discriminate].
  now intros [= <-].
Qed.

(** C5, on the code.  Each numeric step of an error-free migrator stores
    its argument, or the default when the argument is 0, except
    [WithCompareParallelism]: it stores the package-level
    [compareParallel] whatever its argument is, so that for some argument
    other than 0 the field is not the argument. *)
Theorem numeric_steps_store
    (c : Context) (sourceES targetES : ES) (m : BulkMigrator) (n : N) :
  (let pick (default : N) := if (n =? 0)%N then default else n in
   let keep (field : BulkMigrator -> N) (v : N) :=
     if is_nil (Error m) then v else field m in
   ScrollSize (WithScrollSize m n) = keep ScrollSize (pick 1000%N)
   /\ ScrollTime (WithScrollTime m n) = keep ScrollTime (pick 5%N)
   /\ SliceSize (WithSliceSize m n) = keep SliceSize (pick 1%N)
   /\ BufferCount (WithBufferCount m n) = keep BufferCount (pick 4%N)
   /\ WriteParallel (WithWriteParallel m n) = keep WriteParallel (pick 4%N)
   /\ WriteSize (WithWriteSize m n) = keep WriteSize (pick 1000%N)
   /\ Parallelism (WithParallelism m n) = keep Parallelism (pick 8%N)
   /\ CompareParallel (WithCompareParallelism compareParallel m n)
      = keep CompareParallel compareParallel)
  /\ (exists k, k <> 0%N
        /\ CompareParallel
             (WithCompareParallelism compareParallel
                (NewBulkMigratorWithES c sourceES targetES) k)
           <> k).
Proof.
  split.
  - unfold WithScrollSize, WithScrollTime, WithSliceSize, WithBufferCount,
      WithWriteParallel, WithWriteSize, WithParallelism, WithCompareParallelism.
    destruct (Error m); cbn; repeat split.
  - exists (compareParallel + 1)%N. split; [lia|]. cbn. lia.
Qed.

End BuilderFacts.

Section PairMap.
Import GoStrings service.

Variable regexp_Match : string -> string -> error + bool.

Lemma is_nil_None {A} (x : option A) : is_nil x = true <-> x = None.
Proof. destruct x; simpl; split; congruence. Qed.

(** Among the arguments of one [WithIndexPairs] call, the first pair of
    each identity is the one collected. *)
Lemma collect_pairs_lookup (indexPairs : list IndexPair) (k : string) :
  collect_pairs indexPairs !! k
  = find (fun q => String.eqb (getIndexPairKey q) k) indexPairs.
Proof.
  unfold collect_pairs.
  assert (Hgen : forall acc : gmap string IndexPair,
    fold_left
      (fun newIndexPairsMap indexPair =>
         if is_nil (newIndexPairsMap !! getIndexPairKey indexPair)
         then <[getIndexPairKey indexPair := indexPair]> newIndexPairsMap
         else newIndexPairsMap) indexPairs acc !! k
    = match acc !! k with
      | Some p => Some p
      | None => find (fun q => String.eqb (getIndexPairKey q) k) indexPairs
      end).
  { induction indexPairs as [|q rest IH]; intros acc.
    - simpl. now destruct (acc !! k).
    - cbn [fold_left find]. rewrite IH.
      destruct (String.eqb_spec (getIndexPairKey q) k) as [<-|Hne].
      + destruct (acc !! getIndexPairKey q) eqn:E; cbn [is_nil].
        * now rewrite E.
        * now rewrite lookup_insert_eq.
      + destruct (is_nil (acc !! getIndexPairKey q)); [|reflexivity].
        now rewrite lookup_insert_ne. }
  rewrite Hgen. now rewrite lookup_empty.
Qed.

(** What [WithPatternIndexes] collects is new to the existing map, and
    stored under the identity of the pair. *)
Lemma collect_pattern_lookup (existing : gmap string IndexPair)
    (indexes : list string) (k : string) (q : IndexPair) :
  collect_pattern existing indexes !! k = Some q ->
  existing !! k = None /\ getIndexPairKey q = k.
Proof.
  unfold collect_pattern.
  assert (Hgen : forall acc : gmap string IndexPair,
    (forall k q, acc !! k = Some q -> existing !! k = None /\ getIndexPairKey q = k) ->
    forall k q,
      fold_left
        (fun newIndexPairsMap index =>
           if is_nil (existing !! getIndexPairKey (mkIndexPair index index))
           then <[getIndexPairKey (mkIndexPair index index) := mkIndexPair index index]>
                  newIndexPairsMap
           else newIndexPairsMap) indexes acc !! k = Some q ->
      existing !! k = None /\ getIndexPairKey q = k).
  { induction indexes as [|index rest IH]; intros acc Hacc k' q'.
    - simpl. apply Hacc.
    - cbn [fold_left]. apply IH. intros k0 q0.
      destruct (is_nil (existing !! _)) eqn:E; [|apply Hacc].
      apply is_nil_None in E.
      destruct (decide (getIndexPairKey (mkIndexPair index index) = k0)) as [<-|Hne].
      + rewrite lookup_insert_eq. now intros [= <-].
      + rewrite lookup_insert_ne by exact Hne. apply Hacc. }
  apply Hgen. intros k0 q0. now rewrite lookup_empty.
Qed.

Lemma WithIndexPairs_lookup (m : BulkMigrator) (indexPairs : list IndexPair)
    (k : string) :
  IndexPairMap (WithIndexPairs m indexPairs) !! k
  = if is_nil (Error m)
    then match find (fun q => String.eqb (getIndexPairKey q) k) indexPairs with
         | Some q => Some q
         | None => IndexPairMap m !! k
         end
    else IndexPairMap m !! k.
Proof.
  unfold WithIndexPairs. destruct (Error m); cbn [is_nil negb]; [reflexivity|].
  cbn [IndexPairMap]. rewrite <- collect_pairs_lookup.
  destruct (Nat.ltb_spec 0 (size (collect_pairs indexPairs))) as [_|Hsize].
  - unfold Assign. rewrite lookup_union.
    destruct (collect_pairs indexPairs !! k), (IndexPairMap m !! k); reflexivity.
  - assert (collect_pairs indexPairs = ∅) as -> by (apply map_size_empty_iff; lia).
    now rewrite lookup_empty.
Qed.

Lemma WithPatternIndexes_lookup (m m' : BulkMigrator) (pattern k : string) :
  WithPatternIndexes regexp_Match m pattern = Ok m' ->
  (forall p, IndexPairMap m !! k = Some p -> IndexPairMap m' !! k = Some p)
  /\ (forall q, IndexPairMap m' !! k = Some q ->
        IndexPairMap m !! k = Some q \/ getIndexPairKey q = k).
Proof.
  unfold WithPatternIndexes.
  destruct (Error m); cbn [is_nil negb]; [intros [= <-]; tauto|].
  destruct (filterIndexes _ _ _) as [indexes|e|c]; [|intros [= <-]; cbn; tauto|discriminate].
  intros [= <-]. cbn [IndexPairMap].
  destruct (Nat.ltb_spec 0 (size (collect_pattern (IndexPairMap m) indexes))) as [_|_];
    [|tauto].
  unfold Assign. split.
  - intros p Hp. apply lookup_union_Some_raw. right. split; [|exact Hp].
    destruct (collect_pattern _ _ !! k) eqn:E; [|reflexivity].
    apply collect_pattern_lookup in E. destruct E; congruence.
  - intros q Hq. apply lookup_union_Some_raw in Hq. destruct Hq as [Hq|[_ Hq]].
    + right. now apply collect_pattern_lookup in Hq.
    + now left.
Qed.

(** A source name without a colon is the part of the identity before its
    first colon. *)
Lemma identity_colon_free (p q : IndexPair) :
  contains_byte ":" (SourceIndex p) = false ->
  contains_byte ":" (SourceIndex q) = false ->
  getIndexPairKey p = getIndexPairKey q -> p = q.
Proof.
  assert (Hcons : forall c (s t : string), String c s ++ t = String c (s ++ t))
    by reflexivity.
  assert (Hnil : forall t : string, "" ++ t = t) by reflexivity.
  destruct p as [s1 t1], q as [s2 t2]. unfold getIndexPairKey. cbn [SourceIndex TargetIndex].
  revert s2; induction s1 as [|c s1 IH]; intros s2 H1 H2 Heq.
  - destruct s2 as [|d s2]; rewrite ?Hcons, ?Hnil in Heq.
    + now injection Heq as ->.
    + injection Heq as Hd _. subst d. discriminate H2.
  - destruct s2 as [|d s2]; rewrite ?Hcons, ?Hnil in Heq.
    + injection Heq as Hc _. subst c. discriminate H1.
    + injection Heq as -> Heq. cbn [contains_byte] in H1, H2.
      apply orb_false_iff in H1, H2.
      specialize (IH s2 (proj2 H1) (proj2 H2) Heq). now injection IH as -> ->.
Qed.

Lemma WithIndexPairs_keyed (m : BulkMigrator) (indexPairs : list IndexPair) :
  keyed_by_identity (IndexPairMap m) ->
  keyed_by_identity (IndexPairMap (WithIndexPairs m indexPairs)).
Proof.
  intros Hm k p. rewrite WithIndexPairs_lookup.
  destruct (is_nil (Error m)); [|apply Hm].
  destruct (find _ indexPairs) as [q|] eqn:E; [|apply Hm].
  intros [= <-]. apply find_some in E. now apply String.eqb_eq.
Qed.

Lemma WithPatternIndexes_keyed (m m' : BulkMigrator) (pattern : string) :
  WithPatternIndexes regexp_Match m pattern = Ok m' ->
  keyed_by_identity (IndexPairMap m) ->
  keyed_by_identity (IndexPairMap m').
Proof.
  intros Hstep Hm k p Hp.
  destruct (WithPatternIndexes_lookup _ _ _ k Hstep) as [_ Hnew].
  destruct (Hnew _ Hp) as [Hold|Hkey]; [now apply Hm | exact Hkey].
Qed.

Lemma run_steps_keyed (steps : list pair_step) (m m' : BulkMigrator) :
  run_steps regexp_Match m steps = Ok m' ->
  keyed_by_identity (IndexPairMap m) ->
  keyed_by_identity (IndexPairMap m').
Proof.
  revert m; induction steps as [|step rest IH]; intros m.
  - now intros [= <-].
  - cbn [run_steps]. destruct step as [indexPairs|pattern]; cbn [run_step obind].
    + intros Hrest Hm. apply (IH _ Hrest). now apply WithIndexPairs_keyed.
    + destruct (WithPatternIndexes regexp_Match m pattern) as [m1|e|c] eqn:E;
        cbn [obind]; [|discriminate..].
      intros Hrest Hm. apply (IH _ Hrest). now apply (WithPatternIndexes_keyed _ _ _ E).
Qed.

(** C8, as the code has it.  A pair's identity is ["source:target"].
    After every chain of [WithIndexPairs] and [WithPatternIndexes] calls on
    a fresh migrator each entry of the pair map is stored under the
    identity of its pair, so the map holds one pair at most for an
    identity.  [WithPatternIndexes] leaves an entry that exists as it is.
    [WithIndexPairs] on an error-free migrator stores, under each identity
    among its arguments, the first argument of that identity, in place of
    an entry that exists; the entry is the same pair as before when the
    source names have no colon. *)
Theorem pair_map_by_identity
    (c : Context) (sourceES targetES : ES) (steps : list pair_step)
    (m : BulkMigrator) (indexPairs : list IndexPair) (pattern k : string)
    (p : IndexPair) :
  getIndexPairKey p = SourceIndex p ++ ":" ++ TargetIndex p
  /\ (forall m',
        run_steps regexp_Match (NewBulkMigratorWithES c sourceES targetES) steps = Ok m' ->
        keyed_by_identity (IndexPairMap m'))
  /\ (forall m',
        WithPatternIndexes regexp_Match m pattern = Ok m' ->
        IndexPairMap m !! k = Some p -> IndexPairMap m' !! k = Some p)
  /\ (Error m = None ->
      IndexPairMap (WithIndexPairs m indexPairs) !! k
      = match find (fun q => String.eqb (getIndexPairKey q) k) indexPairs with
        | Some q => Some q
        | None => IndexPairMap m !! k
        end)
  /\ (keyed_by_identity (IndexPairMap m) ->
      IndexPairMap m !! k = Some p ->
      contains_byte ":" (SourceIndex p) = false ->
      (forall q, In q indexPairs -> contains_byte ":" (SourceIndex q) = false) ->
      IndexPairMap (WithIndexPairs m indexPairs) !! k = Some p).
Proof.
  split; [reflexivity|]. split.
  { intros m' Hrun. apply (run_steps_keyed _ _ _ Hrun).
    intros k0 p0. cbn. now rewrite lookup_empty. }
  split.
  { intros m' Hstep. now apply (WithPatternIndexes_lookup _ _ _ k Hstep). }
  split.
  { intros Herr. rewrite WithIndexPairs_lookup, Herr. reflexivity. }
  intros Hkeyed Hp Hcolon Hall. rewrite WithIndexPairs_lookup.
  destruct (is_nil (Error m)); [|exact Hp].
  destruct (find _ indexPairs) as [q|] eqn:E; [|exact Hp].
  apply find_some in E. destruct E as [Hin Hkey]. apply String.eqb_eq in Hkey.
  f_equal. apply identity_colon_free; [now apply Hall | exact Hcolon |].
  rewrite Hkey. symmetry. now apply Hkeyed.
Qed.

End PairMap.

(** ** The claims on sample values *)

Section Samples.
Import GoStrings gateway V6.

Lemma keys_in_order_sound (m : gmap string json) (k : string) :
  In k (keys_in_order m) -> is_Some (m !! k).
Proof.
  unfold keys_in_order. intros Hin. apply list_elem_of_In in Hin.
  apply list_elem_of_fmap in Hin. destruct Hin as [[k' v] [-> Hin]].
  apply elem_of_map_to_list in Hin. eauto.
Qed.

(** Scenario 6 on the code: the master answers the search with the 66 bytes
    of its body and a header that declares them; the body the handler
    renders, with 42 at [hit.total], has 85 bytes, and the typed client is
    sent none of them. *)
Lemma onHandler_drops_rewritten_body_witness :
  get_by_path
    (rewrite_total version_gte7 get_by_path set_by_path sample_gateway 200
       sample_search_body) "hit.total"
  = (JNum 42, true)
  /\ String.length
       (sample_marshal
          (rewrite_total version_gte7 get_by_path set_by_path sample_gateway 200
             sample_search_body))
     = 85
  /\ exists resp,
      onHandler version_gte7 get_by_path set_by_path (fun key => key)
        header_keys_in_order (fun _ => 0) sample_send sample_gjson sample_marshal
        sample_ParseInt sample_gateway "GET" "/books/_search" ""
      = Ok (Some resp)
      /\ sent_status resp = 200%Z
      /\ sent_header resp !! "Content-Length" = Some ["66"]
      /\ sent_body resp = "".
Proof.
  assert (Haddr : es_addr (gateway.MasterES sample_gateway)
                  <> es_addr (gateway.SourceES sample_gateway))
    by (vm_compute; lia).
  assert (Hfam : version_gte7 (gateway.MasterES sample_gateway)
                 <> version_gte7 (gateway.SourceES sample_gateway))
    by (vm_compute; congruence).
  destruct (onHandler_drops_rewritten_body version_gte7 get_by_path set_by_path
              get_set_by_path set_by_path_other
              (fun key => key) header_keys_in_order (fun _ => 0) sample_send
              sample_gjson sample_marshal sample_ParseInt
              sample_gateway "GET" "/books/_search" ""
              (mkUriPathParserResult "GET" "/books/_search" RequestActionDocument
                 "books" "" "_search")
              (mkProxied
                 (proxy_header (fun key => key) header_keys_in_order sample_master_header)
                 sample_master_text 200)
              sample_search_body
              Haddr Hfam eq_refl eq_refl eq_refl eq_refl)
    as (Htotal & _ & resp & Hresp & Hstatus & _ & Hrefused & _).
  split; [exact Htotal|]. split; [reflexivity|].
  exists resp. split; [exact Hresp|]. split; [exact Hstatus|].
  split.
  - vm_compute in Hresp. injection Hresp as <-. reflexivity.
  - apply (Hrefused 66%Z); [reflexivity|]. vm_compute. reflexivity.
Defined.

(** The create-index body of a typeless client, sent to a typed slave. *)
Lemma modifyMappings_typeless_to_typed_witness :
  modifyMappings version_gte7 (fun _ => inr sample_index_body) keys_in_order
    sample_gateway "{...}"
  = Ok (Some (<["mappings" :=
                  JObj {["doc" :=
                           JObj {["properties" :=
                                    JObj {["title" := JObj {["type" := JStr "text"]}]}]}]}]>
                sample_index_body)).
Proof.
  apply (modifyMappings_typeless_to_typed version_gte7 (fun _ => inr sample_index_body)
           keys_in_order keys_in_order_sound sample_gateway "{...}" sample_index_body).
  - vm_compute. congruence.
  - reflexivity.
  - reflexivity.
Defined.

(** C3 as stated fails: the type name of the rewritten mappings is not
    ["_doc"]. *)
Lemma modifyMappings_not_doc_underscore :
  modifyMappings version_gte7 (fun _ => inr sample_index_body) keys_in_order
    sample_gateway "{...}"
  <> Ok (Some (<["mappings" :=
                   JObj {["_doc" :=
                            JObj {["properties" :=
                                     JObj {["title" := JObj {["type" := JStr "text"]}]}]}]}]>
                 sample_index_body)).
Proof.
  intros H. vm_compute in H. discriminate H.
Qed.

(** C6 as stated fails: a create of a document with the empty source
    writes the action line and no body line. *)
Lemma BulkBody_create_empty_source :
  BulkBody "books" [] (mkDoc "1" "book" (Some ∅) OperationCreate)
  = Ok [bulk_meta "index" "books" (mkDoc "1" "book" (Some ∅) OperationCreate)]
  /\ BulkBody "books" [] (mkDoc "1" "book" (Some ∅) OperationCreate)
     <> Ok [bulk_meta "index" "books" (mkDoc "1" "book" (Some ∅) OperationCreate);
            JObj ∅].
Proof.
  split; [reflexivity|]. intros H. discriminate H.
Qed.

(** C7 as stated fails: a bulk request answered 201, a 2xx status, is a
    cluster error. *)
Lemma Bulk_201_is_an_error :
  (200 <= 201 < 300)%Z
  /\ Bulk (sample_client (mkResponse 201 "{}")) [] = Err (ClusterError 201 "{}")
  /\ CreateIndex (sample_client (mkResponse 201 "{}"))
       (mkIESSettings ∅ ∅ ∅ "books") = Err (ClusterError 201 "{}")
  /\ IndexExisted (sample_client (mkResponse 204 "")) "books" = Err (ClusterError 204 "").
Proof. repeat split; reflexivity || lia. Qed.

(** A catalogue of two full lines, and one with a line of two fields. *)
Example GetIndexes_full_lines :
  GetIndexes
    (fun _ => (["green open books Zx1 5 1 3 0 10kb 5kb";
                "yellow open logs-1 Qy2 1 1 0 0 1kb 1kb"], None))
    (sample_client (mkResponse 200 "..."))
  = Ok ["books"; "logs-1"].
Proof. reflexivity. Qed.

Example GetIndexes_short_line :
  GetIndexes
    (fun _ => (["green open books Zx1 5 1 3 0 10kb 5kb"; "yellow open"], None))
    (sample_client (mkResponse 200 "..."))
  = Crash (IndexOutOfRange 2 2).
Proof. reflexivity. Qed.

(** A line in which a no-break space stands before the name has three
    fields all the same. *)
Example GetIndexes_no_break_space :
  Fields sample_nbsp_line = ["green"; "open"; "books"; "Zx1"; "5"; "1"]
  /\ GetIndexes (fun _ => ([sample_nbsp_line], None))
       (sample_client (mkResponse 200 "..."))
     = Ok ["books"].
Proof. split; reflexivity. Qed.

(** A slice id without a slice count. *)
Example NewScroll_nil_slice_size :
  NewScroll (fun _ => inl (DecodeError "unused")) (sample_client (mkResponse 200 "{}"))
    "books" (mkScrollOption 1000 5 (Some 0%N) None ∅ ["_id"])
  = Crash NilDereference.
Proof. reflexivity. Qed.

End Samples.

Section PairSamples.
Import service.

(** C8 as stated fails: a pair whose identity is in the map replaces the
    pair stored there. *)
Lemma WithIndexPairs_replaces_entry :
  getIndexPairKey (mkIndexPair "a:b" "c") = getIndexPairKey (mkIndexPair "a" "b:c")
  /\ IndexPairMap
       (WithIndexPairs (NewBulkMigratorWithES sample_context sample_v6 sample_v7)
          [mkIndexPair "a" "b:c"]) !! "a:b:c"
     = Some (mkIndexPair "a" "b:c")
  /\ IndexPairMap
       (WithIndexPairs
          (WithIndexPairs (NewBulkMigratorWithES sample_context sample_v6 sample_v7)
             [mkIndexPair "a" "b:c"])
          [mkIndexPair "a:b" "c"]) !! "a:b:c"
     = Some (mkIndexPair "a:b" "c").
Proof. repeat split; vm_compute; reflexivity. Qed.

End PairSamples.

(** * Further properties of the embedded code *)

(** ** Splitting a path *)

Section SplitFacts.
Import GoStrings service.

Lemma append_cons (c : ascii) (s t : string) : String c s ++ t = String c (s ++ t).
Proof. reflexivity. Qed.

Lemma append_nil_l (t : string) : "" ++ t = t.
Proof. reflexivity. Qed.

Lemma append_assoc (s t u : string) : (s ++ t) ++ u = s ++ t ++ u.
Proof.
  induction s as [|c s IH]; [reflexivity|].
  rewrite !append_cons. now rewrite IH.
Qed.

Lemma contains_byte_app (c : ascii) (s t : string) :
  contains_byte c (s ++ t) = contains_byte c s || contains_byte c t.
Proof.
  induction s as [|d s IH]; [reflexivity|].
  rewrite append_cons. cbn [contains_byte]. rewrite IH. now rewrite orb_assoc.
Qed.

(** A string without the separator is its own single segment. *)
Lemma Split_no_sep (s : string) (sep : ascii) :
  contains_byte sep s = false -> Split s sep = [s].
Proof.
  induction s as [|c s IH]; [reflexivity|].
  cbn [contains_byte Split]. intros H. apply orb_false_iff in H. destruct H as [Hc Hs].
  rewrite Hc. now rewrite IH.
Qed.

(** The first segment ends at the first separator. *)
Lemma Split_app_sep (a b : string) (sep : ascii) :
  contains_byte sep a = false ->
  Split (a ++ String sep b) sep = a :: Split b sep.
Proof.
  induction a as [|c a IH]; intros H.
  - rewrite append_nil_l. cbn [Split]. now rewrite Ascii.eqb_refl.
  - cbn [contains_byte] in H. apply orb_false_iff in H. destruct H as [Hc Ha].
    rewrite append_cons. cbn [Split]. rewrite Hc. now rewrite IH.
Qed.

Lemma Split_length_sep (s : string) (sep : ascii) :
  contains_byte sep s = true -> 2 <= length (Split s sep).
Proof.
  induction s as [|c s IH]; [discriminate|].
  cbn [contains_byte Split]. destruct (Ascii.eqb c sep) eqn:E.
  - intros _. pose proof (Split_nonempty s sep).
    destruct (Split s sep); [congruence | simpl; lia].
  - simpl. intros H. specialize (IH H).
    destruct (Split s sep) as [|x xs]; simpl in *; lia.
Qed.

(** Bytes put in front of a string do not take segments away. *)
Lemma Split_length_app (p u : string) (sep : ascii) :
  length (Split u sep) <= length (Split (p ++ u) sep).
Proof.
  induction p as [|c p IH]; [rewrite append_nil_l; lia|].
  rewrite append_cons. cbn [Split]. destruct (Ascii.eqb c sep); [simpl; lia|].
  pose proof (Split_nonempty (p ++ u) sep).
  destruct (Split (p ++ u) sep); [congruence | simpl in *; lia].
Qed.

(** [Join] undoes [Split]. *)
Lemma Join_Split (s : string) (sep : ascii) :
  Join (Split s sep) (String sep "") = s.
Proof.
  induction s as [|c s IH]; [reflexivity|].
  cbn [Split]. destruct (Ascii.eqb_spec c sep) as [->|Hne].
  - pose proof (Split_nonempty s sep).
    destruct (Split s sep) as [|x xs] eqn:E; [congruence|].
    cbn [Join]. cbn [Join] in IH. rewrite append_nil_l, append_cons, append_nil_l.
    now rewrite IH.
  - destruct (Split s sep) as [|x xs] eqn:E.
    + now apply Split_nonempty in E.
    + cbn [Join] in IH |- *. destruct xs as [|y ys].
      * now rewrite IH.
      * rewrite append_cons. now rewrite IH.
Qed.

(** Two strings that end in a separator and a last segment have the same
    last segment. *)
Lemma last_segment_eq (a b c d : string) (sep : ascii) :
  contains_byte sep b = false -> contains_byte sep d = false ->
  a ++ String sep b = c ++ String sep d -> a = c /\ b = d.
Proof.
  revert c; induction a as [|x a IH]; intros c Hb Hd Heq.
  - rewrite append_nil_l in Heq. destruct c as [|y c].
    + rewrite append_nil_l in Heq. now injection Heq as ->.
    + rewrite append_cons in Heq. injection Heq as _ Heq. subst b.
      rewrite contains_byte_app in Hb. cbn [contains_byte] in Hb.
      rewrite Ascii.eqb_refl in Hb. now rewrite orb_true_r in Hb.
  - rewrite append_cons in Heq. destruct c as [|y c].
    + rewrite append_nil_l in Heq. injection Heq as _ Heq. subst d.
      rewrite contains_byte_app in Hd. cbn [contains_byte] in Hd.
      rewrite Ascii.eqb_refl in Hd. now rewrite orb_true_r in Hd.
    + rewrite append_cons in Heq. injection Heq as -> Heq.
      destruct (IH c Hb Hd Heq) as [-> ->]. tauto.
Qed.

(** The strings a literal ends with. *)
Lemma HasSuffix_literal (lit u : string) :
  HasSuffix lit u = true ->
  In u (map (fun n => drop_bytes n lit) (seq 0 (S (String.length lit)))).
Proof.
  intros H. apply HasSuffix_spec in H. destruct H as [p ->].
  apply in_map_iff. exists (String.length p). split.
  - apply drop_bytes_app.
  - apply in_seq. rewrite length_app. lia.
Qed.

End SplitFacts.

(** ** The URI classifier, all branches *)

Section ParseUriPathMore.
Import GoStrings gateway service.

Lemma document_segments_fields (needType : bool) (long : nat)
    (segments : list string) (r : UriPathParserResult) :
  4 <= long ->
  exists r', document_segments needType long segments r = Ok r'
    /\ RequestAction r' = RequestAction r
    /\ HttpAction r' = HttpAction r
    /\ Index r' = Index r
    /\ (Uri r' = Uri r
        \/ (needType = false /\ length segments = long
            /\ Uri r' = without_type segments)).
Proof.
  intros Hlong. unfold document_segments.
  destruct (Nat.eqb_spec (length segments) long) as [Hlen|_].
  - destruct (index_at_lt segments 2) as [t ->]; [lia|].
    destruct (index_at_lt segments 3) as [d ->]; [lia|].
    cbn [obind]. destruct needType; cbn [negb]; eexists; (split; [reflexivity|]);
      cbn; tauto.
  - destruct (Nat.eqb_spec (length segments) (long - 1)) as [Hlen|_].
    + destruct (index_at_lt segments 2) as [d ->]; [lia|].
      cbn [obind]. eexists; split; [reflexivity|]. cbn; tauto.
    + eexists; split; [reflexivity|]. tauto.
Qed.

Lemma typed_segments_fields (needType : bool) (segments : list string)
    (r : UriPathParserResult) :
  exists r', typed_segments needType segments r = Ok r'
    /\ RequestAction r' = RequestAction r
    /\ HttpAction r' = HttpAction r
    /\ Index r' = Index r
    /\ (Uri r' = Uri r
        \/ (needType = false /\ length segments = 4
            /\ Uri r' = without_type segments)).
Proof.
  unfold typed_segments.
  destruct (Nat.eqb_spec (length segments) 4) as [Hlen|_].
  - destruct (index_at_lt segments 2) as [t ->]; [lia|].
    cbn [obind]. destruct needType; cbn [negb]; eexists; (split; [reflexivity|]);
      cbn; tauto.
  - eexists; split; [reflexivity|]. tauto.
Qed.

Lemma on_verb_fields (httpAction verb : string) (a : request_action)
    (r : UriPathParserResult) :
  HttpAction (on_verb httpAction verb a r) = HttpAction r
  /\ Uri (on_verb httpAction verb a r) = Uri r
  /\ Index (on_verb httpAction verb a r) = Index r.
Proof. unfold on_verb. now destruct (String.eqb httpAction verb). Qed.

(** A literal has two segments; what it ends with has two at most. *)
Lemma reversed_test_segments (lit u : string) :
  HasSuffix lit u = true ->
  length (Split u "/") <= length (Split lit "/").
Proof.
  intros H. apply HasSuffix_spec in H. destruct H as [p ->].
  apply Split_length_app.
Qed.

(** Splits [parseUriPath] into its branches, with the fields each branch
    leaves in the result. *)
Ltac parse_fields H :=
  unfold parseUriPath in H;
  repeat match type of H with
         | context [if ?b then _ else _] => destruct b eqn:?
         end;
  repeat match type of H with
         | context [index_at ?l 1] => destruct (index_at l 1); cbn [obind] in H
         | context [document_segments ?n ?k ?l ?r] =>
             let r' := fresh "r" in
             let E := fresh "E" in
             let F := fresh "F" in
             destruct (document_segments_fields n k l r) as (r' & E & F);
             [lia | rewrite E in H; cbn [obind] in H]
         | context [typed_segments ?n ?l ?r] =>
             let r' := fresh "r" in
             let E := fresh "E" in
             let F := fresh "F" in
             destruct (typed_segments_fields n l r) as (r' & E & F);
             rewrite E in H; cbn [obind] in H
         end;
  try discriminate H;
  try (injection H as <- <-).

Lemma document_segments_uri (needType : bool) (long : nat)
    (segments : list string) (r r' : UriPathParserResult) :
  document_segments needType long segments r = Ok r' ->
  HttpAction r' = HttpAction r
  /\ Uri r' = if negb needType && (length segments =? long)%nat
              then without_type segments else Uri r.
Proof.
  unfold document_segments.
  destruct (length segments =? long)%nat.
  - destruct (index_at segments 2); cbn [obind]; [|discriminate..].
    destruct (index_at segments 3); cbn [obind]; [|discriminate..].
    intros [= <-]. rewrite andb_true_r. now destruct needType.
  - rewrite andb_false_r. destruct (length segments =? long - 1)%nat.
    + destruct (index_at segments 2); cbn [obind]; [|discriminate..].
      now intros [= <-].
    + now intros [= <-].
Qed.

Lemma typed_segments_uri (needType : bool) (segments : list string)
    (r r' : UriPathParserResult) :
  typed_segments needType segments r = Ok r' ->
  HttpAction r' = HttpAction r
  /\ Uri r' = if negb needType && (length segments =? 4)%nat
              then without_type segments else Uri r.
Proof.
  unfold typed_segments.
  destruct (length segments =? 4)%nat.
  - destruct (index_at segments 2); cbn [obind]; [|discriminate..].
    intros [= <-]. rewrite andb_true_r. now destruct needType.
  - rewrite andb_false_r. now intros [= <-].
Qed.

(** X3.  The classifier hands the verb on as it got it, and the URI too, but
    for one case: on a cluster that is not of the 5 or 6 major, a path of
    four segments that ends in [/_mapping], or in neither [/_settings] nor
    [/_bulk], goes on without its third segment.  A path of four segments
    that ends in [/_settings] or [/_bulk] goes on as it is, like every
    path on a cluster of the 5 or 6 major. *)
Theorem parseUriPath_uri (httpAction uriPath : string) (esInstance : ES)
    (r : UriPathParserResult) (err : option error) :
  parseUriPath httpAction uriPath esInstance = Ok (r, err) ->
  HttpAction r = httpAction
  /\ Uri r
     = if negb (HasPrefix (GetClusterVersion esInstance) "5."
                || HasPrefix (GetClusterVersion esInstance) "6.")
          && (length (Split uriPath "/") =? 4)%nat
          && (HasSuffix uriPath "/_mapping"
              || negb (HasSuffix uriPath "/_settings" || HasSuffix uriPath "/_bulk"))
       then without_type (Split uriPath "/")
       else uriPath.
Proof.
  intros H.
  assert (Hrev : forall lit : string,
             length (Split lit "/") = 2 -> HasSuffix lit uriPath = true ->
             (length (Split uriPath "/") =? 4)%nat = false
             /\ (length (Split uriPath "/") =? 5)%nat = false).
  { intros lit Hl Hs. apply reversed_test_segments in Hs.
    split; apply Nat.eqb_neq; lia. }
  unfold parseUriPath in H.
  set (needType := HasPrefix (GetClusterVersion esInstance) "5."
                   || HasPrefix (GetClusterVersion esInstance) "6.") in *.
  destruct (String.eqb uriPath "/" && String.eqb httpAction "GET") eqn:Hroot.
  { injection H as <- <-. apply andb_true_iff in Hroot. destruct Hroot as [Hu _].
    apply String.eqb_eq in Hu. subst uriPath. cbn. now rewrite andb_false_r. }
  destruct (HasSuffix "/_create" uriPath) eqn:Hcreate.
  { destruct (Hrev "/_create" eq_refl Hcreate) as [H4 H5].
    destruct (index_at _ 1); cbn [obind] in H; [|discriminate..].
    destruct (document_segments _ _ _ _) as [r'|?|?] eqn:E; cbn [obind] in H;
      [|discriminate..].
    injection H as <- <-. apply document_segments_uri in E. destruct E as [-> ->].
    rewrite H4, H5, !andb_false_r. cbn. now destruct (on_verb_fields httpAction "POST"
      RequestActionCreateDocument
      (mkUriPathParserResult httpAction uriPath RequestActionUnset "" "" ""))
      as (-> & -> & _). }
  destruct (HasSuffix "/_update" uriPath) eqn:Hupdate.
  { destruct (Hrev "/_update" eq_refl Hupdate) as [H4 H5].
    destruct (index_at _ 1); cbn [obind] in H; [|discriminate..].
    destruct (document_segments _ _ _ _) as [r'|?|?] eqn:E; cbn [obind] in H;
      [|discriminate..].
    injection H as <- <-. apply document_segments_uri in E. destruct E as [-> ->].
    rewrite H4, H5, !andb_false_r. cbn. now destruct (on_verb_fields httpAction "POST"
      RequestActionUpdateDocument
      (mkUriPathParserResult httpAction uriPath RequestActionUnset "" "" ""))
      as (-> & -> & _). }
  destruct (HasSuffix "/_search" uriPath) eqn:Hsearch.
  { destruct (Hrev "/_search" eq_refl Hsearch) as [H4 H5].
    destruct (index_at _ 1); cbn [obind] in H; [|discriminate..].
    destruct (typed_segments _ _ _) as [r'|?|?] eqn:E; cbn [obind] in H;
      [|discriminate..].
    injection H as <- <-. apply typed_segments_uri in E. destruct E as [-> ->].
    rewrite H4, !andb_false_r. cbn [set_index HttpAction Uri].
    rewrite !(proj1 (on_verb_fields _ _ _ _)), !(proj1 (proj2 (on_verb_fields _ _ _ _))).
    now cbn. }
  destruct (String.eqb_spec uriPath "/_cluster/health") as [->|_].
  { injection H as <- <-. unfold on_verb.
    destruct (String.eqb httpAction "GET"); cbn; now rewrite andb_false_r. }
  destruct (String.eqb_spec uriPath "/_cluster/settings") as [->|_].
  { injection H as <- <-. unfold on_verb.
    destruct (String.eqb httpAction "GET"); cbn; now rewrite andb_false_r. }
  destruct (HasSuffix uriPath "/_mapping") eqn:Hmapping.
  { destruct (index_at _ 1); cbn [obind] in H; [|discriminate..].
    destruct (typed_segments _ _ _) as [r'|?|?] eqn:E; cbn [obind] in H;
      [|discriminate..].
    injection H as <- <-. apply typed_segments_uri in E. destruct E as [-> ->].
    rewrite orb_true_l, andb_true_r. cbn [set_index HttpAction Uri].
    rewrite !(proj1 (on_verb_fields _ _ _ _)), !(proj1 (proj2 (on_verb_fields _ _ _ _))).
    now cbn. }
  destruct (HasSuffix uriPath "/_settings") eqn:Hsettings.
  { destruct (index_at _ 1); cbn [obind] in H; [|discriminate..].
    injection H as <- <-. rewrite !andb_false_r. cbn [set_index HttpAction Uri].
    rewrite !(proj1 (on_verb_fields _ _ _ _)), !(proj1 (proj2 (on_verb_fields _ _ _ _))).
    now cbn. }
  destruct (HasSuffix uriPath "/_bulk") eqn:Hbulk.
  { injection H as <- <-. now rewrite !andb_false_r. }
  cbn [orb negb]. rewrite andb_true_r.
  destruct (Nat.eqb_spec (length (Split uriPath "/")) 2) as [H2|H2].
  { destruct (index_at _ 1); cbn [obind] in H; [|discriminate..].
    injection H as <- <-. rewrite H2, !andb_false_r. cbn [set_index HttpAction Uri].
    rewrite !(proj1 (on_verb_fields _ _ _ _)), !(proj1 (proj2 (on_verb_fields _ _ _ _))).
    now cbn. }
  destruct (Nat.leb_spec 3 (length (Split uriPath "/"))) as [H3|H3].
  { destruct (index_at _ 1); cbn [obind] in H; [|discriminate..].
    destruct (document_segments _ _ _ _) as [r'|?|?] eqn:E; cbn [obind] in H;
      [|discriminate..].
    injection H as <- <-. apply document_segments_uri in E. destruct E as [-> ->].
    cbn [set_index HttpAction Uri].
    rewrite !(proj1 (on_verb_fields _ _ _ _)), !(proj1 (proj2 (on_verb_fields _ _ _ _))).
    now cbn. }
  injection H as <- <-.
  destruct (Nat.eqb_spec (length (Split uriPath "/")) 4) as [H4|_]; [lia|].
  now rewrite andb_false_r.
Qed.

Lemma HasSuffix_contains (u lit : string) (c : ascii) :
  contains_byte c lit = true -> HasSuffix u lit = true -> contains_byte c u = true.
Proof.
  intros Hlit H. apply HasSuffix_spec in H. destruct H as [p ->].
  rewrite contains_byte_app, Hlit. apply orb_true_r.
Qed.

Lemma parseUriPath_with_slash (httpAction uriPath : string) (esInstance : ES) :
  contains_byte "/" uriPath = true ->
  exists r, parseUriPath httpAction uriPath esInstance = Ok (r, None).
Proof.
  intros Hslash.
  pose proof (Split_length_sep _ _ Hslash) as Hlen.
  destruct (index_at_lt (Split uriPath "/") 1) as [i Hi]; [lia|].
  unfold parseUriPath. rewrite !Hi.
  repeat match goal with
         | |- context [if ?b then _ else _] => destruct b eqn:?
         end;
    cbn [obind];
    repeat match goal with
           | |- context [document_segments ?n ?k ?l ?r] =>
               let E := fresh "E" in
               destruct (document_segments_fields n k l r) as (? & E & _);
               [lia | rewrite E; cbn [obind]]
           | |- context [typed_segments ?n ?l ?r] =>
               let E := fresh "E" in
               destruct (typed_segments_fields n l r) as (? & E & _);
               rewrite E; cbn [obind]
           end;
    eauto.
  exfalso.
  repeat match goal with
         | H : (_ =? _)%nat = false |- _ => apply Nat.eqb_neq in H
         | H : (_ <=? _)%nat = false |- _ => apply Nat.leb_gt in H
         end.
  lia.
Qed.

Lemma parseUriPath_without_slash (httpAction uriPath : string) (esInstance : ES) :
  contains_byte "/" uriPath = false ->
  parseUriPath httpAction uriPath esInstance
  = if HasSuffix "/_create" uriPath || HasSuffix "/_update" uriPath
       || HasSuffix "/_search" uriPath
    then Crash (IndexOutOfRange 1 1)
    else Ok (mkUriPathParserResult httpAction uriPath RequestActionUnset "" "" "",
             Some (Errorf ("invalid uri " ++ uriPath))).
Proof.
  intros Hslash.
  assert (Hlit : forall lit : string,
             contains_byte "/" lit = true -> HasSuffix uriPath lit = false).
  { intros lit Hl. destruct (HasSuffix uriPath lit) eqn:E; [|reflexivity].
    apply (HasSuffix_contains _ _ _ Hl) in E. congruence. }
  assert (Heq : forall lit : string,
             contains_byte "/" lit = true -> String.eqb uriPath lit = false).
  { intros lit Hl. destruct (String.eqb_spec uriPath lit) as [->|]; congruence. }
  unfold parseUriPath. rewrite (Split_no_sep _ _ Hslash).
  rewrite (Heq "/"), (Heq "/_cluster/health"), (Heq "/_cluster/settings"),
    (Hlit "/_mapping"), (Hlit "/_settings"), (Hlit "/_bulk") by reflexivity.
  cbn [andb length Nat.eqb Nat.leb index_at nth_error obind].
  destruct (HasSuffix "/_create" uriPath); [reflexivity|].
  destruct (HasSuffix "/_update" uriPath); [reflexivity|].
  destruct (HasSuffix "/_search" uriPath); reflexivity.
Qed.

(** X1.  When the classifier panics, reports an error, or does neither.  A path
    with a slash is always classified.  A path without one panics on
    [segments[1]] when it is an ending of one of the three literals of the
    reversed tests (the empty path is one), and is the "invalid uri" error
    otherwise. *)
Theorem parseUriPath_outcomes (httpAction uriPath : string) (esInstance : ES) :
  if contains_byte "/" uriPath then
    exists r, parseUriPath httpAction uriPath esInstance = Ok (r, None)
  else if HasSuffix "/_create" uriPath || HasSuffix "/_update" uriPath
          || HasSuffix "/_search" uriPath then
    parseUriPath httpAction uriPath esInstance = Crash (IndexOutOfRange 1 1)
  else
    parseUriPath httpAction uriPath esInstance
    = Ok (mkUriPathParserResult httpAction uriPath RequestActionUnset "" "" "",
          Some (Errorf ("invalid uri " ++ uriPath))).
Proof.
  destruct (contains_byte "/" uriPath) eqn:Hslash.
  - now apply parseUriPath_with_slash.
  - rewrite (parseUriPath_without_slash _ _ _ Hslash).
    now destruct (_ || _).
Qed.

Lemma reversed_test_literal (lit u : string) :
  String.length lit = 8 -> contains_byte "/" (drop_bytes 1 lit) = false ->
  HasSuffix lit u = true -> contains_byte "/" u = true -> u = lit.
Proof.
  intros Hlen Hrest Hs Hslash. apply HasSuffix_spec in Hs. destruct Hs as [p Hp].
  destruct p as [|c p]; [now rewrite append_nil_l in Hp|].
  exfalso. subst lit. rewrite append_cons in Hrest. cbn [drop_bytes] in Hrest.
  rewrite contains_byte_app, Hslash in Hrest. now rewrite orb_true_r in Hrest.
Qed.

Lemma parseUriPath_branch_table (httpAction uriPath : string) (esInstance : ES)
    (r : UriPathParserResult) (err : option error) :
  parseUriPath httpAction uriPath esInstance = Ok (r, err) ->
  action_request (RequestAction r) httpAction uriPath false.
Proof.
  intros H. parse_fields H;
    repeat match goal with
           | F : _ /\ _ |- _ => destruct F
           end;
    repeat match goal with
           | A : RequestAction _ = _ |- _ => rewrite A; clear A
           end;
    cbn [RequestAction set_action set_index]; rewrite ?on_verb_action;
    cbn [RequestAction set_action set_index];
    repeat match goal with
           | H : (_ && _) = true |- _ => apply andb_true_iff in H; destruct H
           | H : String.eqb _ _ = true |- _ => apply String.eqb_eq in H
           | H : (_ =? _)%nat = true |- _ => apply Nat.eqb_eq in H
           | H : (_ <=? _)%nat = true |- _ => apply Nat.leb_le in H
           end;
    repeat match goal with
           | |- context [String.eqb ?a ?b] =>
               destruct (String.eqb_spec a b)
           end;
    cbn [action_request]; auto.
Qed.

(** A result comes with a true reversed test only for the literal. *)
Lemma reversed_test_exact (httpAction uriPath : string) (esInstance : ES)
    (r : UriPathParserResult) (err : option error) (lit : string) :
  parseUriPath httpAction uriPath esInstance = Ok (r, err) ->
  HasSuffix lit uriPath = true ->
  lit = "/_create" \/ lit = "/_update" \/ lit = "/_search" ->
  uriPath = lit.
Proof.
  intros H Hs Hin.
  destruct (contains_byte "/" uriPath) eqn:Hslash.
  - destruct Hin as [-> | [-> | ->]]; now apply reversed_test_literal.
  - assert (Hany : HasSuffix "/_create" uriPath || HasSuffix "/_update" uriPath
                   || HasSuffix "/_search" uriPath = true).
    { destruct Hin as [-> | [-> | ->]]; rewrite Hs; now rewrite ?orb_true_r. }
    rewrite (parseUriPath_without_slash _ _ _ Hslash), Hany in H. discriminate H.
Qed.

(** X2.  Each action of a result tells the verb and the shape of the path of
    the request.  The four actions behind the reversed tests are given to
    the literal paths alone: create-document to [POST /_create],
    update-document to [POST /_update], search to [GET /_search], limited
    search to [POST /_search].  The bulk action is given for every verb. *)
Theorem parseUriPath_action_table (httpAction uriPath : string)
    (esInstance : ES) (r : UriPathParserResult) (err : option error) :
  parseUriPath httpAction uriPath esInstance = Ok (r, err) ->
  action_request (RequestAction r) httpAction uriPath true.
Proof.
  intros H.
  pose proof (parseUriPath_branch_table _ _ _ _ _ H) as Ht.
  destruct (RequestAction r); cbn [action_request] in Ht |- *; try exact Ht;
    destruct Ht as [Hv Hs];
    (split; [exact Hv | apply (reversed_test_exact _ _ _ _ _ _ H Hs); auto]).
Qed.

End ParseUriPathMore.

Section DocumentPaths.
Import GoStrings gateway service.

Lemma Split_three (index type id : string) :
  contains_byte "/" index = false -> contains_byte "/" type = false ->
  contains_byte "/" id = false ->
  Split ("/" ++ index ++ "/" ++ type ++ "/" ++ id) "/" = [""; index; type; id].
Proof.
  intros Hi Ht Hd.
  change ("/" ++ index ++ "/" ++ type ++ "/" ++ id)
    with ("" ++ String "/" (index ++ String "/" (type ++ String "/" id))).
  rewrite !Split_app_sep by (assumption || reflexivity). now rewrite Split_no_sep.
Qed.

Lemma HasSuffix_last_segment (a d lit : string) :
  contains_byte "/" d = false -> contains_byte "/" lit = false -> d <> lit ->
  HasSuffix (a ++ String "/" d) (String "/" lit) = false.
Proof.
  intros Hd Hl Hne. destruct (HasSuffix _ _) eqn:E; [|reflexivity].
  apply HasSuffix_spec in E. destruct E as [p Hp].
  apply last_segment_eq in Hp; [|assumption..]. tauto.
Qed.

(** X4.  A document path with a type, [/{index}/{type}/{id}].  The three
    segments are the result's index, type and document id, the verb picks
    the action, and the URI that goes on keeps the type for a cluster of
    the 5 or 6 major and is [/{index}/{id}] for any other. *)
Theorem parseUriPath_document_path
    (httpAction index type id : string) (esInstance : ES) :
  contains_byte "/" index = false ->
  contains_byte "/" type = false ->
  contains_byte "/" id = false ->
  id <> "_mapping" -> id <> "_settings" -> id <> "_bulk" ->
  parseUriPath httpAction ("/" ++ index ++ "/" ++ type ++ "/" ++ id) esInstance
  = Ok (mkUriPathParserResult httpAction
          (if HasPrefix (GetClusterVersion esInstance) "5."
              || HasPrefix (GetClusterVersion esInstance) "6."
           then "/" ++ index ++ "/" ++ type ++ "/" ++ id
           else "/" ++ index ++ "/" ++ id)
          (if String.eqb httpAction "DELETE" then RequestActionDeleteDocument
           else if String.eqb httpAction "PUT" then RequestActionUpsertDocument
           else if String.eqb httpAction "GET" then RequestActionDocument
           else RequestActionUnset)
          index type id,
        None).
Proof.
  intros Hi Ht Hd Hm Hs Hb.
  pose proof (Split_three index type id Hi Ht Hd) as Hsplit.
  set (path := "/" ++ index ++ "/" ++ type ++ "/" ++ id) in *.
  assert (Heq : forall lit : string,
             length (Split lit "/") <> 4 -> String.eqb path lit = false).
  { intros lit Hl. destruct (String.eqb_spec path lit) as [E|]; [|reflexivity].
    rewrite <- E, Hsplit in Hl. now elim Hl. }
  assert (Hrev : forall lit : string,
             length (Split lit "/") = 2 -> HasSuffix lit path = false).
  { intros lit Hl. destruct (HasSuffix lit path) eqn:E; [|reflexivity].
    apply reversed_test_segments in E. rewrite Hsplit, Hl in E. simpl in E. lia. }
  assert (Hsuf : forall lit : string,
             contains_byte "/" lit = false -> id <> lit ->
             HasSuffix path (String "/" lit) = false).
  { intros lit Hl Hne.
    replace path with (("/" ++ index ++ "/" ++ type) ++ String "/" id).
    - now apply HasSuffix_last_segment.
    - subst path. now rewrite !append_assoc. }
  unfold parseUriPath. fold path. rewrite Hsplit.
  rewrite (Heq "/"), (Heq "/_cluster/health"), (Heq "/_cluster/settings") by (simpl; lia).
  rewrite (Hrev "/_create"), (Hrev "/_update"), (Hrev "/_search") by reflexivity.
  change "/_mapping" with (String "/" "_mapping").
  change "/_settings" with (String "/" "_settings").
  change "/_bulk" with (String "/" "_bulk").
  rewrite !Hsuf by (assumption || reflexivity).
  cbn [andb length Nat.eqb Nat.leb index_at nth_error obind].
  unfold document_segments.
  cbn [length Nat.eqb Nat.sub index_at nth_error obind].
  unfold on_verb.
  destruct (HasPrefix (GetClusterVersion esInstance) "5."
            || HasPrefix (GetClusterVersion esInstance) "6.");
    destruct (String.eqb httpAction "GET"), (String.eqb httpAction "PUT"),
      (String.eqb httpAction "DELETE"); reflexivity.
Qed.

End DocumentPaths.

Section IndexEndpoints.
Import GoStrings gateway service.

Lemma HasSuffix_app (a lit : string) : HasSuffix (a ++ lit) lit = true.
Proof. apply HasSuffix_spec. now exists a. Qed.

Lemma eqb_by_suffix (path lit suffix : string) :
  HasSuffix path suffix = true -> HasSuffix lit suffix = false ->
  String.eqb path lit = false.
Proof.
  intros Hp Hl. destruct (String.eqb_spec path lit) as [->|]; congruence.
Qed.

(** X5.  The endpoints of one index.  [/{index}/_mapping] and
    [/{index}/_settings] are read by GET and updated by PUT, with the index
    in the result; [/{index}/{type}/_mapping] also gives the type and goes
    on as [/{index}/_mapping] unless the cluster is of the 5 or 6 major;
    [/{index}/_bulk] is the bulk action for every verb, and leaves the
    index of the result empty. *)
Theorem parseUriPath_index_endpoints
    (httpAction index type : string) (esInstance : ES) :
  contains_byte "/" index = false ->
  contains_byte "/" type = false ->
  parseUriPath httpAction ("/" ++ index ++ "/_mapping") esInstance
  = Ok (mkUriPathParserResult httpAction ("/" ++ index ++ "/_mapping")
          (if String.eqb httpAction "PUT" then RequestActionUpdateIndexMapping
           else if String.eqb httpAction "GET" then RequestActionGetIndexMapping
           else RequestActionUnset)
          index "" "",
        None)
  /\ parseUriPath httpAction ("/" ++ index ++ "/" ++ type ++ "/_mapping") esInstance
     = Ok (mkUriPathParserResult httpAction
             (if HasPrefix (GetClusterVersion esInstance) "5."
                 || HasPrefix (GetClusterVersion esInstance) "6."
              then "/" ++ index ++ "/" ++ type ++ "/_mapping"
              else "/" ++ index ++ "/_mapping")
             (if String.eqb httpAction "PUT" then RequestActionUpdateIndexMapping
              else if String.eqb httpAction "GET" then RequestActionGetIndexMapping
              else RequestActionUnset)
             index type "",
           None)
  /\ parseUriPath httpAction ("/" ++ index ++ "/_settings") esInstance
     = Ok (mkUriPathParserResult httpAction ("/" ++ index ++ "/_settings")
             (if String.eqb httpAction "PUT" then RequestActionUpdateIndexSettings
              else if String.eqb httpAction "GET" then RequestActionGetIndexSettings
              else RequestActionUnset)
             index "" "",
           None)
  /\ parseUriPath httpAction ("/" ++ index ++ "/_bulk") esInstance
     = Ok (mkUriPathParserResult httpAction ("/" ++ index ++ "/_bulk")
             RequestActionBulk "" "" "",
           None).
Proof.
  intros Hi Ht.
  assert (Hsplit2 : forall d : string,
             contains_byte "/" d = false ->
             Split ("/" ++ index ++ String "/" d) "/" = [""; index; d]).
  { intros d Hd.
    change ("/" ++ index ++ String "/" d) with ("" ++ String "/" (index ++ String "/" d)).
    rewrite !Split_app_sep by (assumption || reflexivity). now rewrite Split_no_sep. }
  assert (Hrev : forall path lit : string,
             2 < length (Split path "/") -> length (Split lit "/") = 2 ->
             HasSuffix lit path = false).
  { intros path lit Hp Hl. destruct (HasSuffix lit path) eqn:E; [|reflexivity].
    apply reversed_test_segments in E. lia. }
  assert (Hroot : forall path : string,
             2 < length (Split path "/") -> String.eqb path "/" = false).
  { intros path Hp. destruct (String.eqb_spec path "/") as [->|]; [|reflexivity].
    simpl in Hp. lia. }
  repeat split.
  - pose proof (Hsplit2 "_mapping" eq_refl) as Hs.
    change (String "/" "_mapping") with "/_mapping" in Hs.
    set (path := "/" ++ index ++ "/_mapping") in *.
    assert (Hend : HasSuffix path "/_mapping" = true)
      by (subst path; rewrite <- append_assoc; apply HasSuffix_app).
    unfold parseUriPath. fold path. rewrite Hs.
    rewrite Hroot, !Hrev by (rewrite ?Hs; simpl; lia).
    rewrite !(eqb_by_suffix path _ "/_mapping") by (exact Hend || reflexivity).
    rewrite Hend.
    cbn [andb index_at nth_error obind]. unfold typed_segments, on_verb.
    cbn [length Nat.eqb].
    destruct (String.eqb httpAction "GET"), (String.eqb httpAction "PUT"); reflexivity.
  - assert (Hs : Split ("/" ++ index ++ "/" ++ type ++ "/_mapping") "/"
                 = [""; index; type; "_mapping"])
      by (now apply Split_three).
    set (path := "/" ++ index ++ "/" ++ type ++ "/_mapping") in *.
    assert (Hend : HasSuffix path "/_mapping" = true)
      by (subst path; rewrite <- !append_assoc; apply HasSuffix_app).
    unfold parseUriPath. fold path. rewrite Hs.
    rewrite Hroot, !Hrev by (rewrite ?Hs; simpl; lia).
    rewrite !(eqb_by_suffix path _ "/_mapping") by (exact Hend || reflexivity).
    rewrite Hend.
    cbn [andb index_at nth_error obind]. unfold typed_segments, on_verb.
    cbn [length Nat.eqb index_at nth_error obind].
    destruct (HasPrefix (GetClusterVersion esInstance) "5."
              || HasPrefix (GetClusterVersion esInstance) "6.");
      destruct (String.eqb httpAction "GET"), (String.eqb httpAction "PUT");
      reflexivity.
  - pose proof (Hsplit2 "_settings" eq_refl) as Hs.
    change (String "/" "_settings") with "/_settings" in Hs.
    set (path := "/" ++ index ++ "/_settings") in *.
    assert (Hend : HasSuffix path "/_settings" = true)
      by (subst path; rewrite <- append_assoc; apply HasSuffix_app).
    assert (Hmap : HasSuffix path "/_mapping" = false).
    { subst path. apply (HasSuffix_last_segment ("/" ++ index) "_settings" "_mapping");
        (reflexivity || discriminate). }
    unfold parseUriPath. fold path. rewrite Hs.
    rewrite Hroot, !Hrev by (rewrite ?Hs; simpl; lia).
    rewrite !(eqb_by_suffix path _ "/_settings") by (exact Hend || reflexivity).
    rewrite Hmap, Hend.
    cbn [andb index_at nth_error obind]. unfold on_verb.
    destruct (String.eqb httpAction "GET"), (String.eqb httpAction "PUT"); reflexivity.
  - pose proof (Hsplit2 "_bulk" eq_refl) as Hs.
    change (String "/" "_bulk") with "/_bulk" in Hs.
    set (path := "/" ++ index ++ "/_bulk") in *.
    assert (Hend : HasSuffix path "/_bulk" = true)
      by (subst path; rewrite <- append_assoc; apply HasSuffix_app).
    assert (Hmap : HasSuffix path "/_mapping" = false).
    { subst path. apply (HasSuffix_last_segment ("/" ++ index) "_bulk" "_mapping");
        (reflexivity || discriminate). }
    assert (Hset : HasSuffix path "/_settings" = false).
    { subst path. apply (HasSuffix_last_segment ("/" ++ index) "_bulk" "_settings");
        (reflexivity || discriminate). }
    unfold parseUriPath. fold path. rewrite Hs.
    rewrite Hroot, !Hrev by (rewrite ?Hs; simpl; lia).
    rewrite !(eqb_by_suffix path _ "/_bulk") by (exact Hend || reflexivity).
    rewrite Hmap, Hset, Hend. reflexivity.
Qed.

End IndexEndpoints.

(** ** What reaches the slave cluster *)

Section SlaveRequestFacts.
Import GoStrings gateway.

Variable ClusterVersionGte7 : ES -> bool.
Variable Unmarshal : string -> error + gmap string json.
Variable range_keys : gmap string json -> list string.

Lemma slave_request_parsed (gateway : ESGateway) (method path body : string)
    (r : UriPathParserResult) (update : option (gmap string json)) :
  slave_request ClusterVersionGte7 Unmarshal range_keys gateway method path body
  = Ok (Some (r, update)) ->
  parseUriPath method path (SlaveES gateway) = Ok (r, None)
  /\ Contains mirrored_actions (RequestAction r) = true
  /\ modifyMappings ClusterVersionGte7 Unmarshal range_keys gateway body = Ok update.
Proof.
  unfold slave_request.
  destruct (parseUriPath method path (SlaveES gateway)) as [[r' e]|e|c];
    cbn [obind fst snd]; [|discriminate..].
  destruct (Contains mirrored_actions (RequestAction r')) eqn:Hc;
    cbn [negb]; [|discriminate].
  destruct e; [discriminate|].
  destruct (modifyMappings _ _ _ _ _) as [u|?|?]; [|discriminate..].
  intros [= <- <-]. auto.
Qed.

(** X7.  Which requests are sent to the slave cluster, by verb.  A GET is sent
    only when its path ends in [/_bulk]; a POST only when its path ends in
    [/_bulk] or is [/_create] or [/_update] itself, so that a POST of a
    document to an index is not; a request of another verb is a PUT or a
    DELETE, or has a path that ends in [/_bulk]. *)
Theorem slave_request_verbs (gateway : ESGateway) (method path body : string)
    (r : UriPathParserResult) (update : option (gmap string json)) :
  slave_request ClusterVersionGte7 Unmarshal range_keys gateway method path body
  = Ok (Some (r, update)) ->
  (method = "GET" -> HasSuffix path "/_bulk" = true)
  /\ (method = "POST" ->
      HasSuffix path "/_bulk" = true \/ path = "/_create" \/ path = "/_update")
  /\ (method = "PUT" \/ method = "DELETE" \/ HasSuffix path "/_bulk" = true
      \/ path = "/_create" \/ path = "/_update").
Proof.
  intros H. apply slave_request_parsed in H. destruct H as (Hp & Hc & _).
  pose proof (parseUriPath_branch_table _ _ _ _ _ Hp) as Ht.
  pose proof (fun lit => reversed_test_exact _ _ _ _ _ lit Hp) as Hlit.
  destruct (RequestAction r); try discriminate Hc; cbn [action_request] in Ht;
    repeat match goal with H : _ /\ _ |- _ => destruct H end;
    try match goal with
        | Hs : HasSuffix ?lit path = true |- _ =>
            apply Hlit in Hs; [|auto]
        end;
    subst; (split; [|split]); try (intros [=]); auto 6.
Qed.

Lemma modifyMappings_Ok (gateway : ESGateway) (body : string)
    (update : option (gmap string json)) :
  modifyMappings ClusterVersionGte7 Unmarshal range_keys gateway body = Ok update ->
  if Bool.eqb (ClusterVersionGte7 (MasterES gateway))
              (ClusterVersionGte7 (SlaveES gateway))
  then update = None
  else exists data mappings mappings',
      Unmarshal body = inr data
      /\ data !! "mappings" = Some (JObj mappings)
      /\ update = Some (<["mappings" := JObj mappings']> data).
Proof.
  unfold modifyMappings. destruct (Bool.eqb _ _); [now intros [= <-]|].
  destruct (Unmarshal body) as [e|data]; [discriminate|].
  destruct (data !! "mappings") as [[| | | | |mappings]|] eqn:Hm; try discriminate.
  destruct (negb _).
  - destruct (mappings !! _) as [[| | | | |typed]|]; try discriminate.
    destruct (typed !! "properties"); [|discriminate].
    intros [= <-]. eauto 6.
  - destruct (mappings !! "properties"); [|discriminate].
    intros [= <-]. eauto 6.
Qed.

(** X8.  What body the slave cluster is sent.  Between clusters of one family
    the body is left as it is.  Between families a request is sent only
    when its body is a JSON object with an object under ["mappings"], and
    what is sent is that object with new mappings and every other field as
    it was; a request of another body, a document to index among them, is
    not sent to the slave cluster. *)
Theorem slave_request_body (gateway : ESGateway) (method path body : string)
    (r : UriPathParserResult) (update : option (gmap string json)) :
  slave_request ClusterVersionGte7 Unmarshal range_keys gateway method path body
  = Ok (Some (r, update)) ->
  if Bool.eqb (ClusterVersionGte7 (MasterES gateway))
              (ClusterVersionGte7 (SlaveES gateway))
  then update = None
  else exists data mappings data',
      Unmarshal body = inr data
      /\ data !! "mappings" = Some (JObj mappings)
      /\ update = Some data'
      /\ (forall k, k <> "mappings" -> data' !! k = data !! k).
Proof.
  intros H. apply slave_request_parsed in H. destruct H as (_ & _ & Hm).
  apply modifyMappings_Ok in Hm. destruct (Bool.eqb _ _); [exact Hm|].
  destruct Hm as (data & mappings & mappings' & Hu & Hd & ->).
  exists data, mappings, (<["mappings" := JObj mappings']> data).
  repeat split; try assumption.
  intros k Hk. now rewrite lookup_insert_ne.
Qed.

End SlaveRequestFacts.

(** ** The mapping rewrite, both ways *)

Section ModifyMappingsMore.
Import GoStrings gateway.

Variable ClusterVersionGte7 : ES -> bool.
Variable Unmarshal : string -> error + gmap string json.
Variable range_keys : gmap string json -> list string.

(** A [range] loop meets the keys of the map, and each of them. *)
Hypothesis range_keys_sound : forall (m : gmap string json) (k : string),
  In k (range_keys m) -> is_Some (m !! k).
Hypothesis range_keys_complete : forall (m : gmap string json) (k : string),
  is_Some (m !! k) -> In k (range_keys m).

Lemma first_type_name_single (T : string) (v : json) :
  T <> "properties" -> first_type_name (range_keys {[T := v]}) = T.
Proof.
  intros HT. unfold first_type_name.
  destruct (find _ _) as [key|] eqn:E.
  - apply find_some in E. destruct E as [Hin _].
    apply range_keys_sound in Hin. destruct Hin as [w Hw].
    apply lookup_singleton_Some in Hw. now destruct Hw.
  - exfalso. assert (Hin : In T (range_keys {[T := v]})).
    { apply range_keys_complete. rewrite lookup_singleton_eq. eauto. }
    apply (find_none _ _ E) in Hin. apply negb_false_iff in Hin.
    now apply String.eqb_eq in Hin.
Qed.

Lemma delete_insert_single (T K : string) (v w : json) :
  T <> K -> delete T (<[K := w]> ({[T := v]} : gmap string json)) = {[K := w]}.
Proof.
  intros HTK. apply map_eq. intros k. destruct (decide (k = T)) as [->|HkT].
  - rewrite lookup_delete_eq. now rewrite lookup_singleton_ne by congruence.
  - rewrite lookup_delete_ne by congruence.
    destruct (decide (k = K)) as [->|HkK].
    + now rewrite lookup_insert_eq, lookup_singleton_eq.
    + rewrite lookup_insert_ne by congruence.
      now rewrite !lookup_singleton_ne by congruence.
Qed.

Lemma first_type_name_wrapped (P : json) :
  first_type_name (range_keys {["properties" := P]}) = "".
Proof.
  unfold first_type_name.
  destruct (find _ _) as [key|] eqn:E; [|reflexivity].
  apply find_some in E. destruct E as [Hin Hne].
  apply range_keys_sound in Hin. destruct Hin as [v Hv].
  apply lookup_singleton_Some in Hv. destruct Hv as [<- _].
  discriminate Hne.
Qed.

(** X9.  Typed to typeless.  Mappings that hold one type [T], with
    [properties: P] among the fields of the type, become [{properties: P}]:
    the type name goes, and so does every other field the type had. *)
Theorem modifyMappings_typed_to_typeless
    (gateway : ESGateway) (body : string) (data typed : gmap string json)
    (T : string) (P : json) :
  ClusterVersionGte7 (MasterES gateway) <> ClusterVersionGte7 (SlaveES gateway) ->
  Unmarshal body = inr data ->
  T <> "properties" -> T <> "" ->
  data !! "mappings" = Some (JObj {[T := JObj typed]}) ->
  typed !! "properties" = Some P ->
  modifyMappings ClusterVersionGte7 Unmarshal range_keys gateway body
  = Ok (Some (<["mappings" := JObj {["properties" := P]}]> data)).
Proof.
  intros Hfam Hdata HT Hne Hmap HP. unfold modifyMappings.
  destruct (Bool.eqb _ _) eqn:E; [apply Bool.eqb_prop in E; contradiction|].
  rewrite Hdata, Hmap, (first_type_name_single _ _ HT).
  apply String.eqb_neq in Hne. rewrite Hne. cbn [negb].
  rewrite lookup_singleton_eq, HP.
  now rewrite delete_insert_single.
Qed.

(** X10.  Typeless to typed and back.  The rewrite of a body with the mappings
    [{properties: P}], applied to its own result, gives the body back. *)
Theorem modifyMappings_round_trip
    (gateway : ESGateway) (body body' : string) (data data' : gmap string json)
    (P : json) :
  ClusterVersionGte7 (MasterES gateway) <> ClusterVersionGte7 (SlaveES gateway) ->
  Unmarshal body = inr data ->
  data !! "mappings" = Some (JObj {["properties" := P]}) ->
  modifyMappings ClusterVersionGte7 Unmarshal range_keys gateway body
  = Ok (Some data') ->
  Unmarshal body' = inr data' ->
  modifyMappings ClusterVersionGte7 Unmarshal range_keys gateway body'
  = Ok (Some data).
Proof.
  intros Hfam Hdata Hmap Hfirst Hdata'.
  assert (Hd' : data' = <["mappings" := JObj {["doc" := JObj {["properties" := P]}]}]> data).
  { revert Hfirst. unfold modifyMappings.
    destruct (Bool.eqb _ _) eqn:E; [apply Bool.eqb_prop in E; contradiction|].
    rewrite Hdata, Hmap, first_type_name_wrapped. cbn [String.eqb negb].
    rewrite lookup_singleton_eq. intros [= <-].
    now rewrite delete_insert_single by discriminate. }
  subst data'. unfold modifyMappings.
  destruct (Bool.eqb _ _) eqn:E; [apply Bool.eqb_prop in E; contradiction|].
  rewrite Hdata', lookup_insert_eq.
  rewrite first_type_name_single by discriminate. cbn [String.eqb Ascii.eqb Bool.eqb negb].
  rewrite !lookup_singleton_eq.
  rewrite delete_insert_single by discriminate.
  rewrite insert_insert_eq. now rewrite insert_id.
Qed.

End ModifyMappingsMore.

(** ** Building the gateway, and the header it hands back *)

Section GatewayFacts.
Import GoStrings gateway.

Variable GetES : option ESConfig -> error + ES.
Variable canonical : string -> string.
Variable header_keys : gmap string (list string) -> list string.

(** X11.  The roles [NewESGateway] gives out.  The master is the target cluster
    when the configuration names the target as master, and the source
    cluster for every other name; the slave is the other one of the two.
    A gateway whose master is the source hands every body of the master on
    as it is. *)
Theorem NewESGateway_roles (cfg : Config) (g : ESGateway) :
  NewESGateway GetES cfg = inr g ->
  GetES (cfg_ESConfigs cfg !! cfg_SourceES (cfg_GatewayCfg cfg)) = inr (SourceES g)
  /\ GetES (cfg_ESConfigs cfg !! cfg_TargetES (cfg_GatewayCfg cfg)) = inr (TargetES g)
  /\ (if String.eqb (cfg_Master (cfg_GatewayCfg cfg)) (cfg_TargetES (cfg_GatewayCfg cfg))
      then MasterES g = TargetES g /\ SlaveES g = SourceES g
      else MasterES g = SourceES g /\ SlaveES g = TargetES g
           /\ forall gte7 getPath setPath statusCode bodyMap,
               rewrite_total gte7 getPath setPath g statusCode bodyMap = bodyMap).
Proof.
  unfold NewESGateway.
  destruct (GetES (_ !! cfg_SourceES _)) as [e|sourceES]; [discriminate|].
  destruct (GetES (_ !! cfg_TargetES _)) as [e|targetES]; [discriminate|].
  intros [= <-]. cbn [SourceES TargetES MasterES SlaveES].
  do 2 (split; [reflexivity|]).
  destruct (String.eqb _ _); [tauto|].
  do 2 (split; [reflexivity|]).
  intros. unfold rewrite_total. cbn [SourceES MasterES].
  now rewrite Nat.eqb_refl.
Qed.

Lemma set_values_lookup (key : string) (values : list string)
    (header : gmap string (list string)) (k : string) :
  set_values canonical key values header !! k
  = if decide (canonical key = k)
    then match last_value values with
         | Some v => Some v
         | None => header !! k
         end
    else header !! k.
Proof.
  unfold set_values. revert header; induction values as [|value rest IH]; intros header.
  - simpl. now destruct (decide _).
  - cbn [fold_left]. rewrite IH. destruct (decide (canonical key = k)) as [<-|Hne].
    + unfold last_value. destruct rest as [|v' rest'].
      * cbn [last]. now rewrite lookup_insert_eq.
      * change (last (value :: v' :: rest')) with (last (v' :: rest')).
        destruct (last (v' :: rest')) eqn:E; [reflexivity|].
        now apply last_None in E.
    + rewrite lookup_insert_ne by exact Hne.
      destruct (String.eqb value ""); [now rewrite lookup_delete_ne|reflexivity].
Qed.

(** X12.  Of a response header whose keys are canonical, [proxy] keeps one
    value a key, the last one: the other values of a repeated header are
    dropped, and a key without values is left out. *)
Theorem proxy_header_last_value (resp : gmap string (list string)) (k : string) :
  (forall key, is_Some (resp !! key) -> canonical key = key) ->
  (forall key, is_Some (resp !! key) -> In key (header_keys resp)) ->
  proxy_header canonical header_keys resp !! k
  = match resp !! k with
    | Some values => last_value values
    | None => None
    end.
Proof.
  intros Hcanon Hall. unfold proxy_header.
  set (want := fun k : string =>
                 match resp !! k with
                 | Some values => last_value values
                 | None => None
                 end).
  set (step := fun (header : gmap string (list string)) (key : string) =>
                 match resp !! key with
                 | Some values => set_values canonical key values header
                 | None => header
                 end).
  assert (Hstep : forall header key k0,
             (header !! k0 = want k0 \/ header !! k0 = None) ->
             (step header key !! k0 = want k0 \/ step header key !! k0 = None)
             /\ (header !! k0 = want k0 -> step header key !! k0 = want k0)
             /\ (key = k0 -> step header key !! k0 = want k0)).
  { intros header key k0 Hinv. unfold step.
    destruct (resp !! key) as [values|] eqn:Hkey.
    - rewrite set_values_lookup.
      rewrite (Hcanon key) by (rewrite Hkey; eauto).
      destruct (decide (key = k0)) as [->|Hne].
      + assert (Hw : want k0 = last_value values)
          by (unfold want; now rewrite Hkey).
        rewrite Hw in *. destruct (last_value values).
        * tauto.
        * destruct Hinv as [->| ->]; tauto.
      + tauto.
    - repeat split; try tauto. intros ->.
      assert (Hw : want k0 = None) by (unfold want; now rewrite Hkey).
      rewrite Hw in *. destruct Hinv as [->| ->]; reflexivity. }
  assert (Hfold : forall keys header,
             (forall k0, header !! k0 = want k0 \/ header !! k0 = None) ->
             (forall k0, fold_left step keys header !! k0 = want k0
                         \/ fold_left step keys header !! k0 = None)
             /\ (forall k0, In k0 keys \/ header !! k0 = want k0 ->
                            fold_left step keys header !! k0 = want k0)).
  { induction keys as [|key rest IH]; intros header Hinv.
    - split; [exact Hinv | intros k0 [[]|H]; exact H].
    - cbn [fold_left].
      destruct (IH (step header key)) as [IH1 IH2].
      { intros k0. apply Hstep, Hinv. }
      split; [exact IH1|].
      intros k0 Hk0. apply IH2.
      destruct (Hstep header key k0 (Hinv k0)) as (_ & Hkeep & Hset).
      destruct Hk0 as [[Heq|Hin]|Hold]; [right; now apply Hset | now left |].
      right. now apply Hkeep. }
  destruct (Hfold (header_keys resp) ∅) as [H1 H2].
  { intros k0. right. apply lookup_empty. }
  fold step. change (match resp !! k with
                     | Some values => last_value values
                     | None => None
                     end) with (want k).
  destruct (resp !! k) as [values|] eqn:Hk.
  - apply H2. left. apply Hall. rewrite Hk. eauto.
  - destruct (H1 k) as [H|H]; [exact H|].
    rewrite H. unfold want. now rewrite Hk.
Qed.

End GatewayFacts.

(** ** Chains of builder calls *)

Section BuilderChains.
Import GoStrings service.

Variable regexp_Match : string -> string -> error + bool.
Variable compareParallel : N.

Lemma call_step_latched (m : BulkMigrator) (step : builder_step) :
  is_nil (Error m) = false ->
  call_step regexp_Match compareParallel m step = Ok m.
Proof.
  intros He. destruct step; cbn [call_step];
    unfold WithIndexPairs, WithScrollSize, WithScrollTime, WithSliceSize,
      WithBufferCount, WithWriteParallel, WithWriteSize, WithPatternIndexes,
      WithParallelism, WithCompareParallelism, WithIds;
    now rewrite He.
Qed.

Lemma call_step_error (m m' : BulkMigrator) (step : builder_step) :
  call_step regexp_Match compareParallel m step = Ok m' ->
  is_nil (Error m) = true -> is_pattern_step step = false ->
  is_nil (Error m') = true.
Proof.
  intros H He Hp. destruct step; try discriminate Hp; cbn [call_step] in H;
    injection H as <-;
    unfold WithIndexPairs, WithScrollSize, WithScrollTime, WithSliceSize,
      WithBufferCount, WithWriteParallel, WithWriteSize,
      WithParallelism, WithCompareParallelism, WithIds;
    rewrite He; exact He.
Qed.

Lemma call_builder_latched (m : BulkMigrator) (call : builder_call) :
  is_nil (Error m) = false ->
  call_builder regexp_Match compareParallel m call = Ok m.
Proof.
  intros He. destruct call as [indexPairs|step]; cbn [call_builder].
  - unfold WithIndexPairPointers. now rewrite He.
  - now apply call_step_latched.
Qed.

Lemma call_builder_free (m : BulkMigrator) (call : builder_call) :
  is_nil (Error m) = true -> is_pattern_call call = false ->
  if has_nil_pair call
  then call_builder regexp_Match compareParallel m call = Crash NilDereference
  else exists m', call_builder regexp_Match compareParallel m call = Ok m'
                  /\ is_nil (Error m') = true.
Proof.
  intros He Hp. destruct call as [indexPairs|step]; cbn [call_builder has_nil_pair].
  - unfold WithIndexPairPointers. rewrite He. cbn [negb].
    destruct (deref_pairs indexPairs) as [pairs|]; cbn [is_nil]; [|reflexivity].
    eexists. split; [reflexivity|].
    unfold WithIndexPairs. rewrite He. exact He.
  - cbn [is_pattern_call] in Hp.
    destruct (call_step regexp_Match compareParallel m step) as [m'|e|c] eqn:E.
    + exists m'. split; [reflexivity|]. exact (call_step_error _ _ _ E He Hp).
    + destruct step; discriminate.
    + destruct step; discriminate.
Qed.

(** X13.  A latched error freezes the builder: with [Error] set, every chain of
    calls returns the migrator it was given, a [WithIndexPairs] with a nil
    pair among them.  On an error-free migrator a chain without
    [WithPatternIndexes] panics on a nil pointer when one of its
    [WithIndexPairs] calls is given a nil pair, and ends in an error-free
    migrator when none is: no other step sets [Error]. *)
Theorem builder_error_latched (m : BulkMigrator) (calls : list builder_call) :
  if is_nil (Error m)
  then forallb (fun call => negb (is_pattern_call call)) calls = true ->
       if existsb has_nil_pair calls
       then call_builders regexp_Match compareParallel m calls = Crash NilDereference
       else exists m', call_builders regexp_Match compareParallel m calls = Ok m'
                       /\ Error m' = None
  else call_builders regexp_Match compareParallel m calls = Ok m.
Proof.
  destruct (is_nil (Error m)) eqn:He.
  - revert m He. induction calls as [|call rest IH]; intros m He Hall.
    + exists m. split; [reflexivity | now apply is_nil_None].
    + cbn [forallb] in Hall. apply andb_true_iff in Hall. destruct Hall as [Hs Hr].
      apply negb_true_iff in Hs. cbn [call_builders existsb].
      pose proof (call_builder_free m call He Hs) as Hcall.
      destruct (has_nil_pair call); cbn [orb].
      * now rewrite Hcall.
      * destruct Hcall as (m1 & -> & He1). cbn [obind]. now apply IH.
  - induction calls as [|call rest IH]; [reflexivity|].
    cbn [call_builders]. now rewrite call_builder_latched.
Qed.

Lemma call_step_pairs (m m' : BulkMigrator) (step : builder_step) (k : string) :
  call_step regexp_Match compareParallel m step = Ok m' ->
  is_Some (IndexPairMap m !! k) -> is_Some (IndexPairMap m' !! k).
Proof.
  intros H [p Hp]. destruct step; cbn [call_step] in H;
    try solve [injection H as <-;
               unfold WithScrollSize, WithScrollTime, WithSliceSize,
                 WithBufferCount, WithWriteParallel, WithWriteSize,
                 WithParallelism, WithCompareParallelism, WithIds;
               destruct (negb (is_nil (Error m))); cbn [IndexPairMap]; eauto].
  - injection H as <-. rewrite WithIndexPairs_lookup.
    destruct (is_nil (Error m)); [|eauto].
    destruct (find _ _); eauto.
  - destruct (WithPatternIndexes_lookup _ _ _ _ k H) as [Hkeep _]. eauto.
Qed.

(** X14.  No builder call takes a pair away: an identity that is in the pair map
    is in the pair map after every chain of calls. *)
Theorem builder_pairs_kept (m m' : BulkMigrator) (steps : list builder_step)
    (k : string) :
  call_steps regexp_Match compareParallel m steps = Ok m' ->
  is_Some (IndexPairMap m !! k) ->
  is_Some (IndexPairMap m' !! k).
Proof.
  revert m; induction steps as [|step rest IH]; intros m.
  - now intros [= <-].
  - cbn [call_steps].
    destruct (call_step regexp_Match compareParallel m step) as [m1|e|c] eqn:E;
      cbn [obind]; [|discriminate..].
    intros Hrest Hk. apply (IH _ Hrest). exact (call_step_pairs _ _ _ _ E Hk).
Qed.

Lemma WithIndexPairs_same_map (m : BulkMigrator) (indexPairs : list IndexPair) :
  IndexPairMap (WithIndexPairs m indexPairs) = IndexPairMap m ->
  WithIndexPairs m indexPairs = m.
Proof.
  destruct m as [c s t p pairs e ss st sl bc wp ws ids cp].
  unfold WithIndexPairs. cbn [Error IndexPairMap]. destruct e; cbn [is_nil negb];
    [reflexivity|].
  cbn. now intros ->.
Qed.

(** X15.  [WithIndexPairs] given the same pairs a second time changes nothing. *)
Theorem WithIndexPairs_idempotent (m : BulkMigrator) (indexPairs : list IndexPair) :
  WithIndexPairs (WithIndexPairs m indexPairs) indexPairs
  = WithIndexPairs m indexPairs.
Proof.
  apply WithIndexPairs_same_map.
  apply map_eq. intros k. rewrite !WithIndexPairs_lookup.
  assert (He : Error (WithIndexPairs m indexPairs) = Error m)
    by (unfold WithIndexPairs; destruct (Error m) eqn:E; cbn; congruence).
  rewrite He. destruct (is_nil (Error m)); [|reflexivity].
  now destruct (find _ indexPairs).
Qed.

End BuilderChains.

(** ** Resolving a pattern *)

Section PatternFacts.
Import GoStrings service.

Variable regexp_Match : string -> string -> error + bool.

Lemma filter_loop_spec (ignoreSystemIndex : bool) (pattern : string)
    (indexes filteredIndexes : list string) :
  match filter_loop regexp_Match ignoreSystemIndex pattern indexes filteredIndexes with
  | Ok out =>
      out = (filteredIndexes
             ++ List.filter (index_kept regexp_Match ignoreSystemIndex pattern)
                  indexes)%list
  | Err e =>
      exists index, In index indexes
        /\ ignoreSystemIndex && HasPrefix index "." = false
        /\ regexp_Match pattern index = inl e
  | Crash _ => False
  end.
Proof.
  revert filteredIndexes; induction indexes as [|index rest IH]; intros acc.
  - cbn. now rewrite app_nil_r.
  - cbn [filter_loop List.filter].
    assert (Hk : index_kept regexp_Match ignoreSystemIndex pattern index
                 = negb (ignoreSystemIndex && HasPrefix index ".")
                   && match regexp_Match pattern index with
                      | inr ok => ok
                      | inl _ => false
                      end) by reflexivity.
    rewrite Hk. clear Hk.
    destruct (ignoreSystemIndex && HasPrefix index ".") eqn:Hsys; cbn [negb andb].
    + specialize (IH acc).
      destruct (filter_loop _ _ _ rest acc) as [out|e|c]; [exact IH| |exact IH].
      destruct IH as (i & Hin & Hi). exists i. split; [now right | exact Hi].
    + destruct (regexp_Match pattern index) as [e|ok] eqn:Hre.
      * exists index. split; [now left | tauto].
      * specialize (IH (if ok then (acc ++ [index])%list else acc)).
        destruct (filter_loop _ _ _ rest _) as [out|e|c]; [| |exact IH].
        -- destruct ok; [|exact IH]. now rewrite IH, <- app_assoc.
        -- destruct IH as (i & Hin & Hi). exists i. split; [now right | exact Hi].
Qed.

(** X16.  What [filterIndexes] answers.  With the catalogue of the source
    cluster at hand it returns, in the order of the catalogue, the indexes
    that the pattern matches and that are not passed over as system
    indexes; an index that is passed over is not given to the pattern.  Its
    only errors are the catalogue's and the first error of a match. *)
Theorem filterIndexes_result (m : BulkMigrator) (pattern : string) :
  match GetIndexes (SourceES m) with
  | Ok indexes =>
      match filterIndexes regexp_Match m pattern with
      | Ok out =>
          out = List.filter
                  (index_kept regexp_Match (CtxKeyIgnoreSystemIndex (ctx m)) pattern)
                  indexes
      | Err e =>
          exists index, In index indexes
            /\ CtxKeyIgnoreSystemIndex (ctx m) && HasPrefix index "." = false
            /\ regexp_Match pattern index = inl e
      | Crash _ => False
      end
  | Err e => filterIndexes regexp_Match m pattern = Err e
  | Crash c => filterIndexes regexp_Match m pattern = Crash c
  end.
Proof.
  unfold filterIndexes.
  destruct (GetIndexes (SourceES m)) as [indexes|e|c]; cbn [obind]; try reflexivity.
  exact (filter_loop_spec _ pattern indexes []).
Qed.

Lemma append_same_length (a b x y : string) :
  String.length a = String.length b -> a ++ x = b ++ y -> a = b /\ x = y.
Proof.
  revert b; induction a as [|c a IH]; intros [|d b] Hlen Heq; try discriminate Hlen.
  - now rewrite !append_nil_l in Heq.
  - rewrite !append_cons in Heq. injection Heq as -> Heq.
    destruct (IH b) as [-> ->]; [simpl in Hlen; lia | exact Heq | tauto].
Qed.

Lemma collect_pattern_complete (existing : gmap string IndexPair)
    (indexes : list string) (index : string) :
  In index indexes ->
  existing !! getIndexPairKey (mkIndexPair index index) = None ->
  collect_pattern existing indexes !! getIndexPairKey (mkIndexPair index index)
  = Some (mkIndexPair index index).
Proof.
  intros Hin Hnew. unfold collect_pattern.
  set (step := fun (acc : gmap string IndexPair) (i : string) =>
                 if is_nil (existing !! getIndexPairKey (mkIndexPair i i))
                 then <[getIndexPairKey (mkIndexPair i i) := mkIndexPair i i]> acc
                 else acc).
  set (k := getIndexPairKey (mkIndexPair index index)) in *.
  assert (Hkey : forall i, getIndexPairKey (mkIndexPair i i) = k -> i = index).
  { intros i Hi. unfold k, getIndexPairKey in Hi. cbn [SourceIndex TargetIndex] in Hi.
    assert (Hlen : String.length i = String.length index).
    { apply (f_equal String.length) in Hi. rewrite !length_app in Hi. lia. }
    now apply (append_same_length _ _ _ _ Hlen) in Hi. }
  assert (Hkeep : forall l acc,
             acc !! k = Some (mkIndexPair index index) ->
             fold_left step l acc !! k = Some (mkIndexPair index index)).
  { induction l as [|i l IH]; intros acc Hacc; [exact Hacc|].
    cbn [fold_left]. apply IH. unfold step.
    destruct (is_nil _); [|exact Hacc].
    destruct (decide (getIndexPairKey (mkIndexPair i i) = k)) as [E|E].
    - rewrite E, lookup_insert_eq. now rewrite (Hkey _ E).
    - now rewrite lookup_insert_ne. }
  assert (Hgen : forall l acc, In index l ->
             fold_left step l acc !! k = Some (mkIndexPair index index)).
  { induction l as [|i l IH]; intros acc Hl; [destruct Hl|].
    destruct Hl as [->|Hl].
    - cbn [fold_left]. apply Hkeep. unfold step. fold k. rewrite Hnew.
      cbn [is_nil]. apply lookup_insert_eq.
    - cbn [fold_left]. now apply IH. }
  now apply Hgen.
Qed.

(** X17.  What [WithPatternIndexes] does with the answer of [filterIndexes], on
    an error-free migrator.  Every index of the answer is in the pair map
    afterwards, under the identity of the pair of the index with itself:
    as that pair, unless the identity was in the map, whose entry stays.
    The map holds nothing else that is new.  An error of [filterIndexes]
    is latched and leaves the pair map as it was. *)
Theorem WithPatternIndexes_pairs (m : BulkMigrator) (pattern : string) :
  Error m = None ->
  match filterIndexes regexp_Match m pattern with
  | Ok indexes =>
      exists m', WithPatternIndexes regexp_Match m pattern = Ok m'
        /\ Error m' = None
        /\ (forall index, In index indexes ->
              IndexPairMap m' !! getIndexPairKey (mkIndexPair index index)
              = match IndexPairMap m !! getIndexPairKey (mkIndexPair index index) with
                | Some old => Some old
                | None => Some (mkIndexPair index index)
                end)
        /\ (forall k p, IndexPairMap m' !! k = Some p ->
              IndexPairMap m !! k = Some p
              \/ exists index, In index indexes /\ p = mkIndexPair index index
                               /\ k = getIndexPairKey p)
  | Err e =>
      exists m', WithPatternIndexes regexp_Match m pattern = Ok m'
        /\ Error m' = Some e /\ IndexPairMap m' = IndexPairMap m
  | Crash c => WithPatternIndexes regexp_Match m pattern = Crash c
  end.
Proof.
  intros He. unfold WithPatternIndexes. rewrite He. cbn [is_nil negb].
  destruct (filterIndexes regexp_Match m pattern) as [indexes|e|c];
    [|eexists; repeat split|reflexivity].
  eexists. split; [reflexivity|]. cbn [Error IndexPairMap]. split; [reflexivity|].
  assert (Hnew : forall k p,
             collect_pattern (IndexPairMap m) indexes !! k = Some p ->
             exists index, In index indexes /\ p = mkIndexPair index index
                           /\ k = getIndexPairKey p).
  { unfold collect_pattern. intros k p.
    set (step := fun (acc : gmap string IndexPair) (i : string) => _).
    assert (Hgen : forall l acc,
               (forall k p, acc !! k = Some p ->
                  exists index, In index indexes /\ p = mkIndexPair index index
                                /\ k = getIndexPairKey p) ->
               (forall i, In i l -> In i indexes) ->
               forall k p, fold_left step l acc !! k = Some p ->
                 exists index, In index indexes /\ p = mkIndexPair index index
                               /\ k = getIndexPairKey p).
    { induction l as [|i l IH]; intros acc Hacc Hsub; [exact Hacc|].
      cbn [fold_left]. apply IH; [|intros j Hj; apply Hsub; now right].
      intros k0 p0. unfold step. destruct (is_nil _); [|apply Hacc].
      destruct (decide (getIndexPairKey (mkIndexPair i i) = k0)) as [<-|E].
      - rewrite lookup_insert_eq. intros [= <-]. exists i.
        split; [apply Hsub; now left | tauto].
      - rewrite lookup_insert_ne by exact E. apply Hacc. }
    apply (Hgen indexes ∅); [|tauto]. intros k0 p0. now rewrite lookup_empty. }
  destruct (Nat.ltb_spec 0 (size (collect_pattern (IndexPairMap m) indexes)))
    as [_|Hsize].
  - unfold Assign. split.
    + intros index Hin. rewrite lookup_union.
      destruct (IndexPairMap m !! _) as [old|] eqn:Hold.
      * destruct (collect_pattern _ _ !! _) as [q|] eqn:Hq; [|reflexivity].
        apply collect_pattern_lookup in Hq. destruct Hq; congruence.
      * now rewrite (collect_pattern_complete _ _ _ Hin Hold).
    + intros k p Hp. apply lookup_union_Some_raw in Hp.
      destruct Hp as [Hp|[_ Hp]]; [right; now apply Hnew | now left].
  - assert (Hempty : collect_pattern (IndexPairMap m) indexes = ∅)
      by (apply map_size_empty_iff; lia).
    split; [|tauto].
    intros index Hin. destruct (IndexPairMap m !! _) as [old|] eqn:Hold;
      [reflexivity|].
    pose proof (collect_pattern_complete _ _ _ Hin Hold) as Hc.
    rewrite Hempty, lookup_empty in Hc. discriminate Hc.
Qed.

End PatternFacts.

(** ** The catalogue and the bundle of an index *)

Section CatalogueFacts.
Import GoStrings V6.

Variable scan_lines : string -> list string * option error.

(** The white space a string starts with is there whatever follows the
    string. *)
Lemma space_width_app (s t : string) :
  space_width s <> 0 -> space_width (s ++ t) = space_width s.
Proof.
  destruct s as [|c [|d [|e s]]]; cbn [space_width]; try congruence.
  - rewrite append_cons, append_nil_l. cbn [space_width].
    destruct (isSpace c); [reflexivity|congruence].
  - rewrite !append_cons, append_nil_l. cbn [space_width].
    destruct (isSpace c); [reflexivity|].
    destruct (_ && _); [reflexivity|congruence].
  - rewrite !append_cons. cbn [space_width]. reflexivity.
Qed.

Lemma space_free_before_free (cur rest : string) :
  space_free_before cur rest = true -> space_free cur = true.
Proof.
  induction cur as [|c cur IH]; [reflexivity|].
  cbn [space_free_before space_free]. intros H.
  apply andb_true_iff in H. destruct H as [Hw Hrest].
  rewrite (IH Hrest), andb_true_r. apply Nat.eqb_eq in Hw. apply Nat.eqb_eq.
  destruct (Nat.eq_dec (space_width (String c cur)) 0) as [E|E]; [exact E|].
  rewrite (space_width_app _ rest E) in Hw. contradiction.
Qed.

Lemma space_free_before_snoc (cur rest : string) (c : ascii) :
  space_free_before (cur ++ String c "") rest
  = space_free_before cur (String c rest) && (space_width (String c rest) =? 0)%nat.
Proof.
  induction cur as [|b cur IH].
  - rewrite append_nil_l. cbn [space_free_before]. rewrite append_cons, append_nil_l.
    now rewrite andb_true_r.
  - rewrite append_cons. cbn [space_free_before]. rewrite IH.
    rewrite <- append_cons, append_assoc, (append_cons c "" rest), append_nil_l.
    now rewrite andb_assoc.
Qed.

(** A field is not empty and no white space starts in it. *)
Lemma fields_from_words (skip : nat) (cur : option string) (s : string) (w : string) :
  match cur with
  | Some c => skip = 0 /\ c <> "" /\ space_free_before c s = true
  | None => True
  end ->
  In w (fields_from skip cur s) ->
  w <> "" /\ space_free w = true.
Proof.
  revert skip cur; induction s as [|c s IH]; intros skip cur Hcur Hin.
  - destruct cur as [x|]; cbn [fields_from] in Hin; [|contradiction].
    destruct Hin as [<-|[]]. destruct Hcur as (_ & Hne & Hfree).
    split; [exact Hne | exact (space_free_before_free _ _ Hfree)].
  - cbn [fields_from] in Hin. destruct skip as [|skip].
    + destruct (space_width (String c s)) as [|width] eqn:Hw.
      * destruct cur as [x|].
        -- apply (IH 0 (Some (x ++ String c ""))); [|exact Hin].
           destruct Hcur as (_ & Hne & Hfree).
           split; [reflexivity|]. split.
           ++ destruct x; [now destruct Hne | discriminate].
           ++ rewrite space_free_before_snoc, Hfree, Hw. reflexivity.
        -- apply (IH 0 (Some (String c ""))); [|exact Hin].
           split; [reflexivity|]. split; [discriminate|].
           cbn [space_free_before]. rewrite append_cons, append_nil_l, Hw.
           reflexivity.
      * destruct cur as [x|].
        -- destruct Hin as [<-|Hin]; [|now apply (IH width None)].
           destruct Hcur as (_ & Hne & Hfree).
           split; [exact Hne | exact (space_free_before_free _ _ Hfree)].
        -- now apply (IH width None).
    + destruct cur as [x|]; [now destruct Hcur|].
      now apply (IH skip None).
Qed.

(** X18.  The names [GetIndexes] returns are fields of the lines it scanned, one
    a line and in the order of the lines; none is empty and in none does a
    white-space character start, be it one of ASCII or one of the others
    that [unicode.IsSpace] knows. *)
Theorem GetIndexes_names (client : Client) (names : list string) :
  GetIndexes scan_lines client = Ok names ->
  exists res,
    CatIndices client = inr res /\ StatusCode res = 200%Z
    /\ length names = length (fst (scan_lines (Body res)))
    /\ Forall2 (fun line name => In name (Fields line))
         (fst (scan_lines (Body res))) names
    /\ Forall (fun name => name <> "" /\ space_free name = true) names.
Proof.
  unfold GetIndexes. destruct (CatIndices client) as [e|res]; [discriminate|].
  destruct (negb _) eqn:Hs; [discriminate|].
  apply negb_false_iff, Z.eqb_eq in Hs.
  rewrite third_fields_spec.
  destruct (find _ _) eqn:Hf; cbn [obind]; [discriminate|].
  destruct (snd _); [discriminate|]. intros [= <-]. cbn [app].
  exists res. split; [reflexivity|]. split; [exact Hs|].
  assert (Hall : Forall (fun line => 2 < length (Fields line))
                   (fst (scan_lines (Body res)))).
  { apply Forall_forall. intros line Hin. apply list_elem_of_In in Hin.
    apply (find_none _ _ Hf) in Hin.
    apply Nat.ltb_ge in Hin. lia. }
  clear Hf. induction Hall as [|line rest Hline _ IH].
  - repeat split; constructor.
  - destruct IH as (Hlen & H2 & Hw). cbn [map length].
    assert (Hin : In (nth 2 (Fields line) "") (Fields line)) by (apply nth_In; lia).
    split; [now rewrite Hlen|]. split; constructor; try assumption.
    now apply (fields_from_words 0 None line).
Qed.

End CatalogueFacts.

Section BundleFacts.
Import V6.

Variable decodeObject : string -> error + gmap string json.
Variable NewV6Settings :
  gmap string json -> gmap string json -> gmap string json -> string -> IESSettings.

Lemma get_object_Ok (answer : error + Response) (object : gmap string json) :
  get_object decodeObject answer = Ok object ->
  exists res, answer = inr res /\ StatusCode res = 200%Z
              /\ decodeObject (Body res) = inr object.
Proof.
  unfold get_object. destruct answer as [e|res]; [discriminate|].
  destruct (negb _) eqn:Hs; [discriminate|].
  apply negb_false_iff, Z.eqb_eq in Hs.
  destruct (decodeObject (Body res)) as [e|o] eqn:Hd; [discriminate|].
  intros [= <-]. exists res. repeat split; assumption.
Qed.

(** X19.  The bundle of an index.  It is nil exactly when the existence check is
    answered 404, whatever the other calls would answer.  A bundle is
    returned only when the existence check, the settings, the mapping and
    the aliases are all answered 200 and decode, and it is made of the
    three decoded objects and the index name. *)
Theorem GetIndexMappingAndSetting_result
    (client : Client) (indexClient : IndexClient) (index : string) :
  (GetIndexMappingAndSetting decodeObject NewV6Settings client indexClient index
   = Ok None
   <-> exists res, IndicesExists client [index] = inr res /\ StatusCode res = 404%Z)
  /\ (forall bundle,
        GetIndexMappingAndSetting decodeObject NewV6Settings client indexClient index
        = Ok (Some bundle) ->
        exists found settings mapping aliases setting mappingObject aliasesObject,
          IndicesExists client [index] = inr found /\ StatusCode found = 200%Z
          /\ IndicesGetSettings indexClient index = inr settings
          /\ StatusCode settings = 200%Z
          /\ decodeObject (Body settings) = inr setting
          /\ IndicesGetMapping indexClient index = inr mapping
          /\ StatusCode mapping = 200%Z
          /\ decodeObject (Body mapping) = inr mappingObject
          /\ IndicesGetAlias indexClient index = inr aliases
          /\ StatusCode aliases = 200%Z
          /\ decodeObject (Body aliases) = inr aliasesObject
          /\ bundle = NewV6Settings setting mappingObject aliasesObject index).
Proof.
  unfold GetIndexMappingAndSetting, IndexExisted, GetIndexSettings, GetIndexMapping,
    GetIndexAliases.
  destruct (IndicesExists client [index]) as [e|found] eqn:Hex; cbn [obind].
  { split; [split; [discriminate | intros (res & [=] & _)] | discriminate]. }
  destruct (Z.eqb_spec (StatusCode found) 404) as [H404|H404]; cbn [obind negb].
  { split; [split; [eauto | reflexivity] | discriminate]. }
  unfold StatusOK. destruct (Z.eqb_spec (StatusCode found) 200) as [H200|H200];
    cbn [obind negb].
  2: { split; [split; [discriminate | intros (res & [= <-] & Hs); contradiction]
              | discriminate]. }
  destruct (get_object decodeObject (IndicesGetSettings indexClient index))
    as [setting|e|c] eqn:E1; cbn [obind].
  2,3: split; [split; [discriminate | intros (res & [= <-] & Hs); contradiction]
              | discriminate].
  destruct (get_object decodeObject (IndicesGetMapping indexClient index))
    as [mappingObject|e|c] eqn:E2; cbn [obind].
  2,3: split; [split; [discriminate | intros (res & [= <-] & Hs); contradiction]
              | discriminate].
  destruct (get_object decodeObject (IndicesGetAlias indexClient index))
    as [aliasesObject|e|c] eqn:E3; cbn [obind].
  2,3: split; [split; [discriminate | intros (res & [= <-] & Hs); contradiction]
              | discriminate].
  split; [split; [discriminate | intros (res & [= <-] & Hs); contradiction]|].
  intros bundle [= <-].
  apply get_object_Ok in E1, E2, E3.
  destruct E1 as (settings & ? & ? & ?), E2 as (mapping & ? & ? & ?),
    E3 as (aliases & ? & ? & ?).
  exists found, settings, mapping, aliases, setting, mappingObject, aliasesObject.
  repeat split; assumption.
Qed.

End BundleFacts.

(** ** The further properties on sample values *)

Section MoreSamples.
Import GoStrings gateway.

Lemma keys_in_order_complete (m : gmap string json) (k : string) :
  is_Some (m !! k) -> In k (keys_in_order m).
Proof.
  intros [v Hv]. unfold keys_in_order. apply list_elem_of_In.
  apply list_elem_of_fmap. exists (k, v). split; [reflexivity|].
  now apply elem_of_map_to_list.
Qed.

Lemma header_keys_in_order_complete (m : gmap string (list string)) (k : string) :
  is_Some (m !! k) -> In k (header_keys_in_order m).
Proof.
  intros [v Hv]. unfold header_keys_in_order. apply list_elem_of_In.
  apply list_elem_of_fmap. exists (k, v). split; [reflexivity|].
  now apply elem_of_map_to_list.
Qed.

Lemma parseUriPath_uri_witness :
  Uri (mkUriPathParserResult "PUT" "/books/1" RequestActionUpsertDocument
         "books" "book" "1")
  = without_type (Split "/books/book/1" "/").
Proof.
  exact (proj2 (parseUriPath_uri "PUT" "/books/book/1" sample_v7
                  (mkUriPathParserResult "PUT" "/books/1"
                     RequestActionUpsertDocument "books" "book" "1")
                  None eq_refl)).
Defined.

Lemma parseUriPath_action_table_witness :
  action_request RequestActionCreateDocument "POST" "/_create" true.
Proof.
  exact (parseUriPath_action_table "POST" "/_create" sample_v6
           (mkUriPathParserResult "POST" "/_create" RequestActionCreateDocument
              "_create" "" "")
           None eq_refl).
Defined.

Lemma parseUriPath_document_path_witness :
  parseUriPath "PUT" ("/" ++ "books" ++ "/" ++ "book" ++ "/" ++ "1") sample_v7
  = Ok (mkUriPathParserResult "PUT" "/books/1" RequestActionUpsertDocument
          "books" "book" "1", None).
Proof.
  apply (parseUriPath_document_path "PUT" "books" "book" "1" sample_v7);
    (reflexivity || discriminate).
Defined.

Lemma parseUriPath_index_endpoints_witness :
  parseUriPath "PUT" ("/" ++ "books" ++ "/" ++ "book" ++ "/_mapping") sample_v7
  = Ok (mkUriPathParserResult "PUT" "/books/_mapping"
          RequestActionUpdateIndexMapping "books" "book" "", None).
Proof.
  apply (parseUriPath_index_endpoints "PUT" "books" "book" sample_v7);
    reflexivity.
Defined.

(** A GET that is sent to the slave cluster: the path ends in [/_bulk]. *)
Lemma slave_request_verbs_witness :
  ("GET" = "GET" -> HasSuffix "/books/_bulk" "/_bulk" = true)
  /\ ("GET" = "POST" ->
      HasSuffix "/books/_bulk" "/_bulk" = true \/ "/books/_bulk" = "/_create"
      \/ "/books/_bulk" = "/_update")
  /\ ("GET" = "PUT" \/ "GET" = "DELETE" \/ HasSuffix "/books/_bulk" "/_bulk" = true
      \/ "/books/_bulk" = "/_create" \/ "/books/_bulk" = "/_update").
Proof.
  exact (slave_request_verbs version_gte7 sample_unmarshal keys_in_order
           sample_gateway "GET" "/books/_bulk" "typeless"
           (mkUriPathParserResult "GET" "/books/_bulk" RequestActionBulk "" "" "")
           (Some sample_wrapped_body) eq_refl).
Defined.

Lemma slave_request_body_witness :
  exists data mappings data',
    sample_unmarshal "typeless" = inr data
    /\ data !! "mappings" = Some (JObj mappings)
    /\ Some sample_wrapped_body = Some data'
    /\ (forall k, k <> "mappings" -> data' !! k = data !! k).
Proof.
  exact (slave_request_body version_gte7 sample_unmarshal keys_in_order
           sample_gateway "PUT" "/books" "typeless"
           (mkUriPathParserResult "PUT" "/books" RequestActionCreateIndex "books" "" "")
           (Some sample_wrapped_body) eq_refl).
Defined.

Lemma modifyMappings_typed_to_typeless_witness :
  modifyMappings version_gte7 (fun _ => inr sample_typed_body) keys_in_order
    sample_gateway "typed"
  = Ok (Some (<["mappings" :=
                  JObj {["properties" :=
                           JObj {["title" := JObj {["type" := JStr "text"]}]}]}]>
                sample_typed_body)).
Proof.
  apply (modifyMappings_typed_to_typeless version_gte7 (fun _ => inr sample_typed_body)
           keys_in_order keys_in_order_sound keys_in_order_complete
           sample_gateway "typed" sample_typed_body
           (<["properties" := JObj {["title" := JObj {["type" := JStr "text"]}]}]>
              {["dynamic" := JStr "strict"]})
           "book");
    try reflexivity; discriminate.
Defined.

Lemma modifyMappings_round_trip_witness :
  modifyMappings version_gte7 sample_unmarshal keys_in_order sample_gateway "typed"
  = Ok (Some sample_index_body).
Proof.
  apply (modifyMappings_round_trip version_gte7 sample_unmarshal keys_in_order
           keys_in_order_sound keys_in_order_complete
           sample_gateway "typeless" "typed" sample_index_body sample_wrapped_body
           (JObj {["title" := JObj {["type" := JStr "text"]}]}));
    try reflexivity.
  discriminate.
Defined.

Lemma NewESGateway_roles_witness :
  MasterES sample_gateway = TargetES sample_gateway
  /\ SlaveES sample_gateway = SourceES sample_gateway.
Proof.
  exact (proj2 (proj2 (NewESGateway_roles sample_GetES sample_config sample_gateway
                         eq_refl))).
Defined.

Lemma proxy_header_last_value_witness :
  proxy_header (fun key => key) header_keys_in_order sample_header !! "Set-Cookie"
  = Some ["b=2"].
Proof.
  rewrite (proxy_header_last_value (fun key => key) header_keys_in_order
             sample_header "Set-Cookie").
  - reflexivity.
  - reflexivity.
  - apply header_keys_in_order_complete.
Defined.

End MoreSamples.

Section MoreBuilderSamples.
Import service.

Lemma builder_pairs_kept_witness :
  is_Some
    (IndexPairMap
       (WithIds
          (WithScrollSize
             (WithIndexPairs (NewBulkMigratorWithES sample_context sample_logs sample_v7)
                [mkIndexPair "books" "books_v2"]) 500) ["1"; "2"])
     !! "books:books_v2").
Proof.
  apply (builder_pairs_kept sample_regexp 4%N
           (WithIndexPairs (NewBulkMigratorWithES sample_context sample_logs sample_v7)
              [mkIndexPair "books" "books_v2"])
           _ [CallWithScrollSize 500; CallWithIds ["1"; "2"]]).
  - reflexivity.
  - vm_compute. eauto.
Defined.

Lemma WithPatternIndexes_pairs_witness :
  exists m',
    WithPatternIndexes sample_regexp
      (NewBulkMigratorWithES sample_context sample_logs sample_v7) "logs-.*" = Ok m'
    /\ IndexPairMap m' !! "logs-1:logs-1" = Some (mkIndexPair "logs-1" "logs-1")
    /\ IndexPairMap m' !! "logs-2:logs-2" = Some (mkIndexPair "logs-2" "logs-2").
Proof.
  pose proof (WithPatternIndexes_pairs sample_regexp
                (NewBulkMigratorWithES sample_context sample_logs sample_v7)
                "logs-.*" eq_refl) as H.
  assert (Hf : filterIndexes sample_regexp
                 (NewBulkMigratorWithES sample_context sample_logs sample_v7) "logs-.*"
               = Ok ["logs-1"; "logs-2"]) by reflexivity.
  rewrite Hf in H. destruct H as (m' & Hm & _ & Hin & _).
  exists m'. split; [exact Hm|]. split.
  - exact (Hin "logs-1" (or_introl eq_refl)).
  - exact (Hin "logs-2" (or_intror (or_introl eq_refl))).
Defined.

(** A nil pair: a panic on an error-free migrator, and not looked at on one
    that holds an error. *)
Example WithIndexPairPointers_nil_pair :
  WithIndexPairPointers (NewBulkMigratorWithES sample_context sample_logs sample_v7)
    [Some (mkIndexPair "books" "books_v2"); None]
  = Crash NilDereference
  /\ (forall m : BulkMigrator,
        Error m <> None -> WithIndexPairPointers m [None] = Ok m).
Proof.
  split; [reflexivity|]. intros m He. unfold WithIndexPairPointers.
  destruct (Error m); [reflexivity | contradiction].
Qed.

End MoreBuilderSamples.

Section MoreAdapterSamples.
Import GoStrings V6.

Lemma GetIndexes_names_witness :
  Forall (fun name => name <> "" /\ space_free name = true) ["books"; "logs-1"].
Proof.
  destruct (GetIndexes_names sample_scan (sample_client (mkResponse 200 "..."))
              ["books"; "logs-1"] eq_refl)
    as (res & _ & _ & _ & _ & Hw).
  exact Hw.
Defined.

End MoreAdapterSamples.
